(** * Employee / schedule demo ([app.py]): a shallow embedding and its properties

    The program keeps three pieces of session state: the employee directory
    (a list of records), the roster ([assignments], a dict from ISO date
    strings to lists of shifts) and the closed days (a dict from year-month
    strings to dicts of day numbers).  The definitions below follow
    [app.py] function by function; the Python standard library ([str],
    [calendar], [datetime]) and the few pandas operations the program uses
    are modelled next to them. *)

From Stdlib Require Import ZArith NArith Floats Ascii String.
From stdpp Require Import gmap strings list fin_maps.

Local Open Scope Z_scope.

(* ===================================================================== *)
(** ** Python strings *)
(* ===================================================================== *)

(** A Python [str] is a sequence of Unicode code points, so that [list(s)],
    [s.split(",")] and [ch in KOREAN_DAYS] see Hangul syllables as single
    characters. *)
Abbreviation char := N (only parsing).
Abbreviation str := (list N) (only parsing).

Module PyStr.

(** Source literals are written in UTF-8; [u] decodes them to code points. *)
Fixpoint utf8_decode (bs : list N) : str :=
  match bs with
  | [] => []
  | b :: rest =>
      if (b <? 0x80)%N then b :: utf8_decode rest
      else if (b <? 0xE0)%N then
        match rest with
        | b1 :: r => ((b - 0xC0) * 64 + (b1 - 0x80))%N :: utf8_decode r
        | _ => []
        end
      else if (b <? 0xF0)%N then
        match rest with
        | b1 :: b2 :: r =>
            ((b - 0xE0) * 4096 + (b1 - 0x80) * 64 + (b2 - 0x80))%N :: utf8_decode r
        | _ => []
        end
      else
        match rest with
        | b1 :: b2 :: b3 :: r =>
            ((b - 0xF0) * 262144 + (b1 - 0x80) * 4096 + (b2 - 0x80) * 64 + (b3 - 0x80))%N
              :: utf8_decode r
        | _ => []
        end
  end.

Definition u (s : string) : str :=
  utf8_decode (N_of_ascii <$> list_ascii_of_string s).

(** [str.isspace] for one character: the code points Python treats as
    whitespace. *)
Definition isspace (c : char) : bool :=
  ((9 <=? c) && (c <=? 13) || (28 <=? c) && (c <=? 32) || (c =? 0x85) || (c =? 0xA0)
   || (c =? 0x1680) || (0x2000 <=? c) && (c <=? 0x200A) || (c =? 0x2028)
   || (c =? 0x2029) || (c =? 0x202F) || (c =? 0x205F) || (c =? 0x3000))%N.

Fixpoint lstrip (s : str) : str :=
  match s with
  | c :: r => if isspace c then lstrip r else s
  | [] => []
  end.

Definition rstrip (s : str) : str := reverse (lstrip (reverse s)).

(** [s.strip()] *)
Definition strip (s : str) : str := rstrip (lstrip s).

(** [s.lower()], as CPython computes it from the Unicode character
    database (version 14.0.0, the one of CPython 3.11): every character is
    replaced by its full lower-case mapping, and a capital sigma becomes the
    final form when it ends a word.  The three tables below are that
    database's [Cased] and [Case_Ignorable] properties, as ranges of code
    points, and its lower-case mappings, as entries
    [(first, last, step, image of first)]: the characters [first],
    [first + step], ..., [last] map to the image of [first] moved by the same
    distance. *)
Definition CASED : list (N * N) :=
  [
   (0x41, 0x5A); (0x61, 0x7A); (0xAA, 0xAA); (0xB5, 0xB5); (0xBA, 0xBA); (0xC0, 0xD6);
   (0xD8, 0xF6); (0xF8, 0x1BA); (0x1BC, 0x1BF); (0x1C4, 0x293); (0x295, 0x2B8);
   (0x2C0, 0x2C1); (0x2E0, 0x2E4); (0x345, 0x345); (0x370, 0x373); (0x376, 0x377);
   (0x37A, 0x37D); (0x37F, 0x37F); (0x386, 0x386); (0x388, 0x38A); (0x38C, 0x38C);
   (0x38E, 0x3A1); (0x3A3, 0x3F5); (0x3F7, 0x481); (0x48A, 0x52F); (0x531, 0x556);
   (0x560, 0x588); (0x10A0, 0x10C5); (0x10C7, 0x10C7); (0x10CD, 0x10CD);
   (0x10D0, 0x10FA); (0x10FD, 0x10FF); (0x13A0, 0x13F5); (0x13F8, 0x13FD);
   (0x1C80, 0x1C88); (0x1C90, 0x1CBA); (0x1CBD, 0x1CBF); (0x1D00, 0x1DBF);
   (0x1E00, 0x1F15); (0x1F18, 0x1F1D); (0x1F20, 0x1F45); (0x1F48, 0x1F4D);
   (0x1F50, 0x1F57); (0x1F59, 0x1F59); (0x1F5B, 0x1F5B); (0x1F5D, 0x1F5D);
   (0x1F5F, 0x1F7D); (0x1F80, 0x1FB4); (0x1FB6, 0x1FBC); (0x1FBE, 0x1FBE);
   (0x1FC2, 0x1FC4); (0x1FC6, 0x1FCC); (0x1FD0, 0x1FD3); (0x1FD6, 0x1FDB);
   (0x1FE0, 0x1FEC); (0x1FF2, 0x1FF4); (0x1FF6, 0x1FFC); (0x2071, 0x2071);
   (0x207F, 0x207F); (0x2090, 0x209C); (0x2102, 0x2102); (0x2107, 0x2107);
   (0x210A, 0x2113); (0x2115, 0x2115); (0x2119, 0x211D); (0x2124, 0x2124);
   (0x2126, 0x2126); (0x2128, 0x2128); (0x212A, 0x212D); (0x212F, 0x2134);
   (0x2139, 0x2139); (0x213C, 0x213F); (0x2145, 0x2149); (0x214E, 0x214E);
   (0x2160, 0x217F); (0x2183, 0x2184); (0x24B6, 0x24E9); (0x2C00, 0x2CE4);
   (0x2CEB, 0x2CEE); (0x2CF2, 0x2CF3); (0x2D00, 0x2D25); (0x2D27, 0x2D27);
   (0x2D2D, 0x2D2D); (0xA640, 0xA66D); (0xA680, 0xA69D); (0xA722, 0xA787);
   (0xA78B, 0xA78E); (0xA790, 0xA7CA); (0xA7D0, 0xA7D1); (0xA7D3, 0xA7D3);
   (0xA7D5, 0xA7D9); (0xA7F5, 0xA7F6); (0xA7F8, 0xA7FA); (0xAB30, 0xAB5A);
   (0xAB5C, 0xAB68); (0xAB70, 0xABBF); (0xFB00, 0xFB06); (0xFB13, 0xFB17);
   (0xFF21, 0xFF3A); (0xFF41, 0xFF5A); (0x10400, 0x1044F); (0x104B0, 0x104D3);
   (0x104D8, 0x104FB); (0x10570, 0x1057A); (0x1057C, 0x1058A); (0x1058C, 0x10592);
   (0x10594, 0x10595); (0x10597, 0x105A1); (0x105A3, 0x105B1); (0x105B3, 0x105B9);
   (0x105BB, 0x105BC); (0x10780, 0x10780); (0x10783, 0x10785); (0x10787, 0x107B0);
   (0x107B2, 0x107BA); (0x10C80, 0x10CB2); (0x10CC0, 0x10CF2); (0x118A0, 0x118DF);
   (0x16E40, 0x16E7F); (0x1D400, 0x1D454); (0x1D456, 0x1D49C); (0x1D49E, 0x1D49F);
   (0x1D4A2, 0x1D4A2); (0x1D4A5, 0x1D4A6); (0x1D4A9, 0x1D4AC); (0x1D4AE, 0x1D4B9);
   (0x1D4BB, 0x1D4BB); (0x1D4BD, 0x1D4C3); (0x1D4C5, 0x1D505); (0x1D507, 0x1D50A);
   (0x1D50D, 0x1D514); (0x1D516, 0x1D51C); (0x1D51E, 0x1D539); (0x1D53B, 0x1D53E);
   (0x1D540, 0x1D544); (0x1D546, 0x1D546); (0x1D54A, 0x1D550); (0x1D552, 0x1D6A5);
   (0x1D6A8, 0x1D6C0); (0x1D6C2, 0x1D6DA); (0x1D6DC, 0x1D6FA); (0x1D6FC, 0x1D714);
   (0x1D716, 0x1D734); (0x1D736, 0x1D74E); (0x1D750, 0x1D76E); (0x1D770, 0x1D788);
   (0x1D78A, 0x1D7A8); (0x1D7AA, 0x1D7C2); (0x1D7C4, 0x1D7CB); (0x1DF00, 0x1DF09);
   (0x1DF0B, 0x1DF1E); (0x1E900, 0x1E943); (0x1F130, 0x1F149); (0x1F150, 0x1F169);
   (0x1F170, 0x1F189)
  ]%N.

Definition CASE_IGNORABLE : list (N * N) :=
  [
   (0x27, 0x27); (0x2E, 0x2E); (0x3A, 0x3A); (0x5E, 0x5E); (0x60, 0x60); (0xA8, 0xA8);
   (0xAD, 0xAD); (0xAF, 0xAF); (0xB4, 0xB4); (0xB7, 0xB8); (0x2B0, 0x36F);
   (0x374, 0x375); (0x37A, 0x37A); (0x384, 0x385); (0x387, 0x387); (0x483, 0x489);
   (0x559, 0x559); (0x55F, 0x55F); (0x591, 0x5BD); (0x5BF, 0x5BF); (0x5C1, 0x5C2);
   (0x5C4, 0x5C5); (0x5C7, 0x5C7); (0x5F4, 0x5F4); (0x600, 0x605); (0x610, 0x61A);
   (0x61C, 0x61C); (0x640, 0x640); (0x64B, 0x65F); (0x670, 0x670); (0x6D6, 0x6DD);
   (0x6DF, 0x6E8); (0x6EA, 0x6ED); (0x70F, 0x70F); (0x711, 0x711); (0x730, 0x74A);
   (0x7A6, 0x7B0); (0x7EB, 0x7F5); (0x7FA, 0x7FA); (0x7FD, 0x7FD); (0x816, 0x82D);
   (0x859, 0x85B); (0x888, 0x888); (0x890, 0x891); (0x898, 0x89F); (0x8C9, 0x902);
   (0x93A, 0x93A); (0x93C, 0x93C); (0x941, 0x948); (0x94D, 0x94D); (0x951, 0x957);
   (0x962, 0x963); (0x971, 0x971); (0x981, 0x981); (0x9BC, 0x9BC); (0x9C1, 0x9C4);
   (0x9CD, 0x9CD); (0x9E2, 0x9E3); (0x9FE, 0x9FE); (0xA01, 0xA02); (0xA3C, 0xA3C);
   (0xA41, 0xA42); (0xA47, 0xA48); (0xA4B, 0xA4D); (0xA51, 0xA51); (0xA70, 0xA71);
   (0xA75, 0xA75); (0xA81, 0xA82); (0xABC, 0xABC); (0xAC1, 0xAC5); (0xAC7, 0xAC8);
   (0xACD, 0xACD); (0xAE2, 0xAE3); (0xAFA, 0xAFF); (0xB01, 0xB01); (0xB3C, 0xB3C);
   (0xB3F, 0xB3F); (0xB41, 0xB44); (0xB4D, 0xB4D); (0xB55, 0xB56); (0xB62, 0xB63);
   (0xB82, 0xB82); (0xBC0, 0xBC0); (0xBCD, 0xBCD); (0xC00, 0xC00); (0xC04, 0xC04);
   (0xC3C, 0xC3C); (0xC3E, 0xC40); (0xC46, 0xC48); (0xC4A, 0xC4D); (0xC55, 0xC56);
   (0xC62, 0xC63); (0xC81, 0xC81); (0xCBC, 0xCBC); (0xCBF, 0xCBF); (0xCC6, 0xCC6);
   (0xCCC, 0xCCD); (0xCE2, 0xCE3); (0xD00, 0xD01); (0xD3B, 0xD3C); (0xD41, 0xD44);
   (0xD4D, 0xD4D); (0xD62, 0xD63); (0xD81, 0xD81); (0xDCA, 0xDCA); (0xDD2, 0xDD4);
   (0xDD6, 0xDD6); (0xE31, 0xE31); (0xE34, 0xE3A); (0xE46, 0xE4E); (0xEB1, 0xEB1);
   (0xEB4, 0xEBC); (0xEC6, 0xEC6); (0xEC8, 0xECD); (0xF18, 0xF19); (0xF35, 0xF35);
   (0xF37, 0xF37); (0xF39, 0xF39); (0xF71, 0xF7E); (0xF80, 0xF84); (0xF86, 0xF87);
   (0xF8D, 0xF97); (0xF99, 0xFBC); (0xFC6, 0xFC6); (0x102D, 0x1030); (0x1032, 0x1037);
   (0x1039, 0x103A); (0x103D, 0x103E); (0x1058, 0x1059); (0x105E, 0x1060);
   (0x1071, 0x1074); (0x1082, 0x1082); (0x1085, 0x1086); (0x108D, 0x108D);
   (0x109D, 0x109D); (0x10FC, 0x10FC); (0x135D, 0x135F); (0x1712, 0x1714);
   (0x1732, 0x1733); (0x1752, 0x1753); (0x1772, 0x1773); (0x17B4, 0x17B5);
   (0x17B7, 0x17BD); (0x17C6, 0x17C6); (0x17C9, 0x17D3); (0x17D7, 0x17D7);
   (0x17DD, 0x17DD); (0x180B, 0x180F); (0x1843, 0x1843); (0x1885, 0x1886);
   (0x18A9, 0x18A9); (0x1920, 0x1922); (0x1927, 0x1928); (0x1932, 0x1932);
   (0x1939, 0x193B); (0x1A17, 0x1A18); (0x1A1B, 0x1A1B); (0x1A56, 0x1A56);
   (0x1A58, 0x1A5E); (0x1A60, 0x1A60); (0x1A62, 0x1A62); (0x1A65, 0x1A6C);
   (0x1A73, 0x1A7C); (0x1A7F, 0x1A7F); (0x1AA7, 0x1AA7); (0x1AB0, 0x1ACE);
   (0x1B00, 0x1B03); (0x1B34, 0x1B34); (0x1B36, 0x1B3A); (0x1B3C, 0x1B3C);
   (0x1B42, 0x1B42); (0x1B6B, 0x1B73); (0x1B80, 0x1B81); (0x1BA2, 0x1BA5);
   (0x1BA8, 0x1BA9); (0x1BAB, 0x1BAD); (0x1BE6, 0x1BE6); (0x1BE8, 0x1BE9);
   (0x1BED, 0x1BED); (0x1BEF, 0x1BF1); (0x1C2C, 0x1C33); (0x1C36, 0x1C37);
   (0x1C78, 0x1C7D); (0x1CD0, 0x1CD2); (0x1CD4, 0x1CE0); (0x1CE2, 0x1CE8);
   (0x1CED, 0x1CED); (0x1CF4, 0x1CF4); (0x1CF8, 0x1CF9); (0x1D2C, 0x1D6A);
   (0x1D78, 0x1D78); (0x1D9B, 0x1DFF); (0x1FBD, 0x1FBD); (0x1FBF, 0x1FC1);
   (0x1FCD, 0x1FCF); (0x1FDD, 0x1FDF); (0x1FED, 0x1FEF); (0x1FFD, 0x1FFE);
   (0x200B, 0x200F); (0x2018, 0x2019); (0x2024, 0x2024); (0x2027, 0x2027);
   (0x202A, 0x202E); (0x2060, 0x2064); (0x2066, 0x206F); (0x2071, 0x2071);
   (0x207F, 0x207F); (0x2090, 0x209C); (0x20D0, 0x20F0); (0x2C7C, 0x2C7D);
   (0x2CEF, 0x2CF1); (0x2D6F, 0x2D6F); (0x2D7F, 0x2D7F); (0x2DE0, 0x2DFF);
   (0x2E2F, 0x2E2F); (0x3005, 0x3005); (0x302A, 0x302D); (0x3031, 0x3035);
   (0x303B, 0x303B); (0x3099, 0x309E); (0x30FC, 0x30FE); (0xA015, 0xA015);
   (0xA4F8, 0xA4FD); (0xA60C, 0xA60C); (0xA66F, 0xA672); (0xA674, 0xA67D);
   (0xA67F, 0xA67F); (0xA69C, 0xA69F); (0xA6F0, 0xA6F1); (0xA700, 0xA721);
   (0xA770, 0xA770); (0xA788, 0xA78A); (0xA7F2, 0xA7F4); (0xA7F8, 0xA7F9);
   (0xA802, 0xA802); (0xA806, 0xA806); (0xA80B, 0xA80B); (0xA825, 0xA826);
   (0xA82C, 0xA82C); (0xA8C4, 0xA8C5); (0xA8E0, 0xA8F1); (0xA8FF, 0xA8FF);
   (0xA926, 0xA92D); (0xA947, 0xA951); (0xA980, 0xA982); (0xA9B3, 0xA9B3);
   (0xA9B6, 0xA9B9); (0xA9BC, 0xA9BD); (0xA9CF, 0xA9CF); (0xA9E5, 0xA9E6);
   (0xAA29, 0xAA2E); (0xAA31, 0xAA32); (0xAA35, 0xAA36); (0xAA43, 0xAA43);
   (0xAA4C, 0xAA4C); (0xAA70, 0xAA70); (0xAA7C, 0xAA7C); (0xAAB0, 0xAAB0);
   (0xAAB2, 0xAAB4); (0xAAB7, 0xAAB8); (0xAABE, 0xAABF); (0xAAC1, 0xAAC1);
   (0xAADD, 0xAADD); (0xAAEC, 0xAAED); (0xAAF3, 0xAAF4); (0xAAF6, 0xAAF6);
   (0xAB5B, 0xAB5F); (0xAB69, 0xAB6B); (0xABE5, 0xABE5); (0xABE8, 0xABE8);
   (0xABED, 0xABED); (0xFB1E, 0xFB1E); (0xFBB2, 0xFBC2); (0xFE00, 0xFE0F);
   (0xFE13, 0xFE13); (0xFE20, 0xFE2F); (0xFE52, 0xFE52); (0xFE55, 0xFE55);
   (0xFEFF, 0xFEFF); (0xFF07, 0xFF07); (0xFF0E, 0xFF0E); (0xFF1A, 0xFF1A);
   (0xFF3E, 0xFF3E); (0xFF40, 0xFF40); (0xFF70, 0xFF70); (0xFF9E, 0xFF9F);
   (0xFFE3, 0xFFE3); (0xFFF9, 0xFFFB); (0x101FD, 0x101FD); (0x102E0, 0x102E0);
   (0x10376, 0x1037A); (0x10780, 0x10785); (0x10787, 0x107B0); (0x107B2, 0x107BA);
   (0x10A01, 0x10A03); (0x10A05, 0x10A06); (0x10A0C, 0x10A0F); (0x10A38, 0x10A3A);
   (0x10A3F, 0x10A3F); (0x10AE5, 0x10AE6); (0x10D24, 0x10D27); (0x10EAB, 0x10EAC);
   (0x10F46, 0x10F50); (0x10F82, 0x10F85); (0x11001, 0x11001); (0x11038, 0x11046);
   (0x11070, 0x11070); (0x11073, 0x11074); (0x1107F, 0x11081); (0x110B3, 0x110B6);
   (0x110B9, 0x110BA); (0x110BD, 0x110BD); (0x110C2, 0x110C2); (0x110CD, 0x110CD);
   (0x11100, 0x11102); (0x11127, 0x1112B); (0x1112D, 0x11134); (0x11173, 0x11173);
   (0x11180, 0x11181); (0x111B6, 0x111BE); (0x111C9, 0x111CC); (0x111CF, 0x111CF);
   (0x1122F, 0x11231); (0x11234, 0x11234); (0x11236, 0x11237); (0x1123E, 0x1123E);
   (0x112DF, 0x112DF); (0x112E3, 0x112EA); (0x11300, 0x11301); (0x1133B, 0x1133C);
   (0x11340, 0x11340); (0x11366, 0x1136C); (0x11370, 0x11374); (0x11438, 0x1143F);
   (0x11442, 0x11444); (0x11446, 0x11446); (0x1145E, 0x1145E); (0x114B3, 0x114B8);
   (0x114BA, 0x114BA); (0x114BF, 0x114C0); (0x114C2, 0x114C3); (0x115B2, 0x115B5);
   (0x115BC, 0x115BD); (0x115BF, 0x115C0); (0x115DC, 0x115DD); (0x11633, 0x1163A);
   (0x1163D, 0x1163D); (0x1163F, 0x11640); (0x116AB, 0x116AB); (0x116AD, 0x116AD);
   (0x116B0, 0x116B5); (0x116B7, 0x116B7); (0x1171D, 0x1171F); (0x11722, 0x11725);
   (0x11727, 0x1172B); (0x1182F, 0x11837); (0x11839, 0x1183A); (0x1193B, 0x1193C);
   (0x1193E, 0x1193E); (0x11943, 0x11943); (0x119D4, 0x119D7); (0x119DA, 0x119DB);
   (0x119E0, 0x119E0); (0x11A01, 0x11A0A); (0x11A33, 0x11A38); (0x11A3B, 0x11A3E);
   (0x11A47, 0x11A47); (0x11A51, 0x11A56); (0x11A59, 0x11A5B); (0x11A8A, 0x11A96);
   (0x11A98, 0x11A99); (0x11C30, 0x11C36); (0x11C38, 0x11C3D); (0x11C3F, 0x11C3F);
   (0x11C92, 0x11CA7); (0x11CAA, 0x11CB0); (0x11CB2, 0x11CB3); (0x11CB5, 0x11CB6);
   (0x11D31, 0x11D36); (0x11D3A, 0x11D3A); (0x11D3C, 0x11D3D); (0x11D3F, 0x11D45);
   (0x11D47, 0x11D47); (0x11D90, 0x11D91); (0x11D95, 0x11D95); (0x11D97, 0x11D97);
   (0x11EF3, 0x11EF4); (0x13430, 0x13438); (0x16AF0, 0x16AF4); (0x16B30, 0x16B36);
   (0x16B40, 0x16B43); (0x16F4F, 0x16F4F); (0x16F8F, 0x16F9F); (0x16FE0, 0x16FE1);
   (0x16FE3, 0x16FE4); (0x1AFF0, 0x1AFF3); (0x1AFF5, 0x1AFFB); (0x1AFFD, 0x1AFFE);
   (0x1BC9D, 0x1BC9E); (0x1BCA0, 0x1BCA3); (0x1CF00, 0x1CF2D); (0x1CF30, 0x1CF46);
   (0x1D167, 0x1D169); (0x1D173, 0x1D182); (0x1D185, 0x1D18B); (0x1D1AA, 0x1D1AD);
   (0x1D242, 0x1D244); (0x1DA00, 0x1DA36); (0x1DA3B, 0x1DA6C); (0x1DA75, 0x1DA75);
   (0x1DA84, 0x1DA84); (0x1DA9B, 0x1DA9F); (0x1DAA1, 0x1DAAF); (0x1E000, 0x1E006);
   (0x1E008, 0x1E018); (0x1E01B, 0x1E021); (0x1E023, 0x1E024); (0x1E026, 0x1E02A);
   (0x1E130, 0x1E13D); (0x1E2AE, 0x1E2AE); (0x1E2EC, 0x1E2EF); (0x1E8D0, 0x1E8D6);
   (0x1E944, 0x1E94B); (0x1F3FB, 0x1F3FF); (0xE0001, 0xE0001); (0xE0020, 0xE007F);
   (0xE0100, 0xE01EF)
  ]%N.

Definition LOWERCASE : list (N * N * N * N) :=
  [
   (0x41, 0x5A, 1, 0x61); (0xC0, 0xD6, 1, 0xE0); (0xD8, 0xDE, 1, 0xF8);
   (0x100, 0x12E, 2, 0x101); (0x132, 0x136, 2, 0x133); (0x139, 0x147, 2, 0x13A);
   (0x14A, 0x176, 2, 0x14B); (0x178, 0x178, 1, 0xFF); (0x179, 0x17D, 2, 0x17A);
   (0x181, 0x181, 1, 0x253); (0x182, 0x184, 2, 0x183); (0x186, 0x186, 1, 0x254);
   (0x187, 0x187, 1, 0x188); (0x189, 0x18A, 1, 0x256); (0x18B, 0x18B, 1, 0x18C);
   (0x18E, 0x18E, 1, 0x1DD); (0x18F, 0x18F, 1, 0x259); (0x190, 0x190, 1, 0x25B);
   (0x191, 0x191, 1, 0x192); (0x193, 0x193, 1, 0x260); (0x194, 0x194, 1, 0x263);
   (0x196, 0x196, 1, 0x269); (0x197, 0x197, 1, 0x268); (0x198, 0x198, 1, 0x199);
   (0x19C, 0x19C, 1, 0x26F); (0x19D, 0x19D, 1, 0x272); (0x19F, 0x19F, 1, 0x275);
   (0x1A0, 0x1A4, 2, 0x1A1); (0x1A6, 0x1A6, 1, 0x280); (0x1A7, 0x1A7, 1, 0x1A8);
   (0x1A9, 0x1A9, 1, 0x283); (0x1AC, 0x1AC, 1, 0x1AD); (0x1AE, 0x1AE, 1, 0x288);
   (0x1AF, 0x1AF, 1, 0x1B0); (0x1B1, 0x1B2, 1, 0x28A); (0x1B3, 0x1B5, 2, 0x1B4);
   (0x1B7, 0x1B7, 1, 0x292); (0x1B8, 0x1B8, 1, 0x1B9); (0x1BC, 0x1BC, 1, 0x1BD);
   (0x1C4, 0x1C4, 1, 0x1C6); (0x1C5, 0x1C5, 1, 0x1C6); (0x1C7, 0x1C7, 1, 0x1C9);
   (0x1C8, 0x1C8, 1, 0x1C9); (0x1CA, 0x1CA, 1, 0x1CC); (0x1CB, 0x1DB, 2, 0x1CC);
   (0x1DE, 0x1EE, 2, 0x1DF); (0x1F1, 0x1F1, 1, 0x1F3); (0x1F2, 0x1F4, 2, 0x1F3);
   (0x1F6, 0x1F6, 1, 0x195); (0x1F7, 0x1F7, 1, 0x1BF); (0x1F8, 0x21E, 2, 0x1F9);
   (0x220, 0x220, 1, 0x19E); (0x222, 0x232, 2, 0x223); (0x23A, 0x23A, 1, 0x2C65);
   (0x23B, 0x23B, 1, 0x23C); (0x23D, 0x23D, 1, 0x19A); (0x23E, 0x23E, 1, 0x2C66);
   (0x241, 0x241, 1, 0x242); (0x243, 0x243, 1, 0x180); (0x244, 0x244, 1, 0x289);
   (0x245, 0x245, 1, 0x28C); (0x246, 0x24E, 2, 0x247); (0x370, 0x372, 2, 0x371);
   (0x376, 0x376, 1, 0x377); (0x37F, 0x37F, 1, 0x3F3); (0x386, 0x386, 1, 0x3AC);
   (0x388, 0x38A, 1, 0x3AD); (0x38C, 0x38C, 1, 0x3CC); (0x38E, 0x38F, 1, 0x3CD);
   (0x391, 0x3A1, 1, 0x3B1); (0x3A3, 0x3AB, 1, 0x3C3); (0x3CF, 0x3CF, 1, 0x3D7);
   (0x3D8, 0x3EE, 2, 0x3D9); (0x3F4, 0x3F4, 1, 0x3B8); (0x3F7, 0x3F7, 1, 0x3F8);
   (0x3F9, 0x3F9, 1, 0x3F2); (0x3FA, 0x3FA, 1, 0x3FB); (0x3FD, 0x3FF, 1, 0x37B);
   (0x400, 0x40F, 1, 0x450); (0x410, 0x42F, 1, 0x430); (0x460, 0x480, 2, 0x461);
   (0x48A, 0x4BE, 2, 0x48B); (0x4C0, 0x4C0, 1, 0x4CF); (0x4C1, 0x4CD, 2, 0x4C2);
   (0x4D0, 0x52E, 2, 0x4D1); (0x531, 0x556, 1, 0x561); (0x10A0, 0x10C5, 1, 0x2D00);
   (0x10C7, 0x10C7, 1, 0x2D27); (0x10CD, 0x10CD, 1, 0x2D2D);
   (0x13A0, 0x13EF, 1, 0xAB70); (0x13F0, 0x13F5, 1, 0x13F8);
   (0x1C90, 0x1CBA, 1, 0x10D0); (0x1CBD, 0x1CBF, 1, 0x10FD);
   (0x1E00, 0x1E94, 2, 0x1E01); (0x1E9E, 0x1E9E, 1, 0xDF); (0x1EA0, 0x1EFE, 2, 0x1EA1);
   (0x1F08, 0x1F0F, 1, 0x1F00); (0x1F18, 0x1F1D, 1, 0x1F10);
   (0x1F28, 0x1F2F, 1, 0x1F20); (0x1F38, 0x1F3F, 1, 0x1F30);
   (0x1F48, 0x1F4D, 1, 0x1F40); (0x1F59, 0x1F5F, 2, 0x1F51);
   (0x1F68, 0x1F6F, 1, 0x1F60); (0x1F88, 0x1F8F, 1, 0x1F80);
   (0x1F98, 0x1F9F, 1, 0x1F90); (0x1FA8, 0x1FAF, 1, 0x1FA0);
   (0x1FB8, 0x1FB9, 1, 0x1FB0); (0x1FBA, 0x1FBB, 1, 0x1F70);
   (0x1FBC, 0x1FBC, 1, 0x1FB3); (0x1FC8, 0x1FCB, 1, 0x1F72);
   (0x1FCC, 0x1FCC, 1, 0x1FC3); (0x1FD8, 0x1FD9, 1, 0x1FD0);
   (0x1FDA, 0x1FDB, 1, 0x1F76); (0x1FE8, 0x1FE9, 1, 0x1FE0);
   (0x1FEA, 0x1FEB, 1, 0x1F7A); (0x1FEC, 0x1FEC, 1, 0x1FE5);
   (0x1FF8, 0x1FF9, 1, 0x1F78); (0x1FFA, 0x1FFB, 1, 0x1F7C);
   (0x1FFC, 0x1FFC, 1, 0x1FF3); (0x2126, 0x2126, 1, 0x3C9); (0x212A, 0x212A, 1, 0x6B);
   (0x212B, 0x212B, 1, 0xE5); (0x2132, 0x2132, 1, 0x214E); (0x2160, 0x216F, 1, 0x2170);
   (0x2183, 0x2183, 1, 0x2184); (0x24B6, 0x24CF, 1, 0x24D0);
   (0x2C00, 0x2C2F, 1, 0x2C30); (0x2C60, 0x2C60, 1, 0x2C61);
   (0x2C62, 0x2C62, 1, 0x26B); (0x2C63, 0x2C63, 1, 0x1D7D); (0x2C64, 0x2C64, 1, 0x27D);
   (0x2C67, 0x2C6B, 2, 0x2C68); (0x2C6D, 0x2C6D, 1, 0x251); (0x2C6E, 0x2C6E, 1, 0x271);
   (0x2C6F, 0x2C6F, 1, 0x250); (0x2C70, 0x2C70, 1, 0x252); (0x2C72, 0x2C72, 1, 0x2C73);
   (0x2C75, 0x2C75, 1, 0x2C76); (0x2C7E, 0x2C7F, 1, 0x23F);
   (0x2C80, 0x2CE2, 2, 0x2C81); (0x2CEB, 0x2CED, 2, 0x2CEC);
   (0x2CF2, 0x2CF2, 1, 0x2CF3); (0xA640, 0xA66C, 2, 0xA641);
   (0xA680, 0xA69A, 2, 0xA681); (0xA722, 0xA72E, 2, 0xA723);
   (0xA732, 0xA76E, 2, 0xA733); (0xA779, 0xA77B, 2, 0xA77A);
   (0xA77D, 0xA77D, 1, 0x1D79); (0xA77E, 0xA786, 2, 0xA77F);
   (0xA78B, 0xA78B, 1, 0xA78C); (0xA78D, 0xA78D, 1, 0x265);
   (0xA790, 0xA792, 2, 0xA791); (0xA796, 0xA7A8, 2, 0xA797);
   (0xA7AA, 0xA7AA, 1, 0x266); (0xA7AB, 0xA7AB, 1, 0x25C); (0xA7AC, 0xA7AC, 1, 0x261);
   (0xA7AD, 0xA7AD, 1, 0x26C); (0xA7AE, 0xA7AE, 1, 0x26A); (0xA7B0, 0xA7B0, 1, 0x29E);
   (0xA7B1, 0xA7B1, 1, 0x287); (0xA7B2, 0xA7B2, 1, 0x29D); (0xA7B3, 0xA7B3, 1, 0xAB53);
   (0xA7B4, 0xA7C2, 2, 0xA7B5); (0xA7C4, 0xA7C4, 1, 0xA794);
   (0xA7C5, 0xA7C5, 1, 0x282); (0xA7C6, 0xA7C6, 1, 0x1D8E);
   (0xA7C7, 0xA7C9, 2, 0xA7C8); (0xA7D0, 0xA7D0, 1, 0xA7D1);
   (0xA7D6, 0xA7D8, 2, 0xA7D7); (0xA7F5, 0xA7F5, 1, 0xA7F6);
   (0xFF21, 0xFF3A, 1, 0xFF41); (0x10400, 0x10427, 1, 0x10428);
   (0x104B0, 0x104D3, 1, 0x104D8); (0x10570, 0x1057A, 1, 0x10597);
   (0x1057C, 0x1058A, 1, 0x105A3); (0x1058C, 0x10592, 1, 0x105B3);
   (0x10594, 0x10595, 1, 0x105BB); (0x10C80, 0x10CB2, 1, 0x10CC0);
   (0x118A0, 0x118BF, 1, 0x118C0); (0x16E40, 0x16E5F, 1, 0x16E60);
   (0x1E900, 0x1E921, 1, 0x1E922)
  ]%N.

Definition in_ranges (ranges : list (N * N)) (c : char) : bool :=
  existsb (λ r, (r.1 <=? c) && (c <=? r.2))%N ranges.

Definition is_cased (c : char) : bool := in_ranges CASED c.
Definition is_case_ignorable (c : char) : bool := in_ranges CASE_IGNORABLE c.

Fixpoint lower_lookup (table : list (N * N * N * N)) (c : char) : option char :=
  match table with
  | [] => None
  | (first, last, step, image) :: rest =>
      if ((first <=? c) && (c <=? last) && ((c - first) mod step =? 0))%N
      then Some (image + (c - first))%N
      else lower_lookup rest c
  end.

Definition CAPITAL_I_DOT : char := 0x130%N.
Definition CAPITAL_SIGMA : char := 0x3A3%N.
Definition SMALL_SIGMA : char := 0x3C3%N.
Definition FINAL_SIGMA : char := 0x3C2%N.

(** [_PyUnicode_ToLowerFull]: the only mapping to more than one character is
    that of the dotted capital I. *)
Definition to_lower_full (c : char) : str :=
  if (c =? CAPITAL_I_DOT)%N then [0x69; 0x307]%N
  else [default c (lower_lookup LOWERCASE c)].

Fixpoint skip_case_ignorable (s : str) : str :=
  match s with
  | c :: r => if is_case_ignorable c then skip_case_ignorable r else s
  | [] => []
  end.

(** [handle_capital_sigma]: the sigma is final when the nearest character
    before it that is not case-ignorable is cased, and the nearest such
    character after it, if any, is not. *)
Definition final_sigma (before_rev after : str) : bool :=
  match skip_case_ignorable before_rev with
  | c :: _ =>
      is_cased c &&
      match skip_case_ignorable after with
      | c' :: _ => negb (is_cased c')
      | [] => true
      end
  | [] => false
  end.

(** [lower_ucs4] at one position, given the characters before it (nearest
    first) and after it. *)
Definition lower_at (before_rev : str) (c : char) (after : str) : str :=
  if (c =? CAPITAL_SIGMA)%N
  then [if final_sigma before_rev after then FINAL_SIGMA else SMALL_SIGMA]
  else to_lower_full c.

Fixpoint lower_from (before_rev s : str) : str :=
  match s with
  | [] => []
  | c :: r => lower_at before_rev c r ++ lower_from (c :: before_rev) r
  end.

Definition lower (s : str) : str := lower_from [] s.

(** [s.replace(sep, by)] for one-character [sep] and [by]. *)
Definition replace (sep by_ : char) (s : str) : str :=
  (λ c, if (c =? sep)%N then by_ else c) <$> s.

(** [s.split(sep)] for a one-character separator: empty pieces are kept and
    the empty string splits to one empty piece. *)
Fixpoint split_aux (sep : char) (s : str) (cur : str) : list str :=
  match s with
  | [] => [cur]
  | c :: r => if (c =? sep)%N then cur :: split_aux sep r [] else split_aux sep r (cur ++ [c])
  end.

Definition split (sep : char) (s : str) : list str := split_aux sep s [].

(** [sep.join(parts)] *)
Fixpoint join (sep : str) (parts : list str) : str :=
  match parts with
  | [] => []
  | [p] => p
  | p :: rest => p ++ sep ++ join sep rest
  end.

Fixpoint is_prefix (d p : str) : bool :=
  match d, p with
  | [], _ => true
  | _ :: _, [] => false
  | a :: d', b :: p' => (a =? b)%N && is_prefix d' p'
  end.

(** [d in p] on strings: substring test. *)
Fixpoint contains (d p : str) : bool :=
  is_prefix d p || match p with [] => false | _ :: p' => contains d p' end.

(** Decimal digits of a natural number, most significant first. *)
Fixpoint dec_digits (fuel : nat) (n : N) (acc : str) : str :=
  match fuel with
  | O => acc
  | S f =>
      let acc' := (48 + n mod 10)%N :: acc in
      if (n / 10 =? 0)%N then acc' else dec_digits f (n / 10)%N acc'
  end.

Definition str_of_N (n : N) : str := dec_digits (S (N.size_nat n)) n [].

(** [str(z)] for an int. *)
Definition str_of_Z (z : Z) : str :=
  if z <? 0 then 45%N :: str_of_N (Z.abs_N z) else str_of_N (Z.abs_N z).

(** [f"{z:0Wd}"]: zero padding to width [W], the sign counted in the width. *)
Definition fmt_0d (width : nat) (z : Z) : str :=
  let ds := str_of_N (Z.abs_N z) in
  if z <? 0 then 45%N :: replicate (width - 1 - length ds) 48%N ++ ds
  else replicate (width - length ds) 48%N ++ ds.

(** [int(s)] on a string.  CPython first rewrites the text to ASCII
    ([_PyUnicode_TransformDecimalAndSpaceToASCII]): characters below 127 stay,
    other whitespace becomes a blank, other decimal digits (category [Nd],
    which comes in runs of ten starting at the zeros listed below) become
    ASCII digits, and anything else is an error.  [PyLong_FromString] then
    skips C whitespace at both ends and reads an optional sign and decimal
    digits, with single underscores allowed between digits; anything else
    raises [ValueError] ([None]). *)
Definition DECIMAL_ZEROS : list N :=
  [
   0x30; 0x660; 0x6F0; 0x7C0; 0x966; 0x9E6; 0xA66; 0xAE6; 0xB66; 0xBE6; 0xC66; 0xCE6;
   0xD66; 0xDE6; 0xE50; 0xED0; 0xF20; 0x1040; 0x1090; 0x17E0; 0x1810; 0x1946; 0x19D0;
   0x1A80; 0x1A90; 0x1B50; 0x1BB0; 0x1C40; 0x1C50; 0xA620; 0xA8D0; 0xA900; 0xA9D0;
   0xA9F0; 0xAA50; 0xABF0; 0xFF10; 0x104A0; 0x10D30; 0x11066; 0x110F0; 0x11136;
   0x111D0; 0x112F0; 0x11450; 0x114D0; 0x11650; 0x116C0; 0x11730; 0x118E0; 0x11950;
   0x11C50; 0x11D50; 0x11DA0; 0x16A60; 0x16AC0; 0x16B50; 0x1D7CE; 0x1D7D8; 0x1D7E2;
   0x1D7EC; 0x1D7F6; 0x1E140; 0x1E2F0; 0x1E950; 0x1FBF0
  ]%N.

Fixpoint decimal (zeros : list N) (c : char) : option N :=
  match zeros with
  | [] => None
  | z :: rest => if ((z <=? c) && (c <? z + 10))%N then Some (c - z)%N else decimal rest c
  end.

Definition int_ascii (c : char) : option char :=
  if (c <? 127)%N then Some c
  else if isspace c then Some 32%N
  else (λ d, 48 + d)%N <$> decimal DECIMAL_ZEROS c.

(** [Py_ISSPACE] *)
Definition c_isspace (c : char) : bool :=
  ((9 <=? c) && (c <=? 13) || (c =? 32))%N.

Fixpoint skip_c_space (s : str) : str :=
  match s with
  | c :: r => if c_isspace c then skip_c_space r else s
  | [] => []
  end.

Definition is_digit (c : char) : bool := ((48 <=? c) && (c <=? 57))%N.

Fixpoint parse_digits (s : str) (acc : Z) (after_digit : bool) : option Z :=
  match s with
  | [] => if after_digit then Some acc else None
  | c :: r =>
      if is_digit c then parse_digits r (acc * 10 + Z.of_N (c - 48)) true
      else if (c =? 95)%N && after_digit then parse_digits r acc false
      else None
  end.

Definition parse_int (s : str) : option Z :=
  ascii ← mapM int_ascii s;
  match reverse (skip_c_space (reverse (skip_c_space ascii))) with
  | 45%N :: ds => Z.opp <$> parse_digits ds 0 false
  | 43%N :: ds => parse_digits ds 0 false
  | ds => parse_digits ds 0 false
  end.

End PyStr.

Import PyStr.

(* ===================================================================== *)
(** ** Constants *)
(* ===================================================================== *)

Definition KOREAN_DAYS : list str :=
  Eval vm_compute in [u "월"; u "화"; u "수"; u "목"; u "금"; u "토"; u "일"].

Definition EMP_TYPES : list str :=
  Eval vm_compute in [u "4대보험"; u "초단시간"; u "사업소득"; u "일용직"].

(* ===================================================================== *)
(** ** Spreadsheet cells *)
(* ===================================================================== *)

(** What a pandas cell of an [object] column can hold in this program: a
    string, an integer, the missing value NaN, or [None]. *)
Inductive cell :=
  | CStr (s : str)
  | CInt (z : Z)
  | CNaN
  | CNone.

(** [pd.isna(raw)] *)
Definition isna (raw : cell) : bool :=
  match raw with
  | CNaN | CNone => true
  | _ => false
  end.

Definition STR_NAN : str := Eval vm_compute in u "nan".
Definition STR_NONE : str := Eval vm_compute in u "None".

(** [str(raw)] *)
Definition str_of_cell (raw : cell) : str :=
  match raw with
  | CStr s => s
  | CInt z => str_of_Z z
  | CNaN => STR_NAN
  | CNone => STR_NONE
  end.

(* ===================================================================== *)
(** ** [normalize_days] *)
(* ===================================================================== *)

Definition DAY_SEPARATORS : list char :=
  Eval vm_compute in
    (λ s, default 0%N (head s)) <$> [u "|"; u "/"; u ";"; u " "; u "·"; u "ㆍ"].

Definition COMMA : char := 44%N.

(** The loop over [chars] for text without a comma: [buf] grows by one
    character at a time and is flushed to [parts] after each weekday
    character; a non-empty rest is flushed at the end. *)
Fixpoint split_glued (chars : str) (buf : str) (parts : list str) : list str :=
  match chars with
  | [] => match buf with [] => parts | _ => parts ++ [buf] end
  | ch :: rest =>
      let buf' := buf ++ [ch] in
      if bool_decide ([ch] ∈ KOREAN_DAYS) then split_glued rest [] (parts ++ [buf'])
      else split_glued rest buf' parts
  end.

(** The inner [for d in KOREAN_DAYS: if d in p: ...; break]. *)
Definition first_day_in (p : str) : option str :=
  snd <$> list_find (λ d, contains d p = true) KOREAN_DAYS.

(** The order-preserving duplicate removal at the end. *)
Fixpoint dedup_days (days : list str) (seen : gset str) (out : list str) : list str :=
  match days with
  | [] => out
  | d :: rest =>
      if bool_decide (d ∈ seen) then dedup_days rest seen out
      else dedup_days rest ({[d]} ∪ seen) (out ++ [d])
  end.

Definition normalize_days (raw : cell) : list str :=
  if isna raw then []
  else
    let s := strip (str_of_cell raw) in
    match s with
    | [] => []
    | _ =>
        let s := foldl (λ s sep, replace sep COMMA s) s DAY_SEPARATORS in
        let parts :=
          if bool_decide (COMMA ∈ s) then
            filter (λ p, p ≠ []) (strip <$> split COMMA s)
          else split_glued s [] [] in
        let days := omap first_day_in parts in
        dedup_days days ∅ []
    end.

(* ===================================================================== *)
(** ** Header normalisation and the employee table *)
(* ===================================================================== *)

(** The characters removed by the pattern [[\s_\-()/\[\]{}·.]+]. *)
Definition COLNAME_NOISE : list char :=
  Eval vm_compute in u "_-()/[]{}·.".

(** [_clean_colname]: trimmed, lower-cased, whitespace and punctuation
    removed. *)
Definition _clean_colname (s : str) : str :=
  filter (λ c, isspace c = false ∧ c ∉ COLNAME_NOISE) (lower (strip s)).

Definition HEADER_MAP : list (str * list str) :=
  Eval vm_compute in
    [ (u "name", [u "name"; u "이름"; u "성명"]);
      (u "phone", [u "phone"; u "연락처"; u "전화"; u "전화번호"; u "휴대폰"; u "핸드폰"; u "mobile"]);
      (u "role", [u "role"; u "포지션"; u "메모"; u "직무"; u "직책"; u "비고"]);
      (u "employment_type",
        [u "employmenttype"; u "고용형태"; u "고용"; u "형태"; u "구분"; u "신분"]);
      (u "available_days",
        [u "availabledays"; u "가용요일"; u "근무요일"; u "요일"; u "가능요일"]) ].

(** A pandas [DataFrame] with the default [RangeIndex]: the column labels
    and the rows, each row holding one cell per column. *)
Record DataFrame := {
  df_columns : list str;
  df_rows : list (list cell);
}.

(** [df[col]]: the column labelled [col], as the list of its cells (the
    labels of a frame are taken to be distinct). *)
Definition df_column (df : DataFrame) (col : str) : list cell :=
  match list_find (λ c, c = col) (df_columns df) with
  | Some (i, _) => (λ row, default CNaN (row !! i)) <$> df_rows df
  | None => []
  end.

(** The frame [out] under construction in [normalize_columns]: its columns
    in insertion order and the length of its index. *)
Definition OutFrame : Type := list (str * list cell) * nat.

(** [out[key] = series].  Assigning a non-empty series to a frame whose
    index is still empty makes the series' index the frame's index; columns
    set before that are filled with NaN. *)
Definition set_series (key : str) (col : list cell) (out : OutFrame) : OutFrame :=
  let '(cols, n) := out in
  if bool_decide (n = 0%nat ∧ col ≠ []) then
    ((prod_map id (λ _, replicate (length col) CNaN) <$> cols) ++ [(key, col)], length col)
  else (cols ++ [(key, col)], n).

(** [out[key] = ""]: the scalar is broadcast over the current index. *)
Definition set_scalar (key : str) (v : cell) (out : OutFrame) : OutFrame :=
  let '(cols, n) := out in (cols ++ [(key, replicate n v)], n).

(** [norm = {_clean_colname(c): c for c in df.columns}] *)
Definition norm_of (columns : list str) : gmap (list N) (list N) :=
  foldl (λ norm c, <[_clean_colname c := c]> norm) ∅ columns.

(** The search [for alias in aliases: ... break] for the first alias whose
    cleaned form is a key of [norm]. *)
Definition hit_col (norm : gmap (list N) (list N)) (aliases : list str) : option str :=
  match list_find (λ alias, is_Some (norm !! _clean_colname alias)) aliases with
  | Some (_, alias) => norm !! _clean_colname alias
  | None => None
  end.

Definition normalize_columns (df : DataFrame) : OutFrame :=
  let norm := norm_of (df_columns df) in
  foldl (λ out '(target_key, aliases),
           match hit_col norm aliases with
           | Some c => set_series target_key (df_column df c) out
           | None => set_scalar target_key (CStr []) out
           end)
        ([], 0%nat) HEADER_MAP.

Record Employee := {
  name : str;
  phone : str;
  role : str;
  employment_type : str;
  available_days : list str;
}.

Definition COL_NAME : str := Eval vm_compute in u "name".
Definition COL_PHONE : str := Eval vm_compute in u "phone".
Definition COL_ROLE : str := Eval vm_compute in u "role".
Definition COL_EMPLOYMENT_TYPE : str := Eval vm_compute in u "employment_type".
Definition COL_AVAILABLE_DAYS : str := Eval vm_compute in u "available_days".

Definition employee_row (e : Employee) : list cell :=
  [ CStr (name e); CStr (phone e); CStr (role e); CStr (employment_type e);
    CStr (join [COMMA] (available_days e)) ].

Definition employees_to_df (employees : list Employee) : DataFrame :=
  {| df_columns := [COL_NAME; COL_PHONE; COL_ROLE; COL_EMPLOYMENT_TYPE; COL_AVAILABLE_DAYS];
     df_rows := employee_row <$> employees |}.

(** [r.get(key, "")] for the row at position [idx] of the normalised frame. *)
Definition row_get (out : OutFrame) (idx : nat) (key : str) : cell :=
  match list_find (λ kc, kc.1 = key) out.1 with
  | Some (_, (_, col)) => default (CStr []) (col !! idx)
  | None => CStr []
  end.

Definition REASON_NO_NAME : str := Eval vm_compute in u "이름(name) 없음".

(** One turn of the loop over [df.iterrows()]. *)
Definition import_row (out : OutFrame)
    (acc : list Employee * list (Z * str)) (idx : nat) : list Employee * list (Z * str) :=
  let '(added, skipped_info) := acc in
  let row_no := Z.of_nat idx + 2 in
  let nm := strip (str_of_cell (row_get out idx COL_NAME)) in
  match nm with
  | [] => (added, skipped_info ++ [(row_no, REASON_NO_NAME)])
  | _ =>
      let et_raw := strip (str_of_cell (row_get out idx COL_EMPLOYMENT_TYPE)) in
      let et := if bool_decide (et_raw ∈ EMP_TYPES) then et_raw else default [] (head EMP_TYPES) in
      let days := normalize_days (row_get out idx COL_AVAILABLE_DAYS) in
      (added ++ [ {| name := nm;
                     phone := strip (str_of_cell (row_get out idx COL_PHONE));
                     role := strip (str_of_cell (row_get out idx COL_ROLE));
                     employment_type := et;
                     available_days := days |} ],
       skipped_info)
  end.

Definition df_to_employees (df : DataFrame) : list Employee * list (Z * str) :=
  let out := normalize_columns df in
  foldl (import_row out) ([], []) (seq 0 out.2).

(* ===================================================================== *)
(** ** [calendar] and [datetime] *)
(* ===================================================================== *)

(** Raising an exception is modelled by [None]. *)
Fixpoint foldlM {A B : Type} (f : B → A → option B) (b : B) (l : list A) : option B :=
  match l with
  | [] => Some b
  | a :: l' => match f b a with Some b' => foldlM f b' l' | None => None end
  end.

Module Calendar.

Definition MINYEAR : Z := 1.
Definition MAXYEAR : Z := 9999.

Definition isleap (year : Z) : bool :=
  (year mod 4 =? 0) && (negb (year mod 100 =? 0) || (year mod 400 =? 0)).

Definition mdays : list Z := [0; 31; 28; 31; 30; 31; 30; 31; 31; 30; 31; 30; 31].

Definition DAYS_BEFORE_MONTH : list Z :=
  [-1; 0; 31; 59; 90; 120; 151; 181; 212; 243; 273; 304; 334].

(** [l[i]] for a list and a non-negative index in range. *)
Definition at_index (l : list Z) (i : Z) : Z := default 0 (l !! Z.to_nat i).

Definition days_in_month (year month : Z) : Z :=
  if (month =? 2) && isleap year then 29 else at_index mdays month.

Definition days_before_year (year : Z) : Z :=
  let y := year - 1 in y * 365 + y / 4 - y / 100 + y / 400.

Definition days_before_month (year month : Z) : Z :=
  at_index DAYS_BEFORE_MONTH month + (if (2 <? month) && isleap year then 1 else 0).

Definition ymd2ord (year month day : Z) : Z :=
  days_before_year year + days_before_month year month + day.

(** [date(year, month, day).weekday()]: Monday is 0; the constructor raises
    [ValueError] outside the supported range. *)
Definition date_weekday (year month day : Z) : option Z :=
  if (MINYEAR <=? year) && (year <=? MAXYEAR) && (1 <=? month) && (month <=? 12)
     && (1 <=? day) && (day <=? days_in_month year month)
  then Some ((ymd2ord year month day + 6) mod 7)
  else None.

(** [calendar.weekday]: years outside [MINYEAR..MAXYEAR] are folded into
    the 400-year cycle. *)
Definition weekday (year month day : Z) : option Z :=
  let year := if (MINYEAR <=? year) && (year <=? MAXYEAR) then year else 2000 + year mod 400 in
  date_weekday year month day.

(** [calendar.monthrange]: weekday of the first day and number of days. *)
Definition monthrange (year month : Z) : option (Z * Z) :=
  if (1 <=? month) && (month <=? 12) then
    day1 ← weekday year month 1;
    Some (day1, at_index mdays month + (if (month =? 2) && isleap year then 1 else 0))
  else None.

(** [Calendar(firstweekday).itermonthdays]: the days of the month, padded
    with 0 to whole weeks. *)
Definition itermonthdays (firstweekday year month : Z) : option (list Z) :=
  '(day1, ndays) ← monthrange year month;
  let days_before := (day1 - firstweekday) mod 7 in
  let days_after := (firstweekday - day1 - ndays) mod 7 in
  Some (replicate (Z.to_nat days_before) 0 ++ seqZ 1 ndays ++ replicate (Z.to_nat days_after) 0).

(** [[days[i:i+7] for i in range(0, len(days), 7)]] *)
Definition monthdayscalendar (firstweekday year month : Z) : option (list (list Z)) :=
  days ← itermonthdays firstweekday year month;
  Some ((λ k, take 7 (drop (7 * k) days)) <$> seq 0 ((length days + 6) / 7)%nat).

End Calendar.

(* ===================================================================== *)
(** ** Session state *)
(* ===================================================================== *)

(** A row of a date's assignment list. *)
Record Shift := {
  sh_name : str;
  sh_employment_type : str;
  sh_clock_in : str;
  sh_clock_out : str;
  sh_break : Z;
  sh_wage : Z;
}.

(** [st.session_state]: the employee directory, the assignments keyed by
    ["YYYY-MM-DD"], the closed days keyed by ["YYYY-MM"] (day number to 1)
    and the token of the last processed upload. *)
Record session := {
  employees : list Employee;
  assignments : gmap (list N) (list Shift);
  closed : gmap (list N) (gmap Z Z);
  upload_token : option (list N);
}.

Definition initial_session : session :=
  {| employees := []; assignments := ∅; closed := ∅; upload_token := None |}.

Definition with_employees (ss : session) (emps : list Employee) : session :=
  {| employees := emps; assignments := assignments ss; closed := closed ss;
     upload_token := upload_token ss |}.

Definition with_assignments (ss : session) (asg : gmap (list N) (list Shift)) : session :=
  {| employees := employees ss; assignments := asg; closed := closed ss;
     upload_token := upload_token ss |}.

Definition with_upload_token (ss : session) (tok : option (list N)) : session :=
  {| employees := employees ss; assignments := assignments ss; closed := closed ss;
     upload_token := tok |}.

Definition DASH : char := 45%N.
Definition COLON : char := 58%N.

(** [f"{int(y):04d}-{int(m):02d}-{int(d):02d}"] *)
Definition ymd (y m d : Z) : str :=
  fmt_0d 4 y ++ [DASH] ++ fmt_0d 2 m ++ [DASH] ++ fmt_0d 2 d.

(** [f"{int(y):04d}-{int(m):02d}"] *)
Definition ym (y m : Z) : str := fmt_0d 4 y ++ [DASH] ++ fmt_0d 2 m.

(** Truth value of [closed.get(d)]: a missing day gives [None], a stored
    number is true unless it is 0. *)
Definition is_closed (closed_month : gmap Z Z) (d : Z) : bool :=
  match closed_month !! d with
  | Some v => negb (v =? 0)
  | None => false
  end.

(* ===================================================================== *)
(** ** Shift arithmetic *)
(* ===================================================================== *)

(** The local [to_min]: [hh, mm = hhmm.split(":")] needs exactly two
    pieces. *)
Definition to_min (hhmm : str) : option Z :=
  match split COLON hhmm with
  | [hh; mm] => h ← parse_int hh; m ← parse_int mm; Some (h * 60 + m)
  | _ => None
  end.

(** [x or 0] for an optional number. *)
Definition or_0 (x : option Z) : Z := default 0 x.

Definition minutes_between (cin cout : str) (brk : option Z) : option Z :=
  co ← to_min cout;
  ci ← to_min cin;
  Some (Z.max 0 (co - ci - Z.max 0 (or_0 brk))).

(** [float(z)] for an int: the nearest binary64 value, ties to even;
    [OverflowError] when there is none. *)
Definition float_of_Z (z : Z) : float := SF2Prim (binary_normalize prec emax z 0 false).

Definition py_float (z : Z) : option float :=
  let f := float_of_Z z in if is_infinity f then None else Some f.

Definition shift_cost (cin cout : str) (brk wage : option Z) : option float :=
  mins ← minutes_between cin cout brk;
  fm ← py_float mins;
  fw ← py_float (or_0 wage);
  Some ((fm / float_of_Z 60) * fw)%float.

(* ===================================================================== *)
(** ** [auto_assign_for_month] *)
(* ===================================================================== *)

Definition DEFAULT_CLOCK_IN : str := Eval vm_compute in u "09:00".
Definition DEFAULT_CLOCK_OUT : str := Eval vm_compute in u "18:00".

(** The row appended for a candidate. *)
Definition default_shift (emp : Employee) : Shift :=
  {| sh_name := name emp; sh_employment_type := employment_type emp;
     sh_clock_in := DEFAULT_CLOCK_IN; sh_clock_out := DEFAULT_CLOCK_OUT;
     sh_break := 60; sh_wage := 10000 |}.

(** [for emp in candidates]: [day_list] is appended to in place, [exists]
    is the set of names seen so far. *)
Fixpoint assign_candidates (candidates : list Employee) (day_list : list Shift)
    (exists_ : gset (list N)) : list Shift :=
  match candidates with
  | [] => day_list
  | emp :: rest =>
      if bool_decide (name emp ∈ exists_) then assign_candidates rest day_list exists_
      else assign_candidates rest (day_list ++ [default_shift emp]) ({[name emp]} ∪ exists_)
  end.

(** The body of [for d in wk]. *)
Definition auto_assign_day (emps : list Employee) (closed_month : gmap Z Z) (year month : Z)
    (asg : gmap (list N) (list Shift)) (d : Z) : option (gmap (list N) (list Shift)) :=
  if (d =? 0) || is_closed closed_month d then Some asg
  else
    let key := ymd year month d in
    wd ← Calendar.date_weekday year month d;
    wday ← KOREAN_DAYS !! Z.to_nat wd;
    let candidates := filter (λ e, wday ∈ available_days e) emps in
    match candidates with
    | [] => Some asg
    | _ =>
        let day_list := default [] (asg !! key) in
        let exists_ : gset (list N) := list_to_set (sh_name <$> day_list) in
        Some (<[key := assign_candidates candidates day_list exists_]> asg)
    end.

Definition auto_assign_for_month (ss : session) (year month : Z) : option session :=
  let closed_month := default ∅ (closed ss !! ym year month) in
  cal ← Calendar.monthdayscalendar 0 year month;
  asg ← foldlM (λ asg wk, foldlM (auto_assign_day (employees ss) closed_month year month) asg wk)
        (assignments ss) cal;
  Some (with_assignments ss asg).

(* ===================================================================== *)
(** ** [biz_flag_for_month] *)
(* ===================================================================== *)

Definition BUSINESS_INCOME : str := Eval vm_compute in u "사업소득".
Definition FLAG_5_OR_MORE : str := Eval vm_compute in u "5인 이상".
Definition FLAG_UNDER_5 : str := Eval vm_compute in u "5인 미만".

(** [{r["name"] for r in arr if r.get("employment_type") != "사업소득"}] *)
Definition uniq_names (arr : list Shift) : gset (list N) :=
  list_to_set (sh_name <$> filter (λ r, sh_employment_type r ≠ BUSINESS_INCOME) arr).

(** The body of [for d in range(1, last + 1)] on the pair
    [(operating, meet)]. *)
Definition biz_day (closed_month : gmap Z Z) (asg : gmap (list N) (list Shift))
    (year month : Z) (acc : Z * Z) (d : Z) : Z * Z :=
  let '(operating, meet) := acc in
  if is_closed closed_month d then acc
  else
    let arr := default [] (asg !! ymd year month d) in
    (operating + 1, if (5 <=? size (uniq_names arr))%nat then meet + 1 else meet).

(** [meet >= (denom / 2)]: [denom / 2] is a float, and the comparison of
    the int [meet] with it is the comparison of their values. *)
Definition meets_half (meet denom : Z) : bool :=
  (float_of_Z denom / float_of_Z 2 <=? float_of_Z meet)%float.

Definition biz_flag_for_month (ss : session) (year month : Z) : option (str * Z * Z) :=
  let closed_month := default ∅ (closed ss !! ym year month) in
  '(_, last) ← Calendar.monthrange year month;
  let '(operating, meet) :=
    foldl (biz_day closed_month (assignments ss) year month) (0, 0) (seqZ 1 (last + 1 - 1)) in
  let denom := Z.max 1 operating in
  let flag := if meets_half meet denom then FLAG_5_OR_MORE else FLAG_UNDER_5 in
  Some (flag, meet, denom).

(* ===================================================================== *)
(** ** The handlers that change the roster and the directory *)
(* ===================================================================== *)

(** [y, m, d = map(int, day_key.split("-"))] *)
Definition parse_day_key (day_key : str) : option (Z * Z * Z) :=
  match split DASH day_key with
  | [y; m; d] => y ← parse_int y; m ← parse_int m; d ← parse_int d; Some (y, m, d)
  | _ => None
  end.

(** [f"{t.hour:02d}:{t.minute:02d}"] *)
Definition hhmm (t : Z * Z) : str := fmt_0d 2 t.1 ++ [COLON] ++ fmt_0d 2 t.2.

(** [name_final]: the selected name when the directory is not empty, the
    typed and trimmed name otherwise. *)
Definition final_name (ss : session) (name_sel : str) : str :=
  match employees ss with
  | [] => strip name_sel
  | _ => name_sel
  end.

(** The [item] built from the form. *)
Definition shift_item (name_final emp_type : str) (clock_in clock_out : Z * Z)
    (brk wage : Z) : Shift :=
  {| sh_name := name_final; sh_employment_type := emp_type;
     sh_clock_in := hhmm clock_in; sh_clock_out := hhmm clock_out;
     sh_break := brk; sh_wage := wage |}.

(** The save button of the form in [render_day_detail].  [name_sel] is
    the selected (or, with an empty directory, typed) name.  A name that is
    not in the directory is registered first, available on the weekday of
    the date. *)
Definition submit_shift (ss : session) (day_key name_sel emp_type : str)
    (clock_in clock_out : Z * Z) (brk wage : Z) : option session :=
  let name_final := final_name ss name_sel in
  match name_final with
  | [] => Some ss
  | _ =>
      emps ←
        match list_find (λ e, name e = name_final) (employees ss) with
        | Some _ => Some (employees ss)
        | None =>
            '(y, m, d) ← parse_day_key day_key;
            wd ← Calendar.date_weekday y m d;
            wday ← KOREAN_DAYS !! Z.to_nat wd;
            Some (employees ss ++
                  [ {| name := name_final; phone := []; role := [];
                       employment_type := emp_type; available_days := [wday] |} ])
        end;
      let item := shift_item name_final emp_type clock_in clock_out brk wage in
      let day_list := default [] (assignments ss !! day_key) in
      Some {| employees := emps;
              assignments := <[day_key := day_list ++ [item]]> (assignments ss);
              closed := closed ss; upload_token := upload_token ss |}
  end.

(** The delete button of row [idx] in [render_day_detail]; there is one
    button per row of the date's list. *)
Definition delete_row (ss : session) (day_key : str) (idx : nat) : session :=
  let day_list := default [] (assignments ss !! day_key) in
  match day_list !! idx with
  | None => ss
  | Some _ =>
      match delete idx day_list with
      | [] => with_assignments ss (delete day_key (assignments ss))
      | day_list' => with_assignments ss (<[day_key := day_list']> (assignments ss))
      end
  end.

(** The submit button of [emp_form]. *)
Definition submit_employee (ss : session) (nm ph rl emp_type : str) (days : list str) : session :=
  match strip nm with
  | [] => ss
  | _ =>
      with_employees ss
        (employees ss ++
         [ {| name := strip nm; phone := strip ph; role := strip rl;
              employment_type := emp_type; available_days := days |} ])
  end.

(** The upload handler, from the parsed sheet [df_raw] of the file
    identified by [file_id]. *)
Definition handle_upload (ss : session) (file_id : str) (df_raw : DataFrame) : session :=
  if bool_decide (upload_token ss = Some file_id) then ss
  else
    let '(new_emps, _) := df_to_employees df_raw in
    let ss1 :=
      match new_emps with
      | [] => ss
      | _ => with_employees ss (employees ss ++ new_emps)
      end in
    with_upload_token ss1 (Some file_id).

(** One turn of [for k, arr in list(assignments.items())] in the delete
    handler of the employee list. *)
Definition cascade_step (name_del : str) (asg : gmap (list N) (list Shift))
    (kv : list N * list Shift) : gmap (list N) (list Shift) :=
  let asg1 := <[kv.1 := filter (λ r, sh_name r ≠ name_del) kv.2]> asg in
  match asg1 !! kv.1 with
  | Some [] => delete kv.1 asg1
  | _ => asg1
  end.

Definition cascade (name_del : str) (asg : gmap (list N) (list Shift))
    : gmap (list N) (list Shift) :=
  foldl (cascade_step name_del) asg (map_to_list asg).

(** The delete button of employee [i] in the employee list. *)
Definition delete_employee (ss : session) (i : nat) : session :=
  match employees ss !! i with
  | None => ss
  | Some e =>
      {| employees := delete i (employees ss);
         assignments := cascade (name e) (assignments ss);
         closed := closed ss; upload_token := upload_token ss |}
  end.

(* ===================================================================== *)
(** ** The closed-days dialog *)
(* ===================================================================== *)

(** One turn of [for d in range(1, last + 1)] in [_render_closed]: a ticked
    box stores [picked[d] = 1], an empty one does [picked.pop(d, None)]. *)
Definition pick_day (checked : Z → bool) (picked : gmap Z Z) (d : Z) : gmap Z Z :=
  if checked d then <[d := 1]> picked else delete d picked.

(** The save button of the dialog for month [(y, m)]: [picked] starts as a
    copy of the stored days of the month and replaces them. *)
Definition save_closed (ss : session) (y m : Z) (checked : Z → bool) : option session :=
  '(_, last) ← Calendar.monthrange y m;
  let key := ym y m in
  let picked := foldl (pick_day checked) (default ∅ (closed ss !! key)) (seqZ 1 (last + 1 - 1)) in
  Some {| employees := employees ss; assignments := assignments ss;
          closed := <[key := picked]> (closed ss); upload_token := upload_token ss |}.

(* ===================================================================== *)
(** ** Notions used in the statements *)
(* ===================================================================== *)

(** The number of closed days among the days [1..last] of a month. *)
Definition closed_days (closed_month : gmap Z Z) (last : Z) : Z :=
  Z.of_nat (length (filter (λ d, is_closed closed_month d = true) (seqZ 1 last))).

(** A month of February 2026 with all of its 28 days closed. *)
Definition all_closed_session : session :=
  {| employees := []; assignments := ∅;
     closed := {[ ym 2026 2 := list_to_map ((λ d, (d, 1)) <$> seqZ 1 28) ]};
     upload_token := None |}.

(** [roster_ext a b]: every date of [a] is a date of [b], with a list that
    extends the one in [a] at its end. *)
Definition roster_ext (a b : gmap (list N) (list Shift)) : Prop :=
  ∀ k l, a !! k = Some l → ∃ l', b !! k = Some (l ++ l').

(** Every date present in the roster has at least one row. *)
Definition roster_ok (asg : gmap (list N) (list Shift)) : Prop :=
  map_Forall (λ _ (l : list Shift), l ≠ []) asg.

(** No name occurs twice in the list of any date. *)
Definition roster_unique (asg : gmap (list N) (list Shift)) : Prop :=
  map_Forall (λ _ (l : list Shift), NoDup (sh_name <$> l)) asg.

Global Instance Shift_eq_dec : EqDecision Shift.
Proof. solve_decision. Defined.

Global Instance Employee_eq_dec : EqDecision Employee.
Proof. solve_decision. Defined.

(** The employees [auto_assign_day] places on day [d]: none for a filler
    cell or a closed day, otherwise those available on the weekday. *)
Definition day_candidates (emps : list Employee) (closed_month : gmap Z Z)
    (year month d : Z) : option (list Employee) :=
  if (d =? 0) || is_closed closed_month d then Some []
  else
    wd ← Calendar.date_weekday year month d;
    wday ← KOREAN_DAYS !! Z.to_nat wd;
    Some (filter (λ e, wday ∈ available_days e) emps).

(** The update of the roster for a day with candidates [cands]. *)
Definition place (cands : list Employee) (key : list N)
    (asg : gmap (list N) (list Shift)) : gmap (list N) (list Shift) :=
  match cands with
  | [] => asg
  | _ =>
      let day_list := default [] (asg !! key) in
      <[key := assign_candidates cands day_list (list_to_set (sh_name <$> day_list))]> asg
  end.

(** A small directory: 가 is available on Mondays and Wednesdays, 나 on
    Fridays; 다 is paid as business income and comes in on Mondays. *)
Definition sample_employees : list Employee :=
  [ {| name := u "가"; phone := u "01012345678"; role := u "홀서빙";
       employment_type := u "4대보험"; available_days := [u "월"; u "수"] |};
    {| name := u "나"; phone := []; role := [];
       employment_type := u "일용직"; available_days := [u "금"] |};
    {| name := u "다"; phone := []; role := u "배달";
       employment_type := u "사업소득"; available_days := [u "월"] |} ].

Definition sample_session : session :=
  {| employees := sample_employees; assignments := ∅;
     closed := {[ ym 2026 1 := {[ 1 := 1; 5 := 1 ]} ]}; upload_token := None |}.

(** What is left of a date's list once the rows of [name_del] are taken
    out: nothing at all when no row remains. *)
Definition without_name (name_del : str) (arr : list Shift) : option (list Shift) :=
  match filter (λ r, sh_name r ≠ name_del) arr with
  | [] => None
  | l => Some l
  end.

(** The two operations that add to the directory. *)
Inductive dir_op :=
  | AddEmployee (nm ph rl emp_type : str) (days : list str)
  | ImportEmployees (file_id : str) (df_raw : DataFrame).

Definition apply_dir_op (ss : session) (op : dir_op) : session :=
  match op with
  | AddEmployee nm ph rl emp_type days => submit_employee ss nm ph rl emp_type days
  | ImportEmployees file_id df_raw => handle_upload ss file_id df_raw
  end.

Definition run_dir_ops (ss : session) (ops : list dir_op) : session :=
  foldl apply_dir_op ss ops.

(** The records an operation adds in session [ss]. *)
Definition added_by (ss : session) (op : dir_op) : list Employee :=
  match op with
  | AddEmployee nm ph rl emp_type days =>
      match strip nm with
      | [] => []
      | _ => [ {| name := strip nm; phone := strip ph; role := strip rl;
                  employment_type := emp_type; available_days := days |} ]
      end
  | ImportEmployees file_id df_raw =>
      if bool_decide (upload_token ss = Some file_id) then []
      else (df_to_employees df_raw).1
  end.

(** 가 works on 2026-01-05 and, with 나, on 2026-01-12. *)
Definition booked_session : session :=
  {| employees := sample_employees;
     assignments :=
       {[ ymd 2026 1 5 := [shift_item (u "가") (u "4대보험") (9, 0) (18, 0) 60 10000];
          ymd 2026 1 12 := [shift_item (u "가") (u "4대보험") (9, 0) (18, 0) 60 10000;
                            shift_item (u "나") (u "일용직") (10, 0) (15, 30) 30 12000] ]};
     closed := ∅; upload_token := None |}.

(** The records the round trip is stated for: a non-empty name; name, phone
    and role without surrounding whitespace; one of the four employment
    types; distinct weekday tokens as available days. *)
Definition exportable (e : Employee) : Prop :=
  name e ≠ [] ∧ strip (name e) = name e ∧ strip (phone e) = phone e ∧
  strip (role e) = role e ∧ employment_type e ∈ EMP_TYPES ∧
  NoDup (available_days e) ∧ Forall (λ d, d ∈ KOREAN_DAYS) (available_days e).

(** What the parser needs of the character of a weekday token. *)
Definition day_char (c : N) : Prop :=
  isspace c = false ∧ c ≠ COMMA ∧ Forall (λ sep, c ≠ sep) DAY_SEPARATORS ∧
  first_day_in [c] = Some [c] ∧ normalize_days (CStr [c]) = [[c]].

Global Instance exportable_dec (e : Employee) : Decision (exportable e).
Proof. unfold exportable. apply _. Defined.

(** Column [j] of the exported rows. *)
Definition export_column (j : nat) (emps : list Employee) : list cell :=
  (λ row, default CNaN (row !! j)) <$> (employee_row <$> emps).

(* ===================================================================== *)
(** ** Notions used in the further properties *)
(* ===================================================================== *)

(** A directory record as the form and the import store it: a non-empty
    name, and name, phone and role without surrounding whitespace. *)
Definition trimmed (e : Employee) : Prop :=
  name e ≠ [] ∧ strip (name e) = name e ∧ strip (phone e) = phone e ∧
  strip (role e) = role e.

(** A character [_clean_colname] can leave in a header: no whitespace, none
    of the removed punctuation, and lower-casing it changes nothing. *)
Definition clean_char (c : N) : Prop :=
  isspace c = false ∧ (c ∉ COLNAME_NOISE) ∧ lower [c] = [c].

(** The characters an entry of the lower-case table maps to. *)
Definition entry_images (e : N * N * N * N) : list N :=
  let '(first, last, step, image) := e in
  (λ k, image + N.of_nat k * step)%N <$> seq 0 (S (N.to_nat ((last - first) / step))).

(** Some column label of the sheet cleans to the cleaned form of one of the
    aliases of [HEADER_MAP]. *)
Definition recognised (df : DataFrame) : Prop :=
  Exists (λ c, Exists (λ ta : list N * list (list N),
                         Exists (λ a, _clean_colname c = _clean_colname a) ta.2)
                      HEADER_MAP)
         (df_columns df).

(** A sheet with Korean headers in mixed spelling and three rows: one
    complete, one whose name is blank, one whose name cell is missing. *)
Definition sample_sheet : DataFrame :=
  {| df_columns := [u " 이름 "; u "전화-번호"; u "Employment_Type"; u "근무 요일"];
     df_rows :=
       [ [CStr (u " 라 "); CInt 1012345678; CStr (u "일용직"); CStr (u "월/수")];
         [CStr (u "  "); CNaN; CStr (u "4대보험"); CStr (u "화")];
         [CNaN; CStr (u "010"); CStr (u "알바"); CNaN] ] |}.

(** A sheet none of whose headers is known. *)
Definition foreign_sheet : DataFrame :=
  {| df_columns := [u "nombre"; u "teléfono"];
     df_rows := [ [CStr (u "Ana"); CStr (u "600")]; [CStr (u "Luz"); CStr (u "601")] ] |}.

(** [grown emps a b]: roster [b] is roster [a] with, at some dates, default
    shifts of employees of [emps] appended. *)
Definition grown (emps : list Employee) (a b : gmap (list N) (list Shift)) : Prop :=
  ∀ k, b !! k = a !! k ∨
       ∃ extra, extra ≠ [] ∧ b !! k = Some (default [] (a !! k) ++ extra) ∧
                Forall (λ r, r ∈ default_shift <$> emps) extra.

(** The sessions reached from the samples by one operation (the operation
    goes through in each case). *)
Definition sample_assigned : session :=
  default sample_session (auto_assign_for_month sample_session 2026 1).

Definition booked_assigned : session :=
  default booked_session (auto_assign_for_month booked_session 2026 1).

Definition booked_deleted_assigned : session :=
  default booked_session (auto_assign_for_month (delete_employee booked_session 0) 2026 1).

Definition booked_plus_shift : session :=
  default booked_session
    (submit_shift booked_session (ymd 2026 1 5) (u "나") (u "일용직") (9, 0) (13, 0) 0 9000).

(** January 2026 of the sample session after the dialog is saved with the
    boxes of the days 7, 14, 21 and 28 ticked. *)
Definition sample_closed_saved : session :=
  default sample_session (save_closed sample_session 2026 1 (λ d, d mod 7 =? 0)).

(* ===================================================================== *)
(** * Properties *)
(* ===================================================================== *)

(** A closed decidable proposition, settled by evaluating its decision
    procedure. *)
Ltac by_evaluation := refine (bool_decide_unpack _ _); vm_compute; exact I.

(** The twelve cases of a month number known to lie in [1..12]. *)
Ltac month_split Hm :=
  match type of Hm with
  | 1 ≤ ?month ≤ 12 =>
      let H := fresh in
      assert (H : month = 1 ∨ month = 2 ∨ month = 3 ∨ month = 4 ∨ month = 5 ∨ month = 6 ∨
                  month = 7 ∨ month = 8 ∨ month = 9 ∨ month = 10 ∨ month = 11 ∨ month = 12)
        by lia;
      destruct H as [->|[->|[->|[->|[->|[->|[->|[->|[->|[->|[->| ->]]]]]]]]]]]
  end.

(** C6: [normalize_days] maps "월,수,금", "월/수/금", "월수금" and "월·수·금" to
    [월; 수; 금], and maps the empty string and [None] to the empty list. *)
Theorem normalize_days_examples :
  normalize_days (CStr (u "월,수,금")) = [u "월"; u "수"; u "금"] ∧
  normalize_days (CStr (u "월/수/금")) = [u "월"; u "수"; u "금"] ∧
  normalize_days (CStr (u "월수금")) = [u "월"; u "수"; u "금"] ∧
  normalize_days (CStr (u "월·수·금")) = [u "월"; u "수"; u "금"] ∧
  normalize_days (CStr (u "")) = [] ∧
  normalize_days CNone = [].
Proof. repeat split; vm_compute; reflexivity. Qed.

(* ===================================================================== *)
(** ** Bounded enumeration *)
(* ===================================================================== *)

Lemma forallb_seqZ (P : Z → bool) (a n : Z) :
  forallb P (seqZ a n) = true → ∀ x, a ≤ x < a + n → P x = true.
Proof.
  intros Hall x Hx.
  rewrite forallb_forall in Hall. apply Hall.
  apply list_elem_of_In, elem_of_seqZ. lia.
Qed.

(* ===================================================================== *)
(** ** Shift arithmetic *)
(* ===================================================================== *)

(** A wall-clock time written by the form reads back as its minute of the
    day. *)
Lemma to_min_hhmm (h m : Z) :
  0 ≤ h < 24 → 0 ≤ m < 60 → to_min (hhmm (h, m)) = Some (h * 60 + m).
Proof.
  intros Hh Hm.
  assert (Hall : forallb (λ h, forallb (λ m,
            bool_decide (to_min (hhmm (h, m)) = Some (h * 60 + m))) (seqZ 0 60))
            (seqZ 0 24) = true) by (vm_compute; reflexivity).
  pose proof (forallb_seqZ _ _ _ Hall h ltac:(lia)) as Hrow.
  pose proof (forallb_seqZ _ _ _ Hrow m ltac:(lia)) as Hcell.
  by apply bool_decide_eq_true in Hcell.
Qed.

(** The minutes of a day all have a binary64 value: [float(mins)] does not
    raise. *)
Lemma py_float_minutes (mins : Z) :
  0 ≤ mins < 1440 → py_float mins = Some (float_of_Z mins).
Proof.
  intros Hmins.
  assert (Hall : forallb (λ z, negb (is_infinity (float_of_Z z))) (seqZ 0 1440) = true)
    by (vm_compute; reflexivity).
  pose proof (forallb_seqZ _ _ _ Hall mins ltac:(lia)) as Hcell.
  apply negb_true_iff in Hcell. unfold py_float. by rewrite Hcell.
Qed.

(** C8: for a shift from [h1:m1] to [h2:m2], any two times of the day
    written as [HH:MM], with [ci = h1*60 + m1] and [co = h2*60 + m2] the
    minutes of the day they stand for, [minutes_between] reads the two
    strings and returns [max(0, co - ci - max(0, break))], which is 0 when
    clock-out is earlier than clock-in; [shift_cost] returns that number
    divided by 60 and multiplied by the wage, in binary64 arithmetic (and
    raises only when the wage has no binary64 value); and 09:00 to 18:00
    with a 60 minute break at wage 10000 gives 480 minutes and a cost of
    80000.0. *)
Theorem shift_cost_formula (h1 m1 h2 m2 : Z) (brk wage : option Z) :
  0 ≤ h1 < 24 → 0 ≤ m1 < 60 → 0 ≤ h2 < 24 → 0 ≤ m2 < 60 →
  let cin := hhmm (h1, m1) in
  let cout := hhmm (h2, m2) in
  let ci := h1 * 60 + m1 in
  let co := h2 * 60 + m2 in
  let mins := Z.max 0 (co - ci - Z.max 0 (or_0 brk)) in
  minutes_between cin cout brk = Some mins ∧
  (co < ci → minutes_between cin cout brk = Some 0) ∧
  shift_cost cin cout brk wage =
    (fw ← py_float (or_0 wage); Some (float_of_Z mins / float_of_Z 60 * fw)%float) ∧
  minutes_between (u "09:00") (u "18:00") (Some 60) = Some 480 ∧
  shift_cost (u "09:00") (u "18:00") (Some 60) (Some 10000) = Some 80000%float.
Proof.
  intros Hh1 Hm1 Hh2 Hm2 cin cout ci co mins.
  assert (Hmb : minutes_between cin cout brk = Some mins).
  { unfold minutes_between, cin, cout. rewrite !to_min_hhmm by done. reflexivity. }
  split; [exact Hmb|]. split.
  - intros Hlt. rewrite Hmb. f_equal. unfold mins. lia.
  - split.
    + unfold shift_cost. rewrite Hmb. cbn [mbind option_bind].
      rewrite (py_float_minutes mins) by (unfold mins, co, ci; lia). reflexivity.
    + split; vm_compute; reflexivity.
Qed.

Lemma shift_cost_formula_witness :
  minutes_between (hhmm (18, 0)) (hhmm (9, 30)) (Some 30) = Some 0 ∧
  shift_cost (hhmm (9, 0)) (hhmm (17, 45)) (Some 45) (Some 9860)
  = Some (float_of_Z 480 / float_of_Z 60 * float_of_Z 9860)%float.
Proof.
  split.
  - apply (shift_cost_formula 18 0 9 30 (Some 30) (Some 10000)); lia.
  - apply (shift_cost_formula 9 0 17 45 (Some 45) (Some 9860)); lia.
Defined.

(* ===================================================================== *)
(** ** The calendar *)
(* ===================================================================== *)

Lemma days_in_month_range (year month : Z) :
  1 ≤ month ≤ 12 → 28 ≤ Calendar.days_in_month year month ≤ 31.
Proof.
  intros Hm. unfold Calendar.days_in_month.
  destruct (Calendar.isleap year); month_split Hm; split; by vm_compute.
Qed.

Lemma monthrange_days (year month : Z) :
  1 ≤ month ≤ 12 →
  ∃ day1, Calendar.monthrange year month = Some (day1, Calendar.days_in_month year month)
          ∧ 0 ≤ day1 < 7.
Proof.
  intros Hm. unfold Calendar.monthrange, Calendar.weekday.
  assert (Hm1 : (1 <=? month) && (month <=? 12) = true)
    by (apply andb_true_intro; split; apply Z.leb_le; lia).
  rewrite Hm1.
  set (y := if _ : bool then year else 2000 + year mod 400).
  assert (Hy : Calendar.MINYEAR ≤ y ≤ Calendar.MAXYEAR).
  { unfold y, Calendar.MINYEAR, Calendar.MAXYEAR.
    destruct ((1 <=? year) && (year <=? 9999)) eqn:E.
    - apply andb_prop in E as [?%Z.leb_le ?%Z.leb_le]. lia.
    - pose proof (Z.mod_pos_bound year 400). lia. }
  pose proof (days_in_month_range y month Hm) as Hd.
  unfold Calendar.date_weekday.
  assert (Hok : (Calendar.MINYEAR <=? y) && (y <=? Calendar.MAXYEAR) && (1 <=? month)
                && (month <=? 12) && (1 <=? 1) && (1 <=? Calendar.days_in_month y month) = true).
  { repeat (apply andb_true_intro; split); apply Z.leb_le; lia. }
  rewrite Hok. cbn [mbind option_bind].
  eexists. split.
  - f_equal. f_equal. unfold Calendar.days_in_month.
    destruct (Calendar.isleap year); month_split Hm; reflexivity.
  - apply Z.mod_pos_bound. lia.
Qed.

(* ===================================================================== *)
(** ** The staffing threshold *)
(* ===================================================================== *)

Lemma filter_all {A} (P : A → Prop) `{!∀ x, Decision (P x)} (l : list A) :
  (∀ x, x ∈ l → P x) → filter P l = l.
Proof.
  induction l as [|x l IH]; intros Hall; [done|].
  rewrite filter_cons_True by (apply Hall; left).
  f_equal. apply IH. intros y Hy. apply Hall. by right.
Qed.

(** The loop of [biz_flag_for_month] counts the open days, and counts no
    more threshold-meeting days than open days. *)
Lemma biz_fold_spec closed_month asg year month (ds : list Z) :
  ∀ op mt, ∃ j,
    foldl (biz_day closed_month asg year month) (op, mt) ds =
      (op + (Z.of_nat (length ds)
             - Z.of_nat (length (filter (λ d, is_closed closed_month d = true) ds))),
       mt + j)
    ∧ 0 ≤ j ≤ Z.of_nat (length ds)
              - Z.of_nat (length (filter (λ d, is_closed closed_month d = true) ds)).
Proof.
  induction ds as [|d ds IH]; intros op mt.
  - exists 0. cbn. split; [f_equal; lia | lia].
  - cbn [foldl]. unfold biz_day at 2.
    destruct (is_closed closed_month d) eqn:Hc.
    + destruct (IH op mt) as (j & -> & Hj). exists j.
      rewrite filter_cons_True by done. cbn [length]. split; [f_equal; lia | lia].
    + rewrite filter_cons_False by (rewrite Hc; discriminate).
      match goal with |- context [foldl _ (?a, ?b) ds] => destruct (IH a b) as (j & -> & Hj) end.
      destruct (5 <=? size _)%nat.
      * exists (1 + j). cbn [length]. split; [f_equal; lia | lia].
      * exists j. cbn [length]. split; [f_equal; lia | lia].
Qed.

(** On the values the loop can produce, the float comparison
    [meet >= denom / 2] is the integer comparison [denom <= meet * 2]. *)
Lemma meets_half_spec (meet denom : Z) :
  0 ≤ meet ≤ 31 → 1 ≤ denom ≤ 31 → meets_half meet denom = (denom <=? meet * 2).
Proof.
  intros Hm Hd.
  assert (Hall : forallb (λ meet, forallb (λ denom,
            Bool.eqb (meets_half meet denom) (denom <=? meet * 2)) (seqZ 1 31))
            (seqZ 0 32) = true) by (vm_compute; reflexivity).
  pose proof (forallb_seqZ _ _ _ Hall meet ltac:(lia)) as Hrow.
  pose proof (forallb_seqZ _ _ _ Hrow denom ltac:(lia)) as Hcell.
  by apply Bool.eqb_prop in Hcell.
Qed.

(** What [biz_flag_for_month] returns for a month in [1..12]. *)
Lemma biz_flag_unfold (ss : session) (year month : Z) :
  1 ≤ month ≤ 12 →
  let closed_month := default ∅ (closed ss !! ym year month) in
  let last := Calendar.days_in_month year month in
  let operating := last - closed_days closed_month last in
  ∃ meet,
    0 ≤ meet ≤ operating ∧ 0 ≤ operating ≤ 31 ∧
    biz_flag_for_month ss year month =
      Some (if Z.max 1 operating <=? meet * 2 then FLAG_5_OR_MORE else FLAG_UNDER_5,
            meet, Z.max 1 operating).
Proof.
  intros Hm closed_month last operating.
  destruct (monthrange_days year month Hm) as (day1 & Hmr & _).
  pose proof (days_in_month_range year month Hm) as Hlast. fold last in Hlast, Hmr.
  unfold biz_flag_for_month. rewrite Hmr. cbn [mbind option_bind].
  replace (last + 1 - 1) with last by lia.
  destruct (biz_fold_spec closed_month (assignments ss) year month (seqZ 1 last) 0 0)
    as (j & Hfold & Hj).
  fold closed_month. rewrite Hfold.
  rewrite length_seqZ, Z2Nat.id in Hj |- * by lia.
  assert (Hcd : 0 ≤ closed_days closed_month last) by (unfold closed_days; lia).
  fold (closed_days closed_month last) in Hj |- *. fold operating in Hj |- *.
  exists j. rewrite !Z.add_0_l.
  split; [lia|]. split; [lia|].
  rewrite meets_half_spec by lia. reflexivity.
Qed.

(** C3: for a month in [1..12], [biz_flag_for_month] returns a triple
    [(flag, meet, operating)] whose flag is "5인 이상" (5-or-more) exactly when
    [meet * 2 >= operating], and "5인 미만" (under-5) otherwise. *)
Theorem biz_flag_half_rule (ss : session) (year month : Z) :
  1 ≤ month ≤ 12 →
  ∃ flag meet operating,
    biz_flag_for_month ss year month = Some (flag, meet, operating) ∧
    (flag = FLAG_5_OR_MORE ↔ meet * 2 >= operating) ∧
    (flag = FLAG_UNDER_5 ↔ ¬ meet * 2 >= operating).
Proof.
  intros Hm.
  destruct (biz_flag_unfold ss year month Hm) as (meet & _ & _ & Heq).
  eexists _, meet, _. split; [exact Heq|].
  destruct (Z.leb_spec (Z.max 1 (Calendar.days_in_month year month
      - closed_days (default ∅ (closed ss !! ym year month))
          (Calendar.days_in_month year month))) (meet * 2)) as [Hle|Hgt].
  - split; split; try done; intros; lia.
  - split; split; try done; intros; lia.
Qed.

Lemma biz_flag_half_rule_witness :
  ∃ flag meet operating,
    biz_flag_for_month initial_session 2026 2 = Some (flag, meet, operating) ∧
    (flag = FLAG_5_OR_MORE ↔ meet * 2 >= operating) ∧
    (flag = FLAG_UNDER_5 ↔ ¬ meet * 2 >= operating).
Proof. apply (biz_flag_half_rule initial_session 2026 2). lia. Defined.

(** C5: for a month in [1..12], the third component returned by
    [biz_flag_for_month] is the number of days of the month minus the number
    of closed days among them, but at least 1; when every day of the month
    is closed the result is operating 1, meet 0 and the flag "5인 미만". *)
Theorem biz_flag_operating (ss : session) (year month : Z) :
  1 ≤ month ≤ 12 →
  let closed_month := default ∅ (closed ss !! ym year month) in
  let last := Calendar.days_in_month year month in
  ∃ flag meet,
    biz_flag_for_month ss year month =
      Some (flag, meet, Z.max 1 (last - closed_days closed_month last)) ∧
    ((∀ d, 1 ≤ d ≤ last → is_closed closed_month d = true) →
     biz_flag_for_month ss year month = Some (FLAG_UNDER_5, 0, 1)).
Proof.
  intros Hm closed_month last.
  destruct (biz_flag_unfold ss year month Hm) as (meet & Hmeet & Hop & Heq).
  fold closed_month last in Hmeet, Hop, Heq.
  eexists _, meet. split; [exact Heq|].
  intros Hall.
  pose proof (days_in_month_range year month Hm) as Hlast. fold last in Hlast.
  assert (Hcd : closed_days closed_month last = last).
  { unfold closed_days. rewrite filter_all.
    - rewrite length_seqZ. lia.
    - intros d Hd. apply elem_of_seqZ in Hd. apply Hall. lia. }
  rewrite Heq. rewrite Hcd in Hmeet |- *.
  replace meet with 0 by lia. rewrite Z.sub_diag. reflexivity.
Qed.

Lemma biz_flag_operating_witness :
  biz_flag_for_month all_closed_session 2026 2 = Some (FLAG_UNDER_5, 0, 1).
Proof.
  destruct (biz_flag_operating all_closed_session 2026 2 ltac:(lia))
    as (flag & meet & _ & Hall).
  apply Hall. intros d Hd.
  change (Calendar.days_in_month 2026 2) with 28 in Hd.
  apply (forallb_seqZ
           (is_closed (default ∅ (closed all_closed_session !! ym 2026 2))) 1 28);
    [vm_compute; reflexivity | lia].
Defined.

(* ===================================================================== *)
(** ** Loops that may raise *)
(* ===================================================================== *)

Section FoldlM.
Context {A B : Type} (f : B → A → option B).

Lemma foldlM_app (l1 l2 : list A) (b : B) :
  foldlM f b (l1 ++ l2) = foldlM f b l1 ≫= λ b', foldlM f b' l2.
Proof.
  revert b. induction l1 as [|a l1 IH]; intros b; [done|].
  cbn. destruct (f b a); [apply IH | done].
Qed.

(** The nested loop over weeks and days is one loop over all cells. *)
Lemma foldlM_concat (ls : list (list A)) (b : B) :
  foldlM (λ b l, foldlM f b l) b ls = foldlM f b (concat ls).
Proof.
  revert b. induction ls as [|l ls IH]; intros b; [done|].
  cbn [foldlM concat]. rewrite foldlM_app.
  destruct (foldlM f b l); [apply IH | done].
Qed.

Lemma foldlM_is_Some (l : list A) (b : B) :
  (∀ b a, a ∈ l → is_Some (f b a)) → is_Some (foldlM f b l).
Proof.
  revert b. induction l as [|a l IH]; intros b Hall; [by eexists|].
  cbn. destruct (Hall b a ltac:(left)) as [b' ->].
  apply IH. intros b0 a0 Ha0. apply Hall. by right.
Qed.

Lemma foldlM_invariant (P : B → Prop) (l : list A) (b b' : B) :
  (∀ b a b', P b → f b a = Some b' → P b') →
  P b → foldlM f b l = Some b' → P b'.
Proof.
  intros Hstep. revert b. induction l as [|a l IH]; intros b Hb Hrun.
  - by injection Hrun as <-.
  - cbn in Hrun. destruct (f b a) as [b1|] eqn:E; [|done].
    eapply IH; [|exact Hrun]. by eapply Hstep.
Qed.

(** A loop whose steps only extend the state ([R]), leave their own item
    settled, and stay settled in every extension, changes nothing when it
    is run a second time. *)
Section Idempotent.
Context (R : B → B → Prop).
Hypothesis R_refl : ∀ b, R b b.
Hypothesis R_trans : ∀ b1 b2 b3, R b1 b2 → R b2 b3 → R b1 b3.
Hypothesis step_ext : ∀ b a b', f b a = Some b' → R b b'.
Hypothesis step_settles : ∀ b a b', f b a = Some b' → f b' a = Some b'.
Hypothesis settled_mono : ∀ b b2 a, f b a = Some b → R b b2 → f b2 a = Some b2.

Lemma foldlM_ext (l : list A) (b b' : B) : foldlM f b l = Some b' → R b b'.
Proof.
  revert b. induction l as [|a l IH]; intros b Hrun.
  - injection Hrun as <-. apply R_refl.
  - cbn in Hrun. destruct (f b a) as [b1|] eqn:E; [|done].
    eapply R_trans; [by eapply step_ext | by apply IH].
Qed.

Lemma foldlM_settles (l : list A) (b b' : B) :
  foldlM f b l = Some b' → ∀ a, a ∈ l → f b' a = Some b'.
Proof.
  revert b. induction l as [|a l IH]; intros b Hrun a0 Ha0.
  - by apply elem_of_nil in Ha0.
  - cbn in Hrun. destruct (f b a) as [b1|] eqn:E; [|done].
    apply elem_of_cons in Ha0 as [->|Ha0].
    + eapply settled_mono; [by eapply step_settles | by eapply foldlM_ext].
    + by eapply IH.
Qed.

Lemma foldlM_fixed (l : list A) (b : B) :
  (∀ a, a ∈ l → f b a = Some b) → foldlM f b l = Some b.
Proof.
  induction l as [|a l IH]; intros Hall; [done|].
  cbn. rewrite (Hall a) by left. apply IH. intros a0 Ha0. apply Hall. by right.
Qed.

Lemma foldlM_idempotent (l : list A) (b b' : B) :
  foldlM f b l = Some b' → foldlM f b' l = Some b'.
Proof. intros Hrun. apply foldlM_fixed. by eapply foldlM_settles. Qed.
End Idempotent.
End FoldlM.

(* ===================================================================== *)
(** ** Automatic assignment *)
(* ===================================================================== *)

Lemma roster_ext_refl asg : roster_ext asg asg.
Proof. intros k l Hk. exists []. by rewrite app_nil_r. Qed.

Lemma roster_ext_trans a b c : roster_ext a b → roster_ext b c → roster_ext a c.
Proof.
  intros Hab Hbc k l Hk.
  destruct (Hab k l Hk) as (l1 & Hb). destruct (Hbc k _ Hb) as (l2 & Hc).
  exists (l1 ++ l2). by rewrite app_assoc.
Qed.

(** The loop over the candidates, started with [exists_] the set of names
    of [day_list]: rows are only appended, every candidate is named in the
    result, and no name is repeated if none was. *)
Lemma assign_candidates_spec (cands : list Employee) :
  ∀ (day_list : list Shift) (exists_ : gset (list N)),
    (∀ n, n ∈ exists_ ↔ n ∈ sh_name <$> day_list) →
    ∃ extra, assign_candidates cands day_list exists_ = day_list ++ extra ∧
      (∀ e, e ∈ cands → name e ∈ sh_name <$> (day_list ++ extra)) ∧
      (NoDup (sh_name <$> day_list) → NoDup (sh_name <$> (day_list ++ extra))).
Proof.
  induction cands as [|emp rest IH]; intros day_list exists_ Hex.
  - exists []. rewrite app_nil_r. split; [done|]. split; [|done].
    intros e He. by apply elem_of_nil in He.
  - cbn [assign_candidates]. case_bool_decide as Hin.
    + destruct (IH day_list exists_ Hex) as (extra & Heq & Hnames & Hnd).
      exists extra. split; [done|]. split; [|done].
      intros e [->|He]%elem_of_cons; [|by apply Hnames].
      rewrite fmap_app. apply elem_of_app. left. by apply Hex.
    + destruct (IH (day_list ++ [default_shift emp]) ({[name emp]} ∪ exists_))
        as (extra & Heq & Hnames & Hnd).
      { intros n. rewrite fmap_app, elem_of_app, elem_of_union, elem_of_singleton.
        cbn. rewrite list_elem_of_singleton, Hex. tauto. }
      exists ([default_shift emp] ++ extra). rewrite app_assoc.
      split; [done|]. split.
      * intros e [->|He]%elem_of_cons; [|by apply Hnames].
        rewrite !fmap_app, !elem_of_app. left. right. cbn. left.
      * intros Hnd0. apply Hnd. rewrite fmap_app. apply NoDup_app.
        split; [done|]. split; [|apply NoDup_singleton].
        intros n Hn [->|[]%elem_of_nil]%elem_of_cons. apply Hin. by apply Hex.
Qed.

(** When every candidate is already named in [exists_], nothing is
    appended. *)
Lemma assign_candidates_fixed (cands : list Employee) (day_list : list Shift)
    (exists_ : gset (list N)) :
  (∀ e, e ∈ cands → name e ∈ exists_) →
  assign_candidates cands day_list exists_ = day_list.
Proof.
  induction cands as [|emp rest IH]; intros Hall; [done|].
  cbn [assign_candidates]. rewrite bool_decide_eq_true_2 by (apply Hall; left).
  apply IH. intros e He. apply Hall. by right.
Qed.

Lemma auto_assign_day_plan emps closed_month year month asg d :
  auto_assign_day emps closed_month year month asg d =
    (cands ← day_candidates emps closed_month year month d;
     Some (place cands (ymd year month d) asg)).
Proof.
  unfold auto_assign_day, day_candidates.
  destruct ((d =? 0) || is_closed closed_month d); [done|].
  destruct (Calendar.date_weekday year month d) as [wd|]; [|done]. cbn.
  destruct (KOREAN_DAYS !! Z.to_nat wd) as [wday|]; [|done]. cbn.
  by destruct (filter _ emps).
Qed.

Lemma place_lookup_ne cands key asg k :
  k ≠ key → place cands key asg !! k = asg !! k.
Proof.
  intros Hne. unfold place. destruct cands; [done|]. by rewrite lookup_insert_ne.
Qed.

(** What [place] leaves at the key of the day. *)
Lemma place_lookup cands key asg :
  cands ≠ [] →
  ∃ extra,
    place cands key asg !! key = Some (default [] (asg !! key) ++ extra) ∧
    (∀ e, e ∈ cands → name e ∈ sh_name <$> (default [] (asg !! key) ++ extra)) ∧
    (NoDup (sh_name <$> default [] (asg !! key)) →
     NoDup (sh_name <$> (default [] (asg !! key) ++ extra))).
Proof.
  intros Hne.
  destruct (assign_candidates_spec cands (default [] (asg !! key))
              (list_to_set (sh_name <$> default [] (asg !! key))))
    as (extra & Heq & Hnames & Hnd).
  { intros n. by rewrite elem_of_list_to_set. }
  exists extra. split; [|done].
  unfold place. destruct cands; [done|]. by rewrite lookup_insert_eq, Heq.
Qed.

Lemma place_ext cands key asg : roster_ext asg (place cands key asg).
Proof.
  destruct cands as [|c cands]; [apply roster_ext_refl|].
  intros k l Hk. destruct (decide (k = key)) as [->|Hne].
  - destruct (place_lookup (c :: cands) key asg ltac:(done)) as (extra & Hl & _).
    rewrite Hk in Hl. by exists extra.
  - exists []. by rewrite app_nil_r, place_lookup_ne.
Qed.

(** In a roster where every candidate is already listed on the day,
    [place] changes nothing. *)
Lemma place_fixed cands key asg l :
  asg !! key = Some l →
  (∀ e, e ∈ cands → name e ∈ sh_name <$> l) →
  place cands key asg = asg.
Proof.
  intros Hk Hall. unfold place. destruct cands as [|c cands]; [done|].
  rewrite Hk. cbn [default].
  rewrite assign_candidates_fixed; [by apply insert_id|].
  intros e He. apply elem_of_list_to_set. by apply Hall.
Qed.

Lemma place_settles cands key asg :
  place cands key (place cands key asg) = place cands key asg.
Proof.
  destruct cands as [|c cands]; [done|].
  destruct (place_lookup (c :: cands) key asg ltac:(done)) as (extra & Hl & Hnames & _).
  by eapply place_fixed.
Qed.

Lemma place_settled_mono cands key asg asg2 :
  place cands key asg = asg → roster_ext asg asg2 → place cands key asg2 = asg2.
Proof.
  intros Hfix Hext. destruct cands as [|c cands]; [done|].
  destruct (place_lookup (c :: cands) key asg ltac:(done)) as (extra & Hl & Hnames & _).
  rewrite Hfix in Hl. destruct (Hext _ _ Hl) as (l' & Hl2).
  eapply place_fixed; [exact Hl2|].
  intros e He. rewrite fmap_app. apply elem_of_app. left. by apply Hnames.
Qed.

Lemma place_ok cands key asg : roster_ok asg → roster_ok (place cands key asg).
Proof.
  intros Hok. destruct cands as [|c cands]; [done|].
  intros k l Hk. destruct (decide (k = key)) as [->|Hne].
  - destruct (place_lookup (c :: cands) key asg ltac:(done)) as (extra & Hl & Hnames & _).
    rewrite Hk in Hl. injection Hl as ->.
    intros Hnil. specialize (Hnames c ltac:(left)). rewrite Hnil in Hnames.
    by apply elem_of_nil in Hnames.
  - rewrite place_lookup_ne in Hk by done. by eapply Hok.
Qed.

Lemma place_unique cands key asg : roster_unique asg → roster_unique (place cands key asg).
Proof.
  intros Hun. destruct cands as [|c cands]; [done|].
  intros k l Hk. destruct (decide (k = key)) as [->|Hne].
  - destruct (place_lookup (c :: cands) key asg ltac:(done)) as (extra & Hl & _ & Hnd).
    rewrite Hk in Hl. injection Hl as ->. apply Hnd.
    destruct (asg !! key) as [l0|] eqn:E; [by eapply Hun | constructor].
  - rewrite place_lookup_ne in Hk by done. by eapply Hun.
Qed.

Lemma auto_assign_day_Some emps closed_month year month asg d asg' :
  auto_assign_day emps closed_month year month asg d = Some asg' ↔
  ∃ cands, day_candidates emps closed_month year month d = Some cands ∧
           asg' = place cands (ymd year month d) asg.
Proof.
  rewrite auto_assign_day_plan.
  destruct (day_candidates emps closed_month year month d) as [cands|]; cbn.
  - split.
    + intros [= <-]. by exists cands.
    + intros (c & [= <-] & ->). done.
  - split; [done|]. by intros (c & ? & _).
Qed.

Lemma auto_assign_day_ext emps closed_month year month asg d asg' :
  auto_assign_day emps closed_month year month asg d = Some asg' → roster_ext asg asg'.
Proof. intros (cands & _ & ->)%auto_assign_day_Some. apply place_ext. Qed.

Lemma auto_assign_day_settles emps closed_month year month asg d asg' :
  auto_assign_day emps closed_month year month asg d = Some asg' →
  auto_assign_day emps closed_month year month asg' d = Some asg'.
Proof.
  intros (cands & Hc & ->)%auto_assign_day_Some.
  apply auto_assign_day_Some. exists cands. by rewrite place_settles.
Qed.

Lemma auto_assign_day_settled_mono emps closed_month year month asg asg2 d :
  auto_assign_day emps closed_month year month asg d = Some asg →
  roster_ext asg asg2 →
  auto_assign_day emps closed_month year month asg2 d = Some asg2.
Proof.
  intros (cands & Hc & Hfix)%auto_assign_day_Some Hext.
  apply auto_assign_day_Some. exists cands. split; [done|].
  symmetry. by eapply place_settled_mono.
Qed.

(** The cells of the month grid are fillers (0) or days of the month. *)
Lemma monthdayscalendar_cells (year month : Z) :
  1 ≤ month ≤ 12 →
  ∃ cal, Calendar.monthdayscalendar 0 year month = Some cal ∧
         ∀ d, In d (concat cal) → d = 0 ∨ 1 ≤ d ≤ Calendar.days_in_month year month.
Proof.
  intros Hm. destruct (monthrange_days year month Hm) as (day1 & Hmr & Hd1).
  unfold Calendar.monthdayscalendar, Calendar.itermonthdays. rewrite Hmr.
  cbn [mbind option_bind]. eexists. split; [reflexivity|].
  intros d (wk & Hwk & Hd)%in_concat.
  apply list_elem_of_In, list_elem_of_fmap in Hwk as (k & -> & _).
  apply list_elem_of_In, elem_of_take in Hd as (i & Hi & _).
  rewrite lookup_drop in Hi. apply list_elem_of_lookup_2 in Hi.
  rewrite !elem_of_app in Hi. destruct Hi as [Hi|[Hi|Hi]].
  - left. by apply elem_of_replicate_inv in Hi.
  - right. apply elem_of_seqZ in Hi. lia.
  - left. by apply elem_of_replicate_inv in Hi.
Qed.

Lemma day_candidates_is_Some emps closed_month (year month d : Z) :
  1 ≤ year ≤ 9999 → 1 ≤ month ≤ 12 →
  d = 0 ∨ 1 ≤ d ≤ Calendar.days_in_month year month →
  is_Some (day_candidates emps closed_month year month d).
Proof.
  intros Hy Hm Hd. unfold day_candidates.
  destruct ((d =? 0) || is_closed closed_month d) eqn:E; [by eexists|].
  apply orb_false_elim in E as [Hd0%Z.eqb_neq _].
  destruct Hd as [->|Hd]; [done|].
  unfold Calendar.date_weekday.
  assert (Hok : (Calendar.MINYEAR <=? year) && (year <=? Calendar.MAXYEAR) && (1 <=? month)
                && (month <=? 12) && (1 <=? d) && (d <=? Calendar.days_in_month year month) = true).
  { unfold Calendar.MINYEAR, Calendar.MAXYEAR.
    repeat (apply andb_true_intro; split); apply Z.leb_le; lia. }
  rewrite Hok. cbn [mbind option_bind].
  set (wd := (_ + 6) mod 7).
  assert (Hwd : 0 ≤ wd < 7) by (apply Z.mod_pos_bound; lia).
  destruct (lookup_lt_is_Some_2 KOREAN_DAYS (Z.to_nat wd)) as [wday ->];
    [cbn; lia | by eexists].
Qed.

Lemma auto_assign_for_month_is_Some (ss : session) (year month : Z) :
  1 ≤ year ≤ 9999 → 1 ≤ month ≤ 12 → is_Some (auto_assign_for_month ss year month).
Proof.
  intros Hy Hm. unfold auto_assign_for_month.
  destruct (monthdayscalendar_cells year month Hm) as (cal & -> & Hcells).
  cbn [mbind option_bind]. rewrite foldlM_concat.
  destruct (foldlM_is_Some
              (auto_assign_day (employees ss) (default ∅ (closed ss !! ym year month))
                 year month) (concat cal) (assignments ss)) as [asg ->]; [|by eexists].
  intros asg d Hd. rewrite auto_assign_day_plan.
  destruct (day_candidates_is_Some (employees ss) (default ∅ (closed ss !! ym year month))
              year month d Hy Hm) as [cands ->]; [|by eexists].
  apply Hcells. by apply list_elem_of_In.
Qed.

(** A property of rosters kept by [place] is kept by a whole run. *)
Lemma auto_assign_for_month_invariant (P : gmap (list N) (list Shift) → Prop)
    (ss ss' : session) (year month : Z) :
  (∀ cands key asg, P asg → P (place cands key asg)) →
  P (assignments ss) →
  auto_assign_for_month ss year month = Some ss' →
  P (assignments ss').
Proof.
  intros Hplace HP. unfold auto_assign_for_month.
  destruct (Calendar.monthdayscalendar 0 year month) as [cal|]; [|done].
  cbn [mbind option_bind]. rewrite foldlM_concat.
  destruct (foldlM _ _ _) as [asg|] eqn:Hrun; [|done].
  intros [= <-]. cbn.
  eapply foldlM_invariant; [|exact HP|exact Hrun].
  intros b d b' Hb (cands & _ & ->)%auto_assign_day_Some. by apply Hplace.
Qed.

(** C4: for a year in [1..9999] and a month in [1..12],
    [auto_assign_for_month] returns a session, and running it again on that
    session, with the directory and the closed days as they are, returns
    the same session. *)
Theorem auto_assign_idempotent (ss : session) (year month : Z) :
  1 ≤ year ≤ 9999 → 1 ≤ month ≤ 12 →
  ∃ ss1, auto_assign_for_month ss year month = Some ss1 ∧
         auto_assign_for_month ss1 year month = Some ss1.
Proof.
  intros Hy Hm.
  destruct (auto_assign_for_month_is_Some ss year month Hy Hm) as [ss1 Hrun].
  exists ss1. split; [done|].
  revert Hrun. unfold auto_assign_for_month.
  destruct (Calendar.monthdayscalendar 0 year month) as [cal|]; [|done].
  cbn [mbind option_bind]. rewrite foldlM_concat.
  destruct (foldlM _ _ _) as [asg|] eqn:Hrun; [|done].
  intros [= <-]. cbn [employees closed assignments with_assignments].
  rewrite foldlM_concat.
  pose proof (foldlM_idempotent
                (auto_assign_day (employees ss) (default ∅ (closed ss !! ym year month))
                   year month)
                roster_ext roster_ext_refl roster_ext_trans
                (λ b d b', auto_assign_day_ext _ _ _ _ b d b')
                (λ b d b', auto_assign_day_settles _ _ _ _ b d b')
                (λ b b2 d, auto_assign_day_settled_mono _ _ _ _ b b2 d)
                _ _ _ Hrun) as Hagain.
  rewrite Hagain. reflexivity.
Qed.

Lemma auto_assign_idempotent_witness :
  ∃ ss1, auto_assign_for_month sample_session 2026 1 = Some ss1 ∧
         auto_assign_for_month ss1 2026 1 = Some ss1.
Proof. apply (auto_assign_idempotent sample_session 2026 1); lia. Defined.

(* ===================================================================== *)
(** ** Deleting an employee *)
(* ===================================================================== *)

Lemma cascade_step_lookup (name_del : list N) (asg : gmap (list N) (list Shift))
    (kv : list N * list Shift) (k : list N) :
  cascade_step name_del asg kv !! k =
    if decide (k = kv.1) then without_name name_del kv.2 else asg !! k.
Proof.
  unfold cascade_step, without_name. rewrite lookup_insert_eq.
  destruct (filter _ kv.2) as [|r l] eqn:E; case_decide as Hk; subst.
  - apply lookup_delete_eq.
  - by rewrite lookup_delete_ne, lookup_insert_ne.
  - apply lookup_insert_eq.
  - by rewrite lookup_insert_ne.
Qed.

Lemma cascade_fold_lookup (name_del : list N) (kvs : list (list N * list Shift)) :
  NoDup kvs.*1 →
  ∀ asg k,
    (∀ v, (k, v) ∈ kvs →
       foldl (cascade_step name_del) asg kvs !! k = without_name name_del v) ∧
    (k ∉ kvs.*1 → foldl (cascade_step name_del) asg kvs !! k = asg !! k).
Proof.
  induction kvs as [|kv kvs IH]; intros Hnd asg k.
  - split; [by intros v ?%elem_of_nil | done].
  - apply NoDup_cons in Hnd as [Hnotin Hnd]. cbn [foldl].
    destruct (IH Hnd (cascade_step name_del asg kv) k) as [IHin IHout].
    split.
    + intros v [<-|Hin]%elem_of_cons; [|by apply IHin].
      rewrite IHout by done. rewrite cascade_step_lookup. by rewrite decide_True.
    + intros Hk. rewrite fmap_cons, not_elem_of_cons in Hk. destruct Hk as [Hne Hk].
      rewrite IHout by done. rewrite cascade_step_lookup. by rewrite decide_False.
Qed.

(** The loop over the items of the roster, date by date. *)
Lemma cascade_lookup (name_del : list N) (asg : gmap (list N) (list Shift)) (k : list N) :
  cascade name_del asg !! k = asg !! k ≫= without_name name_del.
Proof.
  unfold cascade.
  destruct (cascade_fold_lookup name_del (map_to_list asg)
              (NoDup_fst_map_to_list asg) asg k) as [Hin Hout].
  destruct (asg !! k) as [v|] eqn:Hk; cbn.
  - apply Hin. by apply elem_of_map_to_list.
  - rewrite Hout; [done|].
    intros ((k' & v) & -> & Hv%elem_of_map_to_list)%list_elem_of_fmap. cbn in Hk. congruence.
Qed.

(** C7: deleting employee [i] of the directory, named [name e], leaves at
    every date the rows of the other names, in order; a date none of whose
    rows remain is no longer a key of the roster, so no date keeps an empty
    list and no row of that name is left anywhere. *)
Theorem delete_employee_cascades (ss : session) (i : nat) (e : Employee) :
  employees ss !! i = Some e →
  let asg' := assignments (delete_employee ss i) in
  (∀ k, asg' !! k = assignments ss !! k ≫= without_name (name e)) ∧
  (∀ k l, asg' !! k = Some l → l ≠ [] ∧ ∀ r, r ∈ l → sh_name r ≠ name e) ∧
  (∀ k arr, assignments ss !! k = Some arr →
     filter (λ r, sh_name r ≠ name e) arr = [] → asg' !! k = None).
Proof.
  intros He asg'.
  assert (Hlook : ∀ k, asg' !! k = assignments ss !! k ≫= without_name (name e)).
  { intros k. unfold asg', delete_employee. rewrite He. cbn. apply cascade_lookup. }
  split; [exact Hlook|]. split.
  - intros k l. rewrite Hlook.
    destruct (assignments ss !! k) as [arr|]; [|done]. cbn. unfold without_name.
    destruct (filter _ arr) as [|r0 l0] eqn:E; [done|]. intros [= <-].
    split; [done|]. intros r Hr. rewrite <- E in Hr.
    by apply list_elem_of_filter in Hr as [? _].
  - intros k arr Hk Hnil. rewrite Hlook, Hk. cbn. unfold without_name. by rewrite Hnil.
Qed.

Lemma delete_employee_cascades_witness :
  assignments (delete_employee booked_session 0) !! ymd 2026 1 5 = None ∧
  assignments (delete_employee booked_session 0) !! ymd 2026 1 12 =
    Some [shift_item (u "나") (u "일용직") (10, 0) (15, 30) 30 12000].
Proof.
  destruct (delete_employee_cascades booked_session 0
              {| name := u "가"; phone := u "01012345678"; role := u "홀서빙";
                 employment_type := u "4대보험"; available_days := [u "월"; u "수"] |}
              ltac:(reflexivity)) as (Hlook & _ & _).
  rewrite !Hlook. split; vm_compute; reflexivity.
Defined.

(* ===================================================================== *)
(** ** The roster never maps a date to an empty list *)
(* ===================================================================== *)

Lemma submit_shift_Some ss day_key name_sel emp_type clock_in clock_out brk wage ss' :
  submit_shift ss day_key name_sel emp_type clock_in clock_out brk wage = Some ss' →
  final_name ss name_sel ≠ [] →
  assignments ss' =
    <[day_key := default [] (assignments ss !! day_key)
                 ++ [shift_item (final_name ss name_sel) emp_type clock_in clock_out brk wage]]>
      (assignments ss).
Proof.
  unfold submit_shift. intros Hrun Hne.
  destruct (final_name ss name_sel) as [|c nm] eqn:Hfn; [done|].
  apply bind_Some in Hrun as (emps & _ & Hrun). by injection Hrun as <-.
Qed.

Lemma submit_shift_ok ss day_key name_sel emp_type clock_in clock_out brk wage ss' :
  roster_ok (assignments ss) →
  submit_shift ss day_key name_sel emp_type clock_in clock_out brk wage = Some ss' →
  roster_ok (assignments ss').
Proof.
  intros Hok Hrun.
  destruct (decide (final_name ss name_sel = [])) as [Hnil|Hne].
  - unfold submit_shift in Hrun. rewrite Hnil in Hrun. by injection Hrun as <-.
  - rewrite (submit_shift_Some _ _ _ _ _ _ _ _ _ Hrun Hne).
    apply map_Forall_insert_2; [|done]. by intros [_ ?]%app_eq_nil.
Qed.

Lemma delete_row_ok ss day_key idx :
  roster_ok (assignments ss) → roster_ok (assignments (delete_row ss day_key idx)).
Proof.
  intros Hok. unfold delete_row.
  destruct (default [] (assignments ss !! day_key) !! idx); [|done].
  destruct (delete idx _) as [|r l] eqn:E; cbn.
  - by apply map_Forall_delete.
  - by apply map_Forall_insert_2.
Qed.

Lemma delete_employee_ok ss i :
  roster_ok (assignments ss) → roster_ok (assignments (delete_employee ss i)).
Proof.
  intros Hok. unfold delete_employee.
  destruct (employees ss !! i) as [e|]; [|done]. cbn.
  intros k l. rewrite cascade_lookup.
  destruct (assignments ss !! k) as [arr|]; [|done]. cbn. unfold without_name.
  destruct (filter _ arr); [done|]. by intros [= <-].
Qed.

(** C9: if every date of the roster has a non-empty list, this is still so
    after an automatic assignment, after a shift is added by hand, after a
    row is deleted and after an employee is deleted. *)
Theorem roster_ok_preserved (ss : session) :
  roster_ok (assignments ss) →
  (∀ year month ss',
     auto_assign_for_month ss year month = Some ss' → roster_ok (assignments ss')) ∧
  (∀ day_key name_sel emp_type clock_in clock_out brk wage ss',
     submit_shift ss day_key name_sel emp_type clock_in clock_out brk wage = Some ss' →
     roster_ok (assignments ss')) ∧
  (∀ day_key idx, roster_ok (assignments (delete_row ss day_key idx))) ∧
  (∀ i, roster_ok (assignments (delete_employee ss i))).
Proof.
  intros Hok. repeat split.
  - intros year month ss' Hrun.
    eapply (auto_assign_for_month_invariant roster_ok); [|exact Hok|exact Hrun].
    intros cands key asg. apply place_ok.
  - intros. by eapply submit_shift_ok.
  - intros. by apply delete_row_ok.
  - intros. by apply delete_employee_ok.
Qed.

Lemma roster_ok_preserved_witness :
  roster_ok (assignments (delete_row booked_session (ymd 2026 1 5) 0)) ∧
  roster_ok (assignments (delete_employee booked_session 0)).
Proof.
  destruct (roster_ok_preserved booked_session) as (_ & _ & Hrow & Hemp).
  - by_evaluation.
  - split; [apply Hrow | apply Hemp].
Defined.

(* ===================================================================== *)
(** ** Adding a shift by hand *)
(* ===================================================================== *)

(** Against C1 as stated: 가 is on the list of 2026-01-05 in
    [booked_session]; saving the form for 가 on that date again succeeds
    and leaves the name twice in the list. *)
Lemma add_assignment_duplicate_accepted :
  ∃ ss',
    submit_shift booked_session (ymd 2026 1 5) (u "가") (u "4대보험") (9, 0) (18, 0) 60 10000
      = Some ss' ∧
    sh_name <$> default [] (assignments ss' !! ymd 2026 1 5) = [u "가"; u "가"] ∧
    ¬ roster_unique (assignments ss').
Proof.
  exists (default booked_session
            (submit_shift booked_session (ymd 2026 1 5) (u "가") (u "4대보험")
               (9, 0) (18, 0) 60 10000)).
  split; [vm_compute; reflexivity|].
  assert (Hnames : sh_name <$> default [] (assignments (default booked_session
            (submit_shift booked_session (ymd 2026 1 5) (u "가") (u "4대보험")
               (9, 0) (18, 0) 60 10000)) !! ymd 2026 1 5) = [u "가"; u "가"])
    by (vm_compute; reflexivity).
  split; [exact Hnames|].
  intros Hun.
  destruct (assignments _ !! ymd 2026 1 5) as [l|] eqn:Hl; [|discriminate Hnames].
  specialize (Hun _ _ Hl). cbn in Hun, Hnames. rewrite Hnames in Hun.
  apply NoDup_cons in Hun as [Hnotin _]. apply Hnotin. left.
Qed.

Lemma submit_shift_listed ss day_key name_sel emp_type clock_in clock_out brk wage :
  name_sel ∈ name <$> employees ss →
  is_Some (submit_shift ss day_key name_sel emp_type clock_in clock_out brk wage).
Proof.
  intros (e & -> & He)%list_elem_of_fmap. unfold submit_shift.
  assert (Hfn : final_name ss (name e) = name e).
  { unfold final_name. destruct (employees ss); [by apply elem_of_nil in He | done]. }
  rewrite Hfn. destruct (name e) as [|c nm] eqn:Hn; [by eexists|].
  destruct (list_find_elem_of (λ e', name e' = c :: nm) (employees ss) e He Hn) as [r ->].
  by eexists.
Qed.

(** C1 (as the code has it): the save of a shift never fails for a name
    chosen from the directory, and whenever it goes through with a
    non-empty name it appends the new row to the list of the date,
    whether or not that name is already there; the rows the automatic
    assignment adds keep the names of each date distinct. *)
Theorem add_assignment_appends (ss : session) (day_key name_sel emp_type : list N)
    (clock_in clock_out : Z * Z) (brk wage : Z) :
  (name_sel ∈ name <$> employees ss →
   is_Some (submit_shift ss day_key name_sel emp_type clock_in clock_out brk wage)) ∧
  (∀ ss',
     submit_shift ss day_key name_sel emp_type clock_in clock_out brk wage = Some ss' →
     final_name ss name_sel ≠ [] →
     assignments ss' =
       <[day_key := default [] (assignments ss !! day_key)
                    ++ [shift_item (final_name ss name_sel) emp_type clock_in clock_out brk wage]]>
         (assignments ss)) ∧
  (∀ year month ss',
     roster_unique (assignments ss) →
     auto_assign_for_month ss year month = Some ss' →
     roster_unique (assignments ss')).
Proof.
  split; [apply submit_shift_listed|]. split.
  - intros ss'. apply submit_shift_Some.
  - intros year month ss' Hun Hrun.
    eapply (auto_assign_for_month_invariant roster_unique); [|exact Hun|exact Hrun].
    intros cands key asg. apply place_unique.
Qed.

Lemma add_assignment_appends_witness :
  is_Some (submit_shift booked_session (ymd 2026 1 5) (u "가") (u "4대보험")
             (9, 0) (18, 0) 60 10000) ∧
  (∀ ss', auto_assign_for_month booked_session 2026 1 = Some ss' →
          roster_unique (assignments ss')).
Proof.
  destruct (add_assignment_appends booked_session (ymd 2026 1 5) (u "가") (u "4대보험")
              (9, 0) (18, 0) 60 10000) as (Hsome & _ & Hauto).
  split.
  - apply Hsome. vm_compute. left.
  - intros ss'. apply Hauto. by_evaluation.
Defined.

(* ===================================================================== *)
(** ** The directory *)
(* ===================================================================== *)

(** Against C2 as stated: registering 가 twice through the form leaves two
    records of that name. *)
Lemma directory_duplicate_name :
  ¬ NoDup (name <$> employees
             (run_dir_ops initial_session
                [ AddEmployee (u "가") (u "01012345678") (u "홀서빙") (u "4대보험") [u "월"];
                  AddEmployee (u "가") (u "01087654321") (u "주방") (u "일용직") [u "화"] ])).
Proof.
  assert (Hnames : name <$> employees
             (run_dir_ops initial_session
                [ AddEmployee (u "가") (u "01012345678") (u "홀서빙") (u "4대보험") [u "월"];
                  AddEmployee (u "가") (u "01087654321") (u "주방") (u "일용직") [u "화"] ])
           = [u "가"; u "가"]) by (vm_compute; reflexivity).
  rewrite Hnames. intros [Hnotin _]%NoDup_cons. apply Hnotin. left.
Qed.

Lemma import_row_names out acc idx :
  Forall (λ e, name e ≠ []) acc.1 →
  Forall (λ e, name e ≠ []) (import_row out acc idx).1.
Proof.
  destruct acc as [added skipped]. cbn [fst]. intros Hall. unfold import_row.
  destruct (strip _) as [|c nm] eqn:E; [done|]. cbn [fst].
  apply Forall_app. split; [done|]. by repeat constructor.
Qed.

Lemma df_to_employees_names df :
  Forall (λ e, name e ≠ []) (df_to_employees df).1.
Proof.
  unfold df_to_employees.
  generalize (seq 0 (normalize_columns df).2).
  assert (Hinit : Forall (λ e, name e ≠ []) (([], []) : list Employee * list (Z * list N)).1)
    by constructor.
  revert Hinit. generalize (([], []) : list Employee * list (Z * list N)).
  intros acc Hacc idxs. revert acc Hacc.
  induction idxs as [|idx idxs IH]; intros acc Hacc; [done|].
  cbn [foldl]. apply IH. by apply import_row_names.
Qed.

Lemma apply_dir_op_employees ss op :
  employees (apply_dir_op ss op) = employees ss ++ added_by ss op ∧
  Forall (λ e, name e ≠ []) (added_by ss op).
Proof.
  destruct op as [nm ph rl emp_type days|file_id df_raw]; cbn.
  - unfold submit_employee. destruct (strip nm) as [|c nm'] eqn:E.
    + by rewrite app_nil_r.
    + split; [done|]. by repeat constructor.
  - unfold handle_upload. case_bool_decide.
    + by rewrite app_nil_r.
    + pose proof (df_to_employees_names df_raw) as Hnames.
      destruct (df_to_employees df_raw) as [new_emps skipped]. cbn [fst] in *.
      split; [|done]. destruct new_emps; cbn; [by rewrite app_nil_r | done].
Qed.

(** C2 (as the code has it): an addition through the form or through an
    import appends its records to the directory, each with a non-empty
    name and without looking at the names already there; after any sequence
    of such operations the directory is the previous directory followed by
    the added records. *)
Theorem directory_append_only (ss : session) (op : dir_op) (ops : list dir_op) :
  employees (apply_dir_op ss op) = employees ss ++ added_by ss op ∧
  Forall (λ e, name e ≠ []) (added_by ss op) ∧
  ∃ added,
    employees (run_dir_ops ss ops) = employees ss ++ added ∧
    Forall (λ e, name e ≠ []) added.
Proof.
  destruct (apply_dir_op_employees ss op) as [Hop Hnames].
  split; [done|]. split; [done|]. clear.
  revert ss. induction ops as [|o ops IH]; intros ss.
  - exists []. by rewrite app_nil_r.
  - cbn [run_dir_ops foldl]. fold (run_dir_ops (apply_dir_op ss o) ops).
    destruct (IH (apply_dir_op ss o)) as (added & Heq & Hall).
    destruct (apply_dir_op_employees ss o) as [Ho Hn].
    exists (added_by ss o ++ added). rewrite Heq, Ho, app_assoc.
    split; [done|]. by apply Forall_app.
Qed.

(* ===================================================================== *)
(** ** Reading back the exported days *)
(* ===================================================================== *)

Lemma day_token_char (d : list N) : d ∈ KOREAN_DAYS → ∃ c, d = [c] ∧ day_char c.
Proof.
  unfold KOREAN_DAYS. intros Hd.
  repeat (apply elem_of_cons in Hd as [->|Hd]);
    [..|by apply elem_of_nil in Hd];
    eexists; (split; [reflexivity|]);
    (split; [reflexivity|]); (split; [discriminate|]);
    (split; [by repeat constructor|]); split; vm_compute; reflexivity.
Qed.

Lemma day_tokens_chars (days : list (list N)) :
  Forall (λ d, d ∈ KOREAN_DAYS) days →
  ∃ cs, days = (λ c, [c]) <$> cs ∧ Forall day_char cs.
Proof.
  induction 1 as [|d days Hd _ (cs & -> & Hcs)].
  - by exists [].
  - destruct (day_token_char d Hd) as (c & -> & Hc). exists (c :: cs).
    split; [done | by constructor].
Qed.

Lemma lstrip_id (s : list N) : Forall (λ c, isspace c = false) s → lstrip s = s.
Proof. destruct 1 as [|c s Hc _]; [done|]. cbn. by rewrite Hc. Qed.

Lemma strip_id (s : list N) : Forall (λ c, isspace c = false) s → strip s = s.
Proof.
  intros Hs. unfold strip, rstrip. rewrite (lstrip_id s Hs).
  rewrite lstrip_id by by apply Forall_reverse. apply reverse_involutive.
Qed.

Lemma replace_id (sep by_ : N) (s : list N) :
  Forall (λ c, c ≠ sep) s → replace sep by_ s = s.
Proof.
  unfold replace. induction 1 as [|c s Hc _ IH]; [done|].
  cbn. rewrite IH. by apply N.eqb_neq in Hc as ->.
Qed.

Lemma replace_all_id (seps : list N) (by_ : N) (s : list N) :
  Forall (λ c, Forall (λ sep, c ≠ sep) seps) s →
  foldl (λ s sep, replace sep by_ s) s seps = s.
Proof.
  induction seps as [|sep seps IH]; intros Hs; [done|].
  cbn [foldl]. rewrite replace_id.
  - apply IH. eapply Forall_impl; [exact Hs|]. by intros c [_ ?]%Forall_cons.
  - eapply Forall_impl; [exact Hs|]. by intros c [? _]%Forall_cons.
Qed.

(** Every character of the joined text is a weekday character or a
    comma. *)
Lemma join_chars (Q : N → Prop) (cs : list N) :
  Q COMMA → Forall Q cs → Forall Q (join [COMMA] ((λ c, [c]) <$> cs)).
Proof.
  intros HQ. induction 1 as [|c cs Hc Hcs IH]; [constructor|].
  destruct cs as [|c2 cs]; [by repeat constructor|].
  change (Forall Q (c :: COMMA :: join [COMMA] ((λ c, [c]) <$> (c2 :: cs)))).
  by repeat constructor.
Qed.

Lemma split_aux_join (cs : list N) :
  Forall (λ c, c ≠ COMMA) cs →
  ∀ c cur, c ≠ COMMA →
    split_aux COMMA (join [COMMA] ((λ c, [c]) <$> (c :: cs))) cur
    = (cur ++ [c]) :: ((λ c, [c]) <$> cs).
Proof.
  induction 1 as [|c2 cs Hc2 Hcs IH]; intros c cur Hc.
  - cbn. by apply N.eqb_neq in Hc as ->.
  - change (join [COMMA] ((λ c, [c]) <$> (c :: c2 :: cs)))
      with (c :: COMMA :: join [COMMA] ((λ c, [c]) <$> (c2 :: cs))).
    cbn [split_aux]. apply N.eqb_neq in Hc as ->. rewrite N.eqb_refl.
    by rewrite IH.
Qed.

Lemma strip_tokens (cs : list N) :
  Forall day_char cs →
  filter (λ p, p ≠ []) (strip <$> ((λ c, [c]) <$> cs)) = (λ c, [c]) <$> cs.
Proof.
  induction 1 as [|c cs (Hsp & _) _ IH]; [done|].
  cbn [fmap list_fmap]. rewrite strip_id by by repeat constructor.
  rewrite filter_cons_True by done. f_equal. exact IH.
Qed.

Lemma first_day_in_tokens (cs : list N) :
  Forall day_char cs → omap first_day_in ((λ c, [c]) <$> cs) = (λ c, [c]) <$> cs.
Proof.
  induction 1 as [|c cs (_ & _ & _ & Hfd & _) _ IH]; [done|].
  cbn [fmap list_fmap omap list_omap]. rewrite Hfd. f_equal. exact IH.
Qed.

Lemma dedup_days_NoDup (days : list (list N)) :
  ∀ seen out, NoDup days → (∀ d, d ∈ days → d ∉ seen) →
    dedup_days days seen out = out ++ days.
Proof.
  induction days as [|d days IH]; intros seen out Hnd Hseen.
  - by rewrite app_nil_r.
  - apply NoDup_cons in Hnd as [Hd Hnd]. cbn [dedup_days].
    rewrite bool_decide_eq_false_2 by (apply Hseen; left).
    rewrite IH, <- app_assoc; [done|done|].
    intros d' Hd'. rewrite elem_of_union, elem_of_singleton.
    intros [->|Hin]; [done|]. eapply Hseen; [|exact Hin]. by right.
Qed.

(** [normalize_days] reads the comma-joined distinct weekday tokens back as
    they were. *)
Lemma normalize_days_join (days : list (list N)) :
  NoDup days → Forall (λ d, d ∈ KOREAN_DAYS) days →
  normalize_days (CStr (join [COMMA] days)) = days.
Proof.
  intros Hnd Hdays.
  destruct (day_tokens_chars days Hdays) as (cs & -> & Hcs).
  destruct cs as [|c [|c2 cs]].
  - reflexivity.
  - apply Forall_cons in Hcs as [(_ & _ & _ & _ & Hone) _]. exact Hone.
  - set (toks := (λ c, [c]) <$> (c :: c2 :: cs)) in *.
    assert (Hsp : Forall (λ c, isspace c = false) (join [COMMA] toks)).
    { apply join_chars; [reflexivity|]. eapply Forall_impl; [exact Hcs|]. by intros ? (? & _). }
    assert (Hsep : Forall (λ c, Forall (λ sep, c ≠ sep) DAY_SEPARATORS) (join [COMMA] toks)).
    { apply join_chars; [by repeat constructor|].
      eapply Forall_impl; [exact Hcs|]. by intros ? (_ & _ & ? & _). }
    assert (Hne : Forall (λ c, c ≠ COMMA) (c :: c2 :: cs)).
    { eapply Forall_impl; [exact Hcs|]. by intros ? (_ & ? & _). }
    assert (Hhead : join [COMMA] toks
                    = c :: COMMA :: join [COMMA] ((λ c, [c]) <$> (c2 :: cs))) by reflexivity.
    unfold normalize_days. cbn [isna str_of_cell]. rewrite (strip_id _ Hsp).
    rewrite (replace_all_id _ _ _ Hsep).
    rewrite bool_decide_eq_true_2 by (rewrite Hhead; right; left).
    unfold split. apply Forall_cons in Hne as [Hc Hne'].
    unfold toks at 2. rewrite (split_aux_join _ Hne' c [] Hc). cbn [app].
    change ([c] :: ((λ c, [c]) <$> (c2 :: cs))) with toks.
    rewrite Hhead at 1. unfold toks at 1.
    rewrite (strip_tokens _ Hcs), (first_day_in_tokens _ Hcs).
    fold toks. rewrite dedup_days_NoDup; [done|done|].
    intros d _. apply not_elem_of_empty.
Qed.

(* ===================================================================== *)
(** ** Export followed by import *)
(* ===================================================================== *)

(** The five exported headers are found under their own names. *)
Lemma normalize_columns_export (emps : list Employee) :
  normalize_columns (employees_to_df emps) =
    ([ (COL_NAME, export_column 0 emps); (COL_PHONE, export_column 1 emps);
       (COL_ROLE, export_column 2 emps); (COL_EMPLOYMENT_TYPE, export_column 3 emps);
       (COL_AVAILABLE_DAYS, export_column 4 emps) ],
     length emps).
Proof.
  destruct emps as [|e emps]; [vm_compute; reflexivity|].
  transitivity
    ([ (COL_NAME, export_column 0 (e :: emps)); (COL_PHONE, export_column 1 (e :: emps));
       (COL_ROLE, export_column 2 (e :: emps));
       (COL_EMPLOYMENT_TYPE, export_column 3 (e :: emps));
       (COL_AVAILABLE_DAYS, export_column 4 (e :: emps)) ],
     length (export_column 0 (e :: emps))).
  - vm_compute. reflexivity.
  - unfold export_column. by rewrite !length_fmap.
Qed.

Lemma row_get_here (key : list N) (col : list cell) cols (n idx : nat) :
  row_get ((key, col) :: cols, n) idx key = default (CStr []) (col !! idx).
Proof. unfold row_get. cbn [fst list_find]. by rewrite decide_True. Qed.

Lemma row_get_next (key key' : list N) (col : list cell) cols (n idx : nat) :
  key' ≠ key →
  row_get ((key', col) :: cols, n) idx key = row_get (cols, n) idx key.
Proof.
  intros Hne. unfold row_get. cbn [fst list_find]. rewrite decide_False by done.
  by destruct (list_find _ cols) as [[i [k c]]|].
Qed.

Lemma export_column_lookup (j idx : nat) (emps : list Employee) (e : Employee) :
  emps !! idx = Some e →
  export_column j emps !! idx = Some (default CNaN (employee_row e !! j)).
Proof. intros He. unfold export_column. by rewrite !list_lookup_fmap, He. Qed.

Lemma strip_emp_type (t : list N) : t ∈ EMP_TYPES → strip t = t.
Proof.
  unfold EMP_TYPES. intros Ht.
  repeat (apply elem_of_cons in Ht as [->|Ht]); [..|by apply elem_of_nil in Ht];
    vm_compute; reflexivity.
Qed.

(** The turn of the import loop for the row exported from [e]. *)
Lemma import_row_export (emps added : list Employee) (idx : nat) (e : Employee) :
  emps !! idx = Some e → exportable e →
  import_row (normalize_columns (employees_to_df emps)) (added, []) idx
  = (added ++ [e], []).
Proof.
  intros He (Hne & Hname & Hphone & Hrole & Htype & Hnd & Hdays).
  rewrite normalize_columns_export. unfold import_row.
  rewrite row_get_here.
  rewrite (row_get_next COL_EMPLOYMENT_TYPE COL_NAME),
          (row_get_next COL_EMPLOYMENT_TYPE COL_PHONE),
          (row_get_next COL_EMPLOYMENT_TYPE COL_ROLE), row_get_here by done.
  rewrite (row_get_next COL_AVAILABLE_DAYS COL_NAME),
          (row_get_next COL_AVAILABLE_DAYS COL_PHONE),
          (row_get_next COL_AVAILABLE_DAYS COL_ROLE),
          (row_get_next COL_AVAILABLE_DAYS COL_EMPLOYMENT_TYPE), row_get_here by done.
  rewrite (row_get_next COL_PHONE COL_NAME), row_get_here by done.
  rewrite (row_get_next COL_ROLE COL_NAME), (row_get_next COL_ROLE COL_PHONE),
          row_get_here by done.
  rewrite !(export_column_lookup _ _ _ _ He). cbn [default employee_row lookup list_lookup].
  cbn [str_of_cell id]. rewrite Hname, Hphone, Hrole, (strip_emp_type _ Htype).
  rewrite bool_decide_eq_true_2 by done.
  rewrite (normalize_days_join _ Hnd Hdays).
  destruct e as [nm ph rl et days]. cbn in *.
  by destruct nm.
Qed.

Lemma import_rows_export (emps : list Employee) :
  Forall exportable emps →
  ∀ suf pre, emps = pre ++ suf →
    foldl (import_row (normalize_columns (employees_to_df emps))) (pre, [])
          (seq (length pre) (length suf))
    = (pre ++ suf, []).
Proof.
  intros Hall. induction suf as [|e suf IH]; intros pre Heq.
  - by rewrite app_nil_r.
  - cbn [length seq foldl].
    rewrite (import_row_export emps pre (length pre) e).
    + replace (S (length pre)) with (length (pre ++ [e])) by (rewrite length_app; cbn; lia).
      rewrite IH by (by rewrite <- app_assoc). by rewrite <- app_assoc.
    + rewrite Heq. by apply list_lookup_middle.
    + rewrite Forall_forall in Hall. apply Hall. rewrite Heq.
      apply elem_of_app. right. left.
Qed.

(** C10: importing the table exported from a directory of records with a
    non-empty name, name, phone and role free of surrounding whitespace, one
    of the four employment types and distinct weekday tokens gives back
    these records in order, and skips no row. *)
Theorem export_import_roundtrip (emps : list Employee) :
  Forall exportable emps →
  df_to_employees (employees_to_df emps) = (emps, []).
Proof.
  intros Hall. unfold df_to_employees.
  replace (normalize_columns (employees_to_df emps)).2 with (length emps)
    by (by rewrite normalize_columns_export).
  exact (import_rows_export emps Hall emps [] eq_refl).
Qed.

Lemma export_import_roundtrip_witness :
  df_to_employees (employees_to_df sample_employees) = (sample_employees, []).
Proof.
  apply (export_import_roundtrip sample_employees).
  by_evaluation.
Defined.

(* ===================================================================== *)
(** * Further properties *)
(* ===================================================================== *)

(* ===================================================================== *)
(** ** Date keys *)
(* ===================================================================== *)

Lemma split_aux_no_sep (sep : N) (s : list N) :
  Forall (λ c, c ≠ sep) s → ∀ cur, split_aux sep s cur = [cur ++ s].
Proof.
  induction 1 as [|c s Hc _ IH]; intros cur; cbn.
  - by rewrite app_nil_r.
  - apply N.eqb_neq in Hc as ->. rewrite IH. by rewrite <- app_assoc.
Qed.

Lemma split_aux_sep (sep : N) (s1 s2 : list N) :
  Forall (λ c, c ≠ sep) s1 →
  ∀ cur, split_aux sep (s1 ++ sep :: s2) cur = (cur ++ s1) :: split_aux sep s2 [].
Proof.
  induction 1 as [|c s Hc _ IH]; intros cur; cbn.
  - by rewrite N.eqb_refl, app_nil_r.
  - apply N.eqb_neq in Hc as ->. rewrite IH. by rewrite <- app_assoc.
Qed.

(** The number of pieces of a split is one more than the number of
    separators. *)
Lemma split_aux_length (sep : N) (s : list N) :
  ∀ cur, length (split_aux sep s cur) = S (length (filter (λ c, c = sep) s)).
Proof.
  induction s as [|c s IH]; intros cur; [done|]. cbn [split_aux].
  destruct (N.eqb_spec c sep) as [->|Hne].
  - rewrite filter_cons_True by done. cbn. by rewrite IH.
  - rewrite filter_cons_False by done. apply IH.
Qed.

(** A number of at most [W] digits, zero-padded to width [W], has no dash
    and reads back as itself. *)
Lemma fmt_0d_4_reads_back (y : Z) :
  0 ≤ y ≤ 9999 →
  Forall (λ c, c ≠ DASH) (fmt_0d 4 y) ∧ parse_int (fmt_0d 4 y) = Some y.
Proof.
  intros Hy.
  assert (Hall : forallb (λ y, bool_decide
            (Forall (λ c, c ≠ DASH) (fmt_0d 4 y) ∧ parse_int (fmt_0d 4 y) = Some y))
            (seqZ 0 10000) = true) by (vm_compute; reflexivity).
  pose proof (forallb_seqZ _ _ _ Hall y ltac:(lia)) as Hcell.
  by apply bool_decide_eq_true in Hcell.
Qed.

Lemma fmt_0d_2_reads_back (m : Z) :
  0 ≤ m ≤ 99 →
  Forall (λ c, c ≠ DASH) (fmt_0d 2 m) ∧ parse_int (fmt_0d 2 m) = Some m.
Proof.
  intros Hm.
  assert (Hall : forallb (λ m, bool_decide
            (Forall (λ c, c ≠ DASH) (fmt_0d 2 m) ∧ parse_int (fmt_0d 2 m) = Some m))
            (seqZ 0 100) = true) by (vm_compute; reflexivity).
  pose proof (forallb_seqZ _ _ _ Hall m ltac:(lia)) as Hcell.
  by apply bool_decide_eq_true in Hcell.
Qed.

Lemma parse_day_key_ymd (y m d : Z) :
  0 ≤ y ≤ 9999 → 0 ≤ m ≤ 99 → 0 ≤ d ≤ 99 →
  parse_day_key (ymd y m d) = Some (y, m, d).
Proof.
  intros Hy Hm Hd.
  destruct (fmt_0d_4_reads_back y Hy) as [Hy1 Hy2].
  destruct (fmt_0d_2_reads_back m Hm) as [Hm1 Hm2].
  destruct (fmt_0d_2_reads_back d Hd) as [Hd1 Hd2].
  unfold parse_day_key, ymd, split. cbn [app].
  rewrite (split_aux_sep DASH _ _ Hy1), (split_aux_sep DASH _ _ Hm1),
          (split_aux_no_sep DASH _ Hd1). cbn [app].
  rewrite Hy2, Hm2, Hd2. reflexivity.
Qed.

(** X1: the key [ymd y m d] of a date with a year of at most four digits
    and month and day of at most two is read back by the form handler
    ([map(int, day_key.split("-"))]) as the same year, month and day. *)
Theorem day_key_round_trip (y m d : Z) :
  0 ≤ y ≤ 9999 → 0 ≤ m ≤ 99 → 0 ≤ d ≤ 99 →
  parse_day_key (ymd y m d) = Some (y, m, d).
Proof. apply parse_day_key_ymd. Qed.

Lemma day_key_round_trip_witness : parse_day_key (ymd 2026 1 5) = Some (2026, 1, 5).
Proof. apply (day_key_round_trip 2026 1 5); lia. Defined.

Lemma ymd_inj (y m d y' m' d' : Z) :
  0 ≤ y ≤ 9999 → 0 ≤ m ≤ 99 → 0 ≤ d ≤ 99 →
  0 ≤ y' ≤ 9999 → 0 ≤ m' ≤ 99 → 0 ≤ d' ≤ 99 →
  ymd y m d = ymd y' m' d' → y = y' ∧ m = m' ∧ d = d'.
Proof.
  intros Hy Hm Hd Hy' Hm' Hd' Heq.
  pose proof (parse_day_key_ymd y m d Hy Hm Hd) as H1.
  pose proof (parse_day_key_ymd y' m' d' Hy' Hm' Hd') as H2.
  rewrite Heq, H2 in H1. by injection H1 as -> -> ->.
Qed.

(** X2: two dates (years up to 9999) have the same roster key only if they
    are the same date, and every such key is ten characters long. *)
Theorem day_key_injective (y m d y' m' d' : Z) :
  0 ≤ y ≤ 9999 → 0 ≤ m ≤ 99 → 0 ≤ d ≤ 99 →
  0 ≤ y' ≤ 9999 → 0 ≤ m' ≤ 99 → 0 ≤ d' ≤ 99 →
  length (ymd y m d) = 10%nat ∧
  (ymd y m d = ymd y' m' d' ↔ y = y' ∧ m = m' ∧ d = d').
Proof.
  intros Hy Hm Hd Hy' Hm' Hd'. split.
  - assert (H4 : forallb (λ y, bool_decide (length (fmt_0d 4 y) = 4%nat)) (seqZ 0 10000) = true)
      by (vm_compute; reflexivity).
    assert (H2 : forallb (λ m, bool_decide (length (fmt_0d 2 m) = 2%nat)) (seqZ 0 100) = true)
      by (vm_compute; reflexivity).
    pose proof (forallb_seqZ _ _ _ H4 y ltac:(lia)) as Ly%bool_decide_eq_true.
    pose proof (forallb_seqZ _ _ _ H2 m ltac:(lia)) as Lm%bool_decide_eq_true.
    pose proof (forallb_seqZ _ _ _ H2 d ltac:(lia)) as Ld%bool_decide_eq_true.
    unfold ymd. rewrite !length_app, Ly, Lm, Ld. reflexivity.
  - split; [by apply ymd_inj | by intros (-> & -> & ->)].
Qed.

Lemma day_key_injective_witness :
  length (ymd 2026 1 5) = 10%nat ∧
  (ymd 2026 1 5 = ymd 2026 1 12 ↔ 2026 = 2026 ∧ 1 = 1 ∧ 5 = 12).
Proof. apply (day_key_injective 2026 1 5 2026 1 12); lia. Defined.

(* ===================================================================== *)
(** ** Clock strings *)
(* ===================================================================== *)

(** X3: [to_min] accepts only strings with exactly one colon. *)
Theorem to_min_one_colon (s : list N) :
  is_Some (to_min s) → length (filter (λ c, c = COLON) s) = 1%nat.
Proof.
  unfold to_min, split. intros [v Hv].
  pose proof (split_aux_length COLON s []) as Hlen.
  destruct (split_aux COLON s []) as [|hh [|mm [|x rest]]]; try discriminate Hv.
  cbn in Hlen. lia.
Qed.

Lemma to_min_one_colon_witness : length (filter (λ c, c = COLON) (u "09:30")) = 1%nat.
Proof. apply (to_min_one_colon (u "09:30")). vm_compute. by eexists. Defined.

(** X4: for a shift saved by the form with wall-clock times [h1:m1] and
    [h2:m2], [minutes_between] on the stored strings and break is
    [max(0, (h2*60+m2) - (h1*60+m1) - max(0, break))], a number between 0 and
    1439. *)
Theorem stored_shift_minutes (nm et : list N) (h1 m1 h2 m2 brk wage : Z) :
  0 ≤ h1 < 24 → 0 ≤ m1 < 60 → 0 ≤ h2 < 24 → 0 ≤ m2 < 60 →
  let item := shift_item nm et (h1, m1) (h2, m2) brk wage in
  ∃ mins,
    minutes_between (sh_clock_in item) (sh_clock_out item) (Some (sh_break item)) = Some mins ∧
    mins = Z.max 0 ((h2 * 60 + m2) - (h1 * 60 + m1) - Z.max 0 brk) ∧
    0 ≤ mins ≤ 1439.
Proof.
  intros Hh1 Hm1 Hh2 Hm2 item. eexists. split; [|split; [reflexivity|lia]].
  unfold minutes_between. cbn [item shift_item sh_clock_in sh_clock_out sh_break].
  rewrite !to_min_hhmm by done. reflexivity.
Qed.

Lemma stored_shift_minutes_witness :
  ∃ mins,
    minutes_between (hhmm (9, 0)) (hhmm (18, 30)) (Some 45) = Some mins ∧
    mins = Z.max 0 ((18 * 60 + 30) - (9 * 60 + 0) - Z.max 0 45) ∧
    0 ≤ mins ≤ 1439.
Proof. apply (stored_shift_minutes [] [] 9 0 18 30 45 0); lia. Defined.

(* ===================================================================== *)
(** ** Trimming *)
(* ===================================================================== *)

Lemma lstrip_parts (s : list N) :
  ∃ ws, s = ws ++ lstrip s ∧ Forall (λ c, isspace c = true) ws.
Proof.
  induction s as [|c s (ws & Hs & Hws)]; [by exists []|].
  cbn. destruct (isspace c) eqn:Hc.
  - exists (c :: ws). split; [by rewrite Hs at 1 | by constructor].
  - by exists [].
Qed.

Lemma lstrip_head (s : list N) (c : N) (r : list N) :
  lstrip s = c :: r → isspace c = false.
Proof.
  induction s as [|c0 s IH]; [done|]. cbn.
  destruct (isspace c0) eqn:Hc; [done|]. by intros [= <- _].
Qed.

Lemma lstrip_idem (s : list N) : lstrip (lstrip s) = lstrip s.
Proof.
  destruct (lstrip s) as [|c r] eqn:E; [done|].
  cbn. by rewrite (lstrip_head _ _ _ E).
Qed.

Lemma rstrip_parts (s : list N) :
  ∃ ws, s = rstrip s ++ ws ∧ Forall (λ c, isspace c = true) ws.
Proof.
  destruct (lstrip_parts (reverse s)) as (ws & Hs & Hws).
  exists (reverse ws). split; [|by apply Forall_reverse].
  unfold rstrip. rewrite <- reverse_app, <- Hs. by rewrite reverse_involutive.
Qed.

Lemma rstrip_idem (s : list N) : rstrip (rstrip s) = rstrip s.
Proof. unfold rstrip. by rewrite reverse_involutive, lstrip_idem. Qed.

Lemma rstrip_keeps_head (c : N) (r : list N) :
  isspace c = false → ∃ r', rstrip (c :: r) = c :: r'.
Proof.
  intros Hc. destruct (rstrip_parts (c :: r)) as (ws & Hs & Hws).
  destruct (rstrip (c :: r)) as [|c' r'].
  - cbn in Hs. subst ws. apply Forall_cons in Hws as [Hsp _]. congruence.
  - injection Hs as -> _. by exists r'.
Qed.

(** [s.strip().strip() == s.strip()] *)
Lemma strip_idem (s : list N) : strip (strip s) = strip s.
Proof.
  unfold strip. destruct (lstrip s) as [|c r] eqn:E; [done|].
  destruct (rstrip_keeps_head c r (lstrip_head _ _ _ E)) as (r' & Hr).
  rewrite Hr. cbn [lstrip]. rewrite (lstrip_head _ _ _ E), <- Hr. apply rstrip_idem.
Qed.

(* ===================================================================== *)
(** ** What [normalize_days] returns *)
(* ===================================================================== *)

Lemma dedup_days_spec (days : list (list N)) :
  ∀ seen out, (∀ d, d ∈ seen ↔ d ∈ out) → NoDup out →
    NoDup (dedup_days days seen out) ∧
    ∀ d, d ∈ dedup_days days seen out ↔ d ∈ out ∨ d ∈ days.
Proof.
  induction days as [|d0 days IH]; intros seen out Hseen Hnd.
  - split; [done|]. intros d. rewrite elem_of_nil. tauto.
  - cbn [dedup_days]. case_bool_decide as Hin.
    + destruct (IH seen out Hseen Hnd) as [Hnd' Hmem]. split; [done|].
      intros d. rewrite Hmem, elem_of_cons. apply Hseen in Hin.
      split; [tauto|]. intros [?|[->|?]]; tauto.
    + destruct (IH ({[d0]} ∪ seen) (out ++ [d0])) as [Hnd' Hmem].
      * intros d. rewrite elem_of_union, elem_of_singleton, elem_of_app,
          list_elem_of_singleton, Hseen. tauto.
      * apply NoDup_app. split; [done|]. split; [|apply NoDup_singleton].
        intros d Hd ->%list_elem_of_singleton. apply Hin. by apply Hseen.
      * split; [done|]. intros d.
        rewrite Hmem, elem_of_app, list_elem_of_singleton, elem_of_cons. tauto.
Qed.

Lemma first_day_in_token (p d : list N) : first_day_in p = Some d → d ∈ KOREAN_DAYS.
Proof.
  unfold first_day_in. destruct (list_find _ KOREAN_DAYS) as [[i d']|] eqn:E; [|done].
  intros [= <-]. apply list_find_Some in E as (Hi & _). by eapply list_elem_of_lookup_2.
Qed.

Lemma normalize_days_wf (raw : cell) :
  NoDup (normalize_days raw) ∧ Forall (λ d, d ∈ KOREAN_DAYS) (normalize_days raw).
Proof.
  unfold normalize_days. destruct (isna raw); [split; constructor|].
  destruct (strip (str_of_cell raw)) as [|c s]; [split; constructor|].
  match goal with |- context [dedup_days ?days ∅ []] =>
    destruct (dedup_days_spec days ∅ []) as [Hnd Hmem];
      [intros d; rewrite elem_of_nil; set_solver | constructor |];
    assert (Hdays : ∀ d, d ∈ days → d ∈ KOREAN_DAYS)
  end.
  { intros d (p & _ & Hp)%list_elem_of_omap. by eapply first_day_in_token. }
  split; [done|]. apply Forall_forall. intros d Hd%Hmem.
  destruct Hd as [[]%elem_of_nil|Hd]. by apply Hdays.
Qed.

(** X5: whatever the cell, [normalize_days] returns weekday tokens of
    [KOREAN_DAYS] without repetition, so at most seven of them. *)
Theorem normalize_days_canonical (raw : cell) :
  NoDup (normalize_days raw) ∧
  Forall (λ d, d ∈ KOREAN_DAYS) (normalize_days raw) ∧
  (length (normalize_days raw) ≤ 7)%nat.
Proof.
  destruct (normalize_days_wf raw) as [Hnd Hall]. split; [done|]. split; [done|].
  change 7%nat with (length KOREAN_DAYS). apply submseteq_length.
  apply NoDup_submseteq; [done|]. by apply Forall_forall.
Qed.

(** X6: writing the parsed days out as the export does, joined by commas,
    and parsing them again gives the same days. *)
Theorem normalize_days_stable (raw : cell) :
  normalize_days (CStr (join [COMMA] (normalize_days raw))) = normalize_days raw.
Proof. destruct (normalize_days_wf raw) as [Hnd Hall]. by apply normalize_days_join. Qed.

(* ===================================================================== *)
(** ** Cleaned headers *)
(* ===================================================================== *)

Lemma lower_lookup_Some (table : list (N * N * N * N)) (c o : N) :
  Forall (λ e, e.1.2 ≠ 0%N) table →
  lower_lookup table c = Some o → ∃ e, e ∈ table ∧ o ∈ entry_images e.
Proof.
  induction 1 as [|[[[first last] step] image] table Hstep _ IH]; [done|].
  cbn [lower_lookup]. cbn in Hstep.
  destruct ((first <=? c) && (c <=? last) && ((c - first) mod step =? 0))%N eqn:E.
  - intros [= <-]. exists (first, last, step, image). split; [left|].
    apply andb_prop in E as [[H1%N.leb_le H2%N.leb_le]%andb_prop H3%N.eqb_eq].
    pose proof (N.div_mod (c - first) step Hstep) as Hdiv. rewrite H3 in Hdiv.
    assert (Hle : ((c - first) / step ≤ (last - first) / step)%N)
      by (apply N.Div0.div_le_mono; lia).
    unfold entry_images. apply list_elem_of_fmap.
    exists (N.to_nat ((c - first) / step)). split; [lia|].
    apply elem_of_seq. lia.
  - intros Hrest. destruct (IH Hrest) as (e & He & Ho). exists e. split; [by right|done].
Qed.

Lemma lower_single (c : N) :
  lower [c] = [c] ↔ c ≠ CAPITAL_SIGMA ∧ to_lower_full c = [c].
Proof.
  unfold lower. cbn [lower_from]. rewrite app_nil_r. unfold lower_at.
  destruct (c =? CAPITAL_SIGMA)%N eqn:E.
  - apply N.eqb_eq in E. subst c. split; [|by intros [[] _]].
    by vm_compute.
  - apply N.eqb_neq in E. tauto.
Qed.

(** No character of a lower-case mapping has a lower-case mapping itself. *)
Lemma to_lower_full_fixed (c : N) : Forall (λ o, lower [o] = [o]) (to_lower_full c).
Proof.
  unfold to_lower_full. destruct (c =? CAPITAL_I_DOT)%N eqn:Edot.
  { by repeat constructor. }
  constructor; [|constructor].
  destruct (lower_lookup LOWERCASE c) as [o|] eqn:E; cbn [default from_option id].
  - assert (Hstep : Forall (λ e, e.1.2 ≠ 0%N) LOWERCASE) by by_evaluation.
    assert (Hall : Forall (λ e, Forall (λ o, lower [o] = [o]) (entry_images e)) LOWERCASE)
      by by_evaluation.
    destruct (lower_lookup_Some _ _ _ Hstep E) as (e & He & Ho).
    rewrite Forall_forall in Hall. specialize (Hall e He).
    rewrite Forall_forall in Hall. by apply Hall.
  - apply lower_single. split.
    + intros ->. by vm_compute in E.
    + unfold to_lower_full. by rewrite Edot, E.
Qed.

Lemma lower_at_fixed (before_rev : list N) (c : N) (after : list N) :
  Forall (λ o, lower [o] = [o]) (lower_at before_rev c after).
Proof.
  unfold lower_at. destruct (c =? CAPITAL_SIGMA)%N; [|apply to_lower_full_fixed].
  constructor; [|constructor]. by destruct (final_sigma _ _); vm_compute.
Qed.

Lemma lower_from_fixed (before_rev s : list N) :
  Forall (λ o, lower [o] = [o]) (lower_from before_rev s).
Proof.
  revert before_rev. induction s as [|c r IH]; intros before_rev; [constructor|].
  cbn [lower_from]. apply Forall_app. split; [apply lower_at_fixed|apply IH].
Qed.

(** Text made of such characters is its own lower-case form. *)
Lemma lower_from_id (before_rev s : list N) :
  Forall (λ o, lower [o] = [o]) s → lower_from before_rev s = s.
Proof.
  intros Hall. revert before_rev.
  induction Hall as [|c r Hc _ IH]; intros before_rev; [done|].
  cbn [lower_from]. rewrite IH.
  apply lower_single in Hc as [Hsigma Hfull].
  unfold lower_at. apply N.eqb_neq in Hsigma. by rewrite Hsigma, Hfull.
Qed.

Lemma clean_colname_chars (s : list N) : Forall clean_char (_clean_colname s).
Proof.
  unfold _clean_colname. apply Forall_forall. intros c Hc.
  apply list_elem_of_filter in Hc as [[Hsp Hnoise] Hc].
  split; [done|]. split; [done|].
  pose proof (lower_from_fixed [] (strip s)) as Hall.
  rewrite Forall_forall in Hall. by apply Hall.
Qed.

(** X7: a cleaned header holds no whitespace, none of the removed
    punctuation and no character that [str.lower] changes, whatever the
    script of the header, and cleaning it again changes nothing. *)
Theorem clean_colname_idempotent (s : list N) :
  Forall clean_char (_clean_colname s) ∧
  _clean_colname (_clean_colname s) = _clean_colname s.
Proof.
  pose proof (clean_colname_chars s) as Hall. split; [done|].
  generalize dependent (_clean_colname s). intros r Hall.
  unfold _clean_colname. rewrite strip_id.
  - assert (Hlow : lower r = r).
    { apply lower_from_id. eapply Forall_impl; [exact Hall|]. by intros c (_ & _ & ?). }
    rewrite Hlow. apply filter_all. intros c Hc.
    rewrite Forall_forall in Hall. by destruct (Hall c Hc) as (? & ? & _).
  - eapply Forall_impl; [exact Hall|]. by intros c (? & _).
Qed.

(* ===================================================================== *)
(** ** What the import returns *)
(* ===================================================================== *)

Lemma import_row_exportable out acc idx :
  Forall exportable acc.1 → Forall exportable (import_row out acc idx).1.
Proof.
  destruct acc as [added skipped]. cbn [fst]. intros Hall. unfold import_row.
  destruct (strip (str_of_cell (row_get out idx COL_NAME))) as [|c nm] eqn:E; [done|].
  cbn [fst]. apply Forall_app. split; [done|]. constructor; [|constructor].
  destruct (normalize_days_wf (row_get out idx COL_AVAILABLE_DAYS)) as [Hnd Hdays].
  unfold exportable. cbn [name phone role employment_type available_days].
  split; [done|]. split; [rewrite <- E; apply strip_idem|].
  split; [apply strip_idem|]. split; [apply strip_idem|].
  split; [|done]. case_bool_decide; [done|]. cbn. left.
Qed.

Lemma df_to_employees_exportable (df : DataFrame) :
  Forall exportable (df_to_employees df).1.
Proof.
  unfold df_to_employees.
  generalize (seq 0 (normalize_columns df).2).
  assert (Hinit : Forall exportable (([], []) : list Employee * list (Z * list N)).1)
    by constructor.
  revert Hinit. generalize (([], []) : list Employee * list (Z * list N)).
  intros acc Hacc idxs. revert acc Hacc.
  induction idxs as [|idx idxs IH]; intros acc Hacc; [done|].
  cbn [foldl]. apply IH. by apply import_row_exportable.
Qed.

(** Where a record of the import comes from: row [idx] of the normalised
    frame [out]. *)
Lemma import_rows_origin out (n : nat) (idxs : list nat) :
  let from_row (e : Employee) :=
    ∃ idx, (idx < n)%nat ∧
      let text col := strip (str_of_cell (row_get out idx col)) in
      name e = text COL_NAME ∧ phone e = text COL_PHONE ∧ role e = text COL_ROLE ∧
      employment_type e =
        (if bool_decide (text COL_EMPLOYMENT_TYPE ∈ EMP_TYPES)
         then text COL_EMPLOYMENT_TYPE else u "4대보험") ∧
      available_days e = normalize_days (row_get out idx COL_AVAILABLE_DAYS) in
  ∀ acc,
    (∀ idx, idx ∈ idxs → (idx < n)%nat) →
    Forall from_row acc.1 → Forall from_row (foldl (import_row out) acc idxs).1.
Proof.
  intros from_row. induction idxs as [|idx idxs IH]; intros acc Hidx Hacc; [done|].
  cbn [foldl]. apply IH; [intros i Hi; apply Hidx; by right|].
  destruct acc as [added skipped]. cbn [fst] in Hacc. unfold import_row.
  destruct (strip (str_of_cell (row_get out idx COL_NAME))) as [|c nm] eqn:E; [done|].
  cbn [fst]. apply Forall_app. split; [done|]. constructor; [|constructor].
  exists idx. split; [apply Hidx; left|].
  cbn [name phone role employment_type available_days]. by rewrite E.
Qed.

(** X8: every record the import returns is made from one row of the
    normalised sheet: name, phone and role are the row's cells as text,
    trimmed; the employment type is the trimmed cell when that is one of the
    four types and "4대보험", the first of them, when the cell holds anything
    else; the available days are the parsed cell.  So the record has a
    non-empty name, trimmed texts, one of the four employment types and
    distinct weekday tokens as available days. *)
Theorem imported_records_exportable (df : DataFrame) :
  Forall (λ e,
            exportable e ∧
            ∃ idx, (idx < (normalize_columns df).2)%nat ∧
              let text col := strip (str_of_cell (row_get (normalize_columns df) idx col)) in
              name e = text COL_NAME ∧ phone e = text COL_PHONE ∧ role e = text COL_ROLE ∧
              employment_type e =
                (if bool_decide (text COL_EMPLOYMENT_TYPE ∈ EMP_TYPES)
                 then text COL_EMPLOYMENT_TYPE else u "4대보험") ∧
              available_days e
              = normalize_days (row_get (normalize_columns df) idx COL_AVAILABLE_DAYS))
         (df_to_employees df).1.
Proof.
  apply Forall_and. split; [apply df_to_employees_exportable|].
  unfold df_to_employees.
  apply (import_rows_origin (normalize_columns df) (normalize_columns df).2).
  - intros idx Hidx%elem_of_seq. lia.
  - constructor.
Qed.

(** X9: exporting the records an import returned and importing that table
    gives the same records again and skips no row. *)
Theorem import_export_import (df : DataFrame) :
  df_to_employees (employees_to_df (df_to_employees df).1)
  = ((df_to_employees df).1, []).
Proof.
  pose proof (df_to_employees_exportable df) as Hall.
  generalize dependent (df_to_employees df).1. intros emps Hall.
  unfold df_to_employees.
  replace (normalize_columns (employees_to_df emps)).2 with (length emps)
    by (by rewrite normalize_columns_export).
  exact (import_rows_export emps Hall emps [] eq_refl).
Qed.

(** The rows counted by the import loop. *)
Lemma import_rows_account out (n : nat) (idxs : list nat) :
  ∀ acc,
    (∀ idx, idx ∈ idxs → (idx < n)%nat) →
    Forall (λ sk : Z * list N, sk.2 = REASON_NO_NAME ∧ 2 ≤ sk.1 < 2 + Z.of_nat n) acc.2 →
    let r := foldl (import_row out) acc idxs in
    (length r.1 + length r.2 = length acc.1 + length acc.2 + length idxs)%nat ∧
    Forall (λ sk : Z * list N, sk.2 = REASON_NO_NAME ∧ 2 ≤ sk.1 < 2 + Z.of_nat n) r.2.
Proof.
  induction idxs as [|idx idxs IH]; intros acc Hidx Hacc.
  - cbn. split; [lia | done].
  - cbn [foldl]. destruct (IH (import_row out acc idx)) as [Hlen Hsk].
    + intros i Hi. apply Hidx. by right.
    + destruct acc as [added skipped]. unfold import_row.
      destruct (strip _); cbn [snd]; [|done].
      apply Forall_app. split; [done|]. constructor; [|constructor]. cbn.
      split; [done|]. specialize (Hidx idx ltac:(left)). lia.
    + split; [|done]. cbn zeta in Hlen. rewrite Hlen.
      destruct acc as [added skipped]. unfold import_row.
      destruct (strip _); cbn [fst snd length]; rewrite ?length_app; cbn; lia.
Qed.

Lemma norm_of_lookup (columns : list (list N)) :
  ∀ (norm0 : gmap (list N) (list N)) k c,
    foldl (λ norm c, <[_clean_colname c := c]> norm) norm0 columns !! k = Some c →
    norm0 !! k = Some c ∨ (c ∈ columns ∧ _clean_colname c = k).
Proof.
  induction columns as [|c0 columns IH]; intros norm0 k c Hk; [by left|].
  cbn [foldl] in Hk. apply IH in Hk as [Hk|[Hin Hc]].
  - destruct (decide (_clean_colname c0 = k)) as [<-|Hne].
    + rewrite lookup_insert_eq in Hk. injection Hk as ->. right. split; [left | done].
    + rewrite lookup_insert_ne in Hk by done. by left.
  - right. split; [by right | done].
Qed.

Lemma norm_of_is_Some (columns : list (list N)) :
  ∀ (norm0 : gmap (list N) (list N)) k,
    is_Some (norm0 !! k) ∨ (∃ c, c ∈ columns ∧ _clean_colname c = k) →
    is_Some (foldl (λ norm c, <[_clean_colname c := c]> norm) norm0 columns !! k).
Proof.
  induction columns as [|c0 columns IH]; intros norm0 k Hk.
  - destruct Hk as [Hk|(c & Hc & _)]; [exact Hk | by apply elem_of_nil in Hc].
  - cbn [foldl]. apply IH.
    destruct Hk as [Hk|(c & [->|Hin]%elem_of_cons & Hc)].
    + left. destruct (decide (_clean_colname c0 = k)) as [<-|Hne].
      * rewrite lookup_insert_eq. by eexists.
      * by rewrite lookup_insert_ne.
    + left. rewrite <- Hc, lookup_insert_eq. by eexists.
    + right. by exists c.
Qed.

(** The alias search finds a column exactly when some label cleans to a
    cleaned alias, and what it finds is a label of the sheet. *)
Lemma hit_col_spec (columns : list (list N)) (aliases : list (list N)) :
  (is_Some (hit_col (norm_of columns) aliases) ↔
   Exists (λ a, ∃ c, c ∈ columns ∧ _clean_colname c = _clean_colname a) aliases) ∧
  (∀ c, hit_col (norm_of columns) aliases = Some c → c ∈ columns).
Proof.
  unfold hit_col.
  destruct (list_find _ aliases) as [[i a]|] eqn:E.
  - apply list_find_Some in E as (Hi & Ha & _). split.
    + split; [|by intros _].
      intros _. apply Exists_exists. exists a. split; [by eapply list_elem_of_lookup_2|].
      destruct Ha as [c Hc]. apply norm_of_lookup in Hc as [Hc|[Hin Hc]]; [done|].
      by exists c.
    + intros c Hc. by apply norm_of_lookup in Hc as [Hc|[Hin _]].
  - split; [|done]. split; [by intros [? ?]|].
    intros (a & Ha & c & Hc & Hclean)%Exists_exists.
    apply list_find_None in E. rewrite Forall_forall in E. exfalso. apply (E a Ha).
    apply norm_of_is_Some. right. by exists c.
Qed.

Lemma df_column_length (df : DataFrame) (c : list N) :
  c ∈ df_columns df → length (df_column df c) = length (df_rows df).
Proof.
  intros Hc. unfold df_column.
  destruct (list_find_elem_of (λ c', c' = c) (df_columns df) c Hc eq_refl) as [[i c'] ->].
  by rewrite length_fmap.
Qed.

(** The length of the index of the normalised frame: that of the sheet once
    a header has been found. *)
Lemma normalize_columns_fold (df : DataFrame) (hm : list (list N * list (list N))) :
  ∀ out : OutFrame,
    (out.2 = 0%nat ∨ out.2 = length (df_rows df)) →
    let out' :=
      foldl (λ out '(target_key, aliases),
               match hit_col (norm_of (df_columns df)) aliases with
               | Some c => set_series target_key (df_column df c) out
               | None => set_scalar target_key (CStr []) out
               end) out hm in
    (out'.2 = 0%nat ∨ out'.2 = length (df_rows df)) ∧
    (out.2 = length (df_rows df) → out'.2 = length (df_rows df)) ∧
    (Exists (λ ta, is_Some (hit_col (norm_of (df_columns df)) ta.2)) hm →
     out'.2 = length (df_rows df)) ∧
    (Forall (λ ta, hit_col (norm_of (df_columns df)) ta.2 = None) hm → out'.2 = out.2).
Proof.
  induction hm as [|[target aliases] hm IH]; intros out Hout.
  - cbn. split; [done|]. split; [done|]. split; [by intros ?%Exists_nil | done].
  - cbn [foldl].
    destruct (hit_col_spec (df_columns df) aliases) as [_ Hin].
    destruct (hit_col (norm_of (df_columns df)) aliases) as [c|] eqn:Hhit.
    + pose proof (df_column_length df c (Hin c eq_refl)) as Hlen.
      assert (Hn : (set_series target (df_column df c) out).2 = length (df_rows df)).
      { destruct out as [cols n]. unfold set_series. cbn [snd] in *.
        case_bool_decide as Hd; cbn [snd]; [done|].
        destruct Hout as [-> | ->]; [|done].
        destruct (df_column df c) eqn:Ecol; [by rewrite <- Hlen | ].
        exfalso. apply Hd. by split. }
      destruct (IH (set_series target (df_column df c) out) (or_intror Hn))
        as (H1 & H2 & H3 & H4).
      split; [done|]. split; [intros _; by apply H2|].
      split; [intros _; by apply H2|].
      intros [Hnone _]%Forall_cons. cbn in Hnone. congruence.
    + assert (Hn : (set_scalar target (CStr []) out).2 = out.2) by by destruct out.
      destruct (IH (set_scalar target (CStr []) out)) as (H1 & H2 & H3 & H4);
        [by rewrite Hn|].
      split; [done|]. split; [intros Hfull; apply H2; by rewrite Hn|].
      split.
      * intros [[? Hs]|Hex]%Exists_cons; [cbn in Hs; congruence | by apply H3].
      * intros [_ Hall]%Forall_cons. by rewrite H4, Hn.
Qed.

Lemma recognised_hit (df : DataFrame) :
  recognised df ↔
  Exists (λ ta : list N * list (list N),
            is_Some (hit_col (norm_of (df_columns df)) ta.2)) HEADER_MAP.
Proof.
  unfold recognised. rewrite !Exists_exists. split.
  - intros (c & Hc & (ta & Hta & (a & Ha & Hclean)%Exists_exists)%Exists_exists).
    exists ta. split; [done|]. apply hit_col_spec. apply Exists_exists.
    exists a. split; [done|]. by exists c.
  - intros (ta & Hta & (a & Ha & c & Hc & Hclean)%hit_col_spec%Exists_exists).
    exists c. split; [done|]. apply Exists_exists. exists ta. split; [done|].
    apply Exists_exists. by exists a.
Qed.

(** The skipped rows, in the order of the sheet. *)
Lemma import_rows_skipped out (idxs : list nat) :
  ∀ acc,
    (foldl (import_row out) acc idxs).2
    = acc.2 ++ ((λ idx, (Z.of_nat idx + 2, REASON_NO_NAME)) <$>
                filter (λ idx, strip (str_of_cell (row_get out idx COL_NAME)) = []) idxs).
Proof.
  induction idxs as [|idx idxs IH]; intros acc.
  - cbn. by rewrite app_nil_r.
  - cbn [foldl]. rewrite IH. destruct acc as [added skipped]. unfold import_row.
    rewrite filter_cons.
    destruct (strip (str_of_cell (row_get out idx COL_NAME))) as [|c nm] eqn:E.
    + rewrite decide_True by done. cbn [snd fmap list_fmap]. by rewrite <- app_assoc.
    + rewrite decide_False by done. done.
Qed.

(** X10: when some header of the sheet is known, every row of the sheet is
    either added or skipped: the two lists together are as long as the
    sheet; and the skipped list holds, in the order of the sheet, one entry
    for each row whose name cell is blank as text, made of that row's number
    as a person counts it (row [idx], counted from 0, is number [idx + 2])
    and the reason "이름(name) 없음". *)
Theorem import_accounts_for_rows (df : DataFrame) :
  recognised df →
  (length (df_to_employees df).1 + length (df_to_employees df).2
   = length (df_rows df))%nat ∧
  (df_to_employees df).2
  = ((λ idx, (Z.of_nat idx + 2, REASON_NO_NAME)) <$>
     filter (λ idx, strip (str_of_cell (row_get (normalize_columns df) idx COL_NAME)) = [])
            (seq 0 (length (df_rows df)))).
Proof.
  intros Hrec%recognised_hit.
  destruct (normalize_columns_fold df HEADER_MAP ([], 0%nat) (or_introl eq_refl))
    as (_ & _ & Hn & _).
  specialize (Hn Hrec). fold (normalize_columns df) in Hn.
  unfold df_to_employees. split.
  - destruct (import_rows_account (normalize_columns df) (normalize_columns df).2
                (seq 0 (normalize_columns df).2) ([], [])) as [Hlen _].
    + intros idx Hidx%elem_of_seq. lia.
    + constructor.
    + cbn zeta in Hlen. rewrite length_seq in Hlen. cbn in Hlen. by rewrite <- Hn.
  - rewrite import_rows_skipped. cbn [snd app]. by rewrite Hn.
Qed.

Lemma import_accounts_for_rows_witness :
  (length (df_to_employees sample_sheet).1 + length (df_to_employees sample_sheet).2
   = length (df_rows sample_sheet))%nat ∧
  (df_to_employees sample_sheet).2 = [(3, REASON_NO_NAME)].
Proof. apply (import_accounts_for_rows sample_sheet). by_evaluation. Defined.

(** X11: a sheet none of whose headers is known gives no record and no
    skipped row, however many rows it has. *)
Theorem import_unknown_headers (df : DataFrame) :
  ¬ recognised df → df_to_employees df = ([], []).
Proof.
  intros Hrec.
  destruct (normalize_columns_fold df HEADER_MAP ([], 0%nat) (or_introl eq_refl))
    as (_ & _ & _ & Hn).
  fold (normalize_columns df) in Hn. unfold df_to_employees. rewrite Hn; [done|].
  apply Forall_forall. intros ta Hta.
  destruct (hit_col (norm_of (df_columns df)) ta.2) eqn:E; [|done].
  exfalso. apply Hrec, recognised_hit, Exists_exists. exists ta. split; [done|]. by eexists.
Qed.

Lemma import_unknown_headers_witness : df_to_employees foreign_sheet = ([], []).
Proof. apply (import_unknown_headers foreign_sheet). by_evaluation. Defined.

Lemma dec_digits_chars (fuel : nat) :
  ∀ n acc, Forall (λ c, isspace c = false) acc →
    Forall (λ c, isspace c = false) (dec_digits (S fuel) n acc) ∧
    dec_digits (S fuel) n acc ≠ [].
Proof.
  assert (Hdigit : ∀ n : N, isspace (48 + n mod 10) = false).
  { intros n. pose proof (N.mod_upper_bound n 10 ltac:(lia)) as Hlt.
    assert (Hall : forallb (λ d, negb (isspace (48 + Z.to_N d))) (seqZ 0 10) = true)
      by (vm_compute; reflexivity).
    generalize dependent (n mod 10)%N. intros r Hlt.
    pose proof (forallb_seqZ _ _ _ Hall (Z.of_N r) ltac:(lia)) as Hd.
    cbv beta in Hd. rewrite N2Z.id in Hd. by apply negb_true_iff in Hd. }
  induction fuel as [|fuel IH]; intros n acc Hacc; cbn [dec_digits].
  - destruct (n / 10 =? 0)%N; (split; [by constructor | done]).
  - destruct (n / 10 =? 0)%N; [split; [by constructor | done]|].
    apply IH. by constructor.
Qed.

Lemma strip_str_of_cell_nonempty (raw : cell) :
  strip (str_of_cell raw) = [] → ∃ s, raw = CStr s ∧ strip s = [].
Proof.
  destruct raw as [s|z| |]; cbn [str_of_cell]; intros Hnil.
  - by exists s.
  - exfalso. unfold str_of_Z, str_of_N in Hnil.
    destruct (dec_digits_chars (N.size_nat (Z.abs_N z)) (Z.abs_N z) []) as [Hch Hne];
      [constructor|].
    destruct (z <? 0).
    + rewrite strip_id in Hnil; [done|]. by constructor.
    + rewrite strip_id in Hnil; done.
  - discriminate Hnil.
  - discriminate Hnil.
Qed.

(** X12: the import skips a row exactly when its name cell is text that is
    empty or all whitespace; a row whose name cell is a number or is
    missing is registered, a missing cell (NaN) under the name "nan". *)
Theorem import_row_skips_blank_text out (added : list Employee)
    (skipped : list (Z * list N)) (idx : nat) :
  ((import_row out (added, skipped) idx).1 = added ↔
   ∃ s, row_get out idx COL_NAME = CStr s ∧ strip s = []) ∧
  (row_get out idx COL_NAME = CNaN →
   ∃ e, (import_row out (added, skipped) idx) = (added ++ [e], skipped) ∧ name e = u "nan").
Proof.
  split.
  - unfold import_row.
    destruct (strip (str_of_cell (row_get out idx COL_NAME))) as [|c nm] eqn:E; cbn [fst].
    + split; [|done]. intros _. by apply strip_str_of_cell_nonempty.
    + split.
      * intros Heq. apply (f_equal length) in Heq. rewrite length_app in Heq. cbn in Heq. lia.
      * intros (s & Hs & Hnil). rewrite Hs in E. cbn [str_of_cell] in E. congruence.
  - intros Hnan. unfold import_row. rewrite Hnan. cbn. eexists. split; reflexivity.
Qed.

(* ===================================================================== *)
(** ** The directory and the upload *)
(* ===================================================================== *)

Lemma exportable_trimmed (e : Employee) : exportable e → trimmed e.
Proof. intros (? & ? & ? & ? & _). by repeat split. Qed.

Lemma added_by_trimmed (ss : session) (op : dir_op) : Forall trimmed (added_by ss op).
Proof.
  destruct op as [nm ph rl emp_type days|file_id df_raw]; cbn.
  - destruct (strip nm) as [|c nm'] eqn:E; [constructor|].
    constructor; [|constructor]. unfold trimmed. cbn [name phone role].
    split; [done|]. split; [rewrite <- E; apply strip_idem|].
    split; apply strip_idem.
  - case_bool_decide; [constructor|].
    eapply Forall_impl; [apply df_to_employees_exportable | apply exportable_trimmed].
Qed.

(** X13: if every record of the directory has a non-empty name and name,
    phone and role without surrounding whitespace, this is still so after
    any sequence of additions through the form and imports. *)
Theorem directory_stays_trimmed (ss : session) (ops : list dir_op) :
  Forall trimmed (employees ss) → Forall trimmed (employees (run_dir_ops ss ops)).
Proof.
  revert ss. induction ops as [|op ops IH]; intros ss Hall; [done|].
  cbn [run_dir_ops foldl]. apply IH.
  destruct (apply_dir_op_employees ss op) as [-> _].
  apply Forall_app. split; [done | apply added_by_trimmed].
Qed.

Lemma directory_stays_trimmed_witness :
  Forall trimmed
    (employees (run_dir_ops sample_session
       [AddEmployee (u "  마 ") (u " 010 ") (u "주방 ") (u "일용직") [u "토"];
        ImportEmployees (u "f1") sample_sheet])).
Proof. apply (directory_stays_trimmed sample_session). by_evaluation. Defined.

(** X14: once a file has been processed, its token is stored, and
    uploading the same file again changes nothing. *)
Theorem upload_same_file_once (ss : session) (file_id : list N) (df_raw : DataFrame) :
  upload_token (handle_upload ss file_id df_raw) = Some file_id ∧
  handle_upload (handle_upload ss file_id df_raw) file_id df_raw
  = handle_upload ss file_id df_raw.
Proof.
  assert (Htok : upload_token (handle_upload ss file_id df_raw) = Some file_id).
  { unfold handle_upload. case_bool_decide; [done|].
    by destruct (df_to_employees df_raw) as [[|e l] ?]. }
  split; [done|].
  unfold handle_upload at 1. by rewrite bool_decide_eq_true_2.
Qed.

(* ===================================================================== *)
(** ** Saving and deleting a shift *)
(* ===================================================================== *)

Lemma date_weekday_valid (y m d : Z) :
  1 ≤ y ≤ 9999 → 1 ≤ m ≤ 12 → 1 ≤ d ≤ Calendar.days_in_month y m →
  Calendar.date_weekday y m d = Some ((Calendar.ymd2ord y m d + 6) mod 7).
Proof.
  intros Hy Hm Hd. unfold Calendar.date_weekday.
  assert (Hok : (Calendar.MINYEAR <=? y) && (y <=? Calendar.MAXYEAR) && (1 <=? m)
                && (m <=? 12) && (1 <=? d) && (d <=? Calendar.days_in_month y m) = true).
  { unfold Calendar.MINYEAR, Calendar.MAXYEAR.
    repeat (apply andb_true_intro; split); apply Z.leb_le; lia. }
  by rewrite Hok.
Qed.

Lemma weekday_token (w : Z) : 0 ≤ w < 7 → is_Some (KOREAN_DAYS !! Z.to_nat w).
Proof. intros Hw. apply lookup_lt_is_Some_2. cbn. lia. Qed.

(** X15: saving a shift with a non-empty name on the key of a real date
    always goes through; a name already in the directory leaves the
    directory as it is, a new name is registered at its end with the
    weekday of that date as its only available day. *)
Theorem submit_shift_registers (ss : session) (y m d : Z) (name_sel emp_type : list N)
    (clock_in clock_out : Z * Z) (brk wage : Z) :
  1 ≤ y ≤ 9999 → 1 ≤ m ≤ 12 → 1 ≤ d ≤ Calendar.days_in_month y m →
  final_name ss name_sel ≠ [] →
  ∃ ss' wday,
    submit_shift ss (ymd y m d) name_sel emp_type clock_in clock_out brk wage = Some ss' ∧
    KOREAN_DAYS !! Z.to_nat ((Calendar.ymd2ord y m d + 6) mod 7) = Some wday ∧
    final_name ss name_sel ∈ name <$> employees ss' ∧
    (final_name ss name_sel ∈ name <$> employees ss → employees ss' = employees ss) ∧
    (final_name ss name_sel ∉ name <$> employees ss →
     employees ss' = employees ss ++
       [ {| name := final_name ss name_sel; phone := []; role := [];
            employment_type := emp_type; available_days := [wday] |} ]).
Proof.
  intros Hy Hm Hd Hne.
  pose proof (days_in_month_range y m Hm) as Hdim.
  destruct (weekday_token ((Calendar.ymd2ord y m d + 6) mod 7)) as [wday Hwday];
    [apply Z.mod_pos_bound; lia|].
  unfold submit_shift.
  destruct (final_name ss name_sel) as [|c nm] eqn:Hfn; [done|].
  destruct (list_find (λ e, name e = c :: nm) (employees ss)) as [[i e]|] eqn:Hfind.
  - apply list_find_Some in Hfind as (Hi & He & _).
    assert (Hin : c :: nm ∈ name <$> employees ss).
    { apply list_elem_of_fmap. exists e. split; [done|]. by eapply list_elem_of_lookup_2. }
    cbn. eexists _, wday. split; [reflexivity|]. cbn [employees].
    split; [done|]. split; [done|]. split; [done|]. done.
  - apply list_find_None in Hfind.
    assert (Hnotin : c :: nm ∉ name <$> employees ss).
    { intros (e & He & Hin)%list_elem_of_fmap. rewrite Forall_forall in Hfind.
      by apply (Hfind e Hin). }
    rewrite parse_day_key_ymd by lia. cbn [mbind option_bind].
    rewrite date_weekday_valid by done. cbn [mbind option_bind]. rewrite Hwday.
    cbn. eexists _, wday. split; [reflexivity|]. cbn [employees].
    split; [done|]. split.
    + rewrite fmap_app. apply elem_of_app. right. cbn. left.
    + split; [done|]. done.
Qed.

Lemma submit_shift_registers_witness :
  ∃ ss' wday,
    submit_shift initial_session (ymd 2026 1 5) (u " 바 ") (u "일용직") (9, 0) (13, 0) 0 9000
      = Some ss' ∧
    KOREAN_DAYS !! Z.to_nat ((Calendar.ymd2ord 2026 1 5 + 6) mod 7) = Some wday ∧
    final_name initial_session (u " 바 ") ∈ name <$> employees ss' ∧
    (final_name initial_session (u " 바 ") ∈ name <$> employees initial_session →
     employees ss' = employees initial_session) ∧
    (final_name initial_session (u " 바 ") ∉ name <$> employees initial_session →
     employees ss' = employees initial_session ++
       [ {| name := final_name initial_session (u " 바 "); phone := []; role := [];
            employment_type := u "일용직"; available_days := [wday] |} ]).
Proof.
  apply (submit_shift_registers initial_session 2026 1 5 (u " 바 ") (u "일용직")
           (9, 0) (13, 0) 0 9000); [lia | lia | by vm_compute | by vm_compute].
Defined.

(** X16: in a roster without empty lists, saving a shift and then deleting
    the row it added (the last of that date) gives back the roster. *)
Theorem submit_then_delete_row (ss ss' : session) (day_key name_sel emp_type : list N)
    (clock_in clock_out : Z * Z) (brk wage : Z) :
  roster_ok (assignments ss) →
  final_name ss name_sel ≠ [] →
  submit_shift ss day_key name_sel emp_type clock_in clock_out brk wage = Some ss' →
  assignments (delete_row ss' day_key (length (default [] (assignments ss !! day_key))))
  = assignments ss.
Proof.
  intros Hok Hne Hrun.
  pose proof (submit_shift_Some _ _ _ _ _ _ _ _ _ Hrun Hne) as Hasg.
  unfold delete_row. rewrite Hasg, lookup_insert_eq. cbn [default id].
  set (l := default [] (assignments ss !! day_key)).
  rewrite (list_lookup_middle l [] _ (length l) eq_refl).
  assert (Hdel : delete (length l) (l ++ [shift_item (final_name ss name_sel) emp_type
                                            clock_in clock_out brk wage]) = l).
  { clear. induction l as [|x l IH]; [done|]. cbn. f_equal. exact IH. }
  rewrite Hdel. destruct l as [|r l0] eqn:El; cbn [assignments with_assignments].
  - rewrite delete_insert_eq. apply delete_id.
    destruct (assignments ss !! day_key) as [l1|] eqn:E; [|done].
    exfalso. apply (Hok _ _ E). exact El.
  - rewrite insert_insert_eq. apply insert_id.
    destruct (assignments ss !! day_key) as [l1|] eqn:E; [|discriminate El].
    by rewrite <- El.
Qed.

Lemma submit_then_delete_row_witness :
  assignments (delete_row booked_plus_shift (ymd 2026 1 5)
                 (length (default [] (assignments booked_session !! ymd 2026 1 5))))
  = assignments booked_session.
Proof.
  apply (submit_then_delete_row booked_session booked_plus_shift (ymd 2026 1 5)
           (u "나") (u "일용직") (9, 0) (13, 0) 0 9000);
    [by_evaluation | by vm_compute | vm_compute; reflexivity].
Defined.

(* ===================================================================== *)
(** ** The month grid *)
(* ===================================================================== *)

Lemma chunks7 (q : nat) :
  ∀ l : list Z, length l = (7 * q)%nat →
    concat ((λ k, take 7 (drop (7 * k) l)) <$> seq 0 q) = l ∧
    Forall (λ wk, length wk = 7%nat) ((λ k, take 7 (drop (7 * k) l)) <$> seq 0 q).
Proof.
  induction q as [|q IH]; intros l Hlen.
  - destruct l; [by split | cbn in Hlen; lia].
  - cbn [seq fmap list_fmap concat]. rewrite <- fmap_S_seq, <- list_fmap_compose.
    destruct (IH (drop 7 l)) as [Hcat Hall]; [rewrite length_drop; lia|].
    assert (Hext : (λ k, take 7 (drop (7 * k) l)) ∘ S <$> seq 0 q
                   = (λ k, take 7 (drop (7 * k) (drop 7 l))) <$> seq 0 q).
    { apply list_fmap_ext. intros _ k _. cbn. rewrite drop_drop. do 2 f_equal. lia. }
    rewrite Hext, Hcat. split.
    + apply take_drop.
    + constructor; [|done]. rewrite length_take, length_drop. lia.
Qed.

Lemma pad_total (a n : Z) : (a + n + (0 - a - n) mod 7) mod 7 = 0.
Proof. Z.div_mod_to_equations. lia. Qed.

(** The grid of a month: the list of its cells, week after week, and the
    weekday of its first day. *)
Lemma monthdayscalendar_days (year month : Z) :
  1 ≤ month ≤ 12 →
  ∃ day1 cal q,
    Calendar.monthrange year month = Some (day1, Calendar.days_in_month year month) ∧
    0 ≤ day1 < 7 ∧
    Calendar.monthdayscalendar 0 year month = Some cal ∧
    cal = (λ k, take 7 (drop (7 * k)
             (replicate (Z.to_nat day1) 0 ++ seqZ 1 (Calendar.days_in_month year month)
              ++ replicate (Z.to_nat ((0 - day1 - Calendar.days_in_month year month) mod 7)) 0)))
          <$> seq 0 q ∧
    concat cal = replicate (Z.to_nat day1) 0 ++ seqZ 1 (Calendar.days_in_month year month)
                 ++ replicate (Z.to_nat ((0 - day1 - Calendar.days_in_month year month) mod 7)) 0 ∧
    Forall (λ wk, length wk = 7%nat) cal.
Proof.
  intros Hm. destruct (monthrange_days year month Hm) as (day1 & Hmr & Hd1).
  pose proof (days_in_month_range year month Hm) as Hdim.
  set (dim := Calendar.days_in_month year month) in *.
  set (b := (0 - day1 - dim) mod 7).
  assert (Hb : 0 ≤ b < 7) by (apply Z.mod_pos_bound; lia).
  assert (Htot : (day1 + dim + b) mod 7 = 0).
  { apply pad_total. }
  set (q := Z.to_nat ((day1 + dim + b) / 7)).
  set (days := replicate (Z.to_nat day1) 0 ++ seqZ 1 dim ++ replicate (Z.to_nat b) 0).
  assert (Hlen : length days = (7 * q)%nat).
  { unfold days, q. rewrite !length_app, !length_replicate, length_seqZ.
    pose proof (Z.div_mod (day1 + dim + b) 7 ltac:(lia)) as Hdm.
    rewrite Htot in Hdm. lia. }
  destruct (chunks7 q days Hlen) as [Hcat Hall].
  exists day1, ((λ k, take 7 (drop (7 * k) days)) <$> seq 0 q), q.
  split; [done|]. split; [done|]. split; [|done].
  unfold Calendar.monthdayscalendar, Calendar.itermonthdays. rewrite Hmr.
  cbn [mbind option_bind]. rewrite Z.sub_0_r, (Z.mod_small day1 7) by lia.
  fold b. fold days. rewrite Hlen. do 3 f_equal.
  rewrite Nat.mul_comm, Nat.div_add_l by lia. cbn. lia.
Qed.

Lemma filter_replicate_zero (n : nat) : filter (λ d : Z, d ≠ 0) (replicate n 0) = [].
Proof. induction n as [|n IH]; [done|]. cbn [replicate]. by rewrite filter_cons_False by tauto. Qed.

(** X17: for a month in [1..12] the grid consists of weeks of seven cells,
    and its cells other than the filler 0 are the days [1..last] of the
    month, in order. *)
Theorem month_grid_shape (year month : Z) :
  1 ≤ month ≤ 12 →
  ∃ cal,
    Calendar.monthdayscalendar 0 year month = Some cal ∧
    Forall (λ wk, length wk = 7%nat) cal ∧
    filter (λ d, d ≠ 0) (concat cal) = seqZ 1 (Calendar.days_in_month year month).
Proof.
  intros Hm.
  destruct (monthdayscalendar_days year month Hm) as (day1 & cal & q & _ & _ & Hcal & _ & Hcat & Hall).
  exists cal. split; [done|]. split; [done|].
  rewrite Hcat, !filter_app, !filter_replicate_zero, app_nil_r. cbn [app].
  apply filter_all. intros d Hd%elem_of_seqZ. lia.
Qed.

Lemma month_grid_shape_witness :
  ∃ cal,
    Calendar.monthdayscalendar 0 2024 2 = Some cal ∧
    Forall (λ wk, length wk = 7%nat) cal ∧
    filter (λ d, d ≠ 0) (concat cal) = seqZ 1 (Calendar.days_in_month 2024 2).
Proof. apply (month_grid_shape 2024 2). lia. Defined.

Lemma monthrange_day1 (year month : Z) :
  1 ≤ year ≤ 9999 → 1 ≤ month ≤ 12 →
  Calendar.monthrange year month
  = Some ((Calendar.ymd2ord year month 1 + 6) mod 7, Calendar.days_in_month year month).
Proof.
  intros Hy Hm. destruct (monthrange_days year month Hm) as (day1 & Hmr & _).
  rewrite Hmr. f_equal. f_equal.
  unfold Calendar.monthrange, Calendar.weekday in Hmr.
  destruct ((1 <=? month) && (month <=? 12)); [|done].
  assert (Hin : (Calendar.MINYEAR <=? year) && (year <=? Calendar.MAXYEAR) = true).
  { unfold Calendar.MINYEAR, Calendar.MAXYEAR.
    apply andb_true_intro. split; apply Z.leb_le; lia. }
  rewrite Hin in Hmr.
  pose proof (days_in_month_range year month Hm).
  rewrite date_weekday_valid in Hmr by lia. cbn in Hmr. congruence.
Qed.

(** The cell at position [j] of the list of cells, when it is a day. *)
Lemma grid_cell_day (day1 dim b : Z) (j : nat) (d : Z) :
  0 ≤ day1 → 0 ≤ dim →
  (replicate (Z.to_nat day1) 0 ++ seqZ 1 dim ++ replicate (Z.to_nat b) 0) !! j = Some d →
  d ≠ 0 → Z.of_nat j = day1 + d - 1 ∧ 1 ≤ d ≤ dim.
Proof.
  intros Hd1 Hdim Hj Hd.
  apply lookup_app_Some in Hj as [Hj|[Hge Hj]].
  { apply lookup_replicate in Hj as [-> _]. done. }
  rewrite length_replicate in Hge, Hj.
  apply lookup_app_Some in Hj as [Hj|[_ Hj]].
  - apply lookup_seqZ in Hj as [-> Hlt]. lia.
  - apply lookup_replicate in Hj as [-> _]. done.
Qed.

(** X18: in the grid of a month of a year in [1..9999], a day stands in the
    column of its weekday: the cell at position [i] of a week, when it is a
    day [d] of the month, has [date(year, month, d).weekday() = i]. *)
Theorem grid_column_is_weekday (year month : Z) (cal : list (list Z)) (wk : list Z)
    (k i : nat) (d : Z) :
  1 ≤ year ≤ 9999 → 1 ≤ month ≤ 12 →
  Calendar.monthdayscalendar 0 year month = Some cal →
  cal !! k = Some wk → wk !! i = Some d → d ≠ 0 →
  Calendar.date_weekday year month d = Some (Z.of_nat i) ∧ (i < 7)%nat.
Proof.
  intros Hy Hm Hcal Hk Hi Hd.
  destruct (monthdayscalendar_days year month Hm)
    as (day1 & cal' & q & Hmr & Hd1 & Hcal' & Hdef & _ & _).
  rewrite Hcal in Hcal'. injection Hcal' as <-.
  rewrite (monthrange_day1 year month Hy Hm) in Hmr. injection Hmr as Hday1.
  pose proof (days_in_month_range year month Hm) as Hdim.
  rewrite Hdef in Hk. apply list_lookup_fmap_Some in Hk as (k' & -> & Hk').
  apply lookup_seq in Hk' as [-> _]. cbn [Nat.add] in Hi.
  apply lookup_take_Some in Hi as [Hi Hlt]. rewrite lookup_drop in Hi.
  apply grid_cell_day in Hi as [Hj Hrange]; [|lia|lia|done].
  split; [|done]. rewrite date_weekday_valid by lia. f_equal.
  unfold Calendar.ymd2ord in *. rewrite <- Hday1 in Hj.
  generalize dependent (Calendar.days_before_year year + Calendar.days_before_month year month).
  intros o Hday1 Hj. Z.div_mod_to_equations. lia.
Qed.

Lemma grid_column_is_weekday_witness :
  Calendar.date_weekday 2026 1 1 = Some (Z.of_nat 3) ∧ (3 < 7)%nat.
Proof.
  apply (grid_column_is_weekday 2026 1
           [[0; 0; 0; 1; 2; 3; 4]; [5; 6; 7; 8; 9; 10; 11]; [12; 13; 14; 15; 16; 17; 18];
            [19; 20; 21; 22; 23; 24; 25]; [26; 27; 28; 29; 30; 31; 0]]
           [0; 0; 0; 1; 2; 3; 4] 0 3 1);
    [lia | lia | by vm_compute | reflexivity | reflexivity | lia].
Defined.

(* ===================================================================== *)
(** ** What an automatic assignment adds *)
(* ===================================================================== *)

Lemma assign_candidates_extra (cands : list Employee) :
  ∀ (day_list : list Shift) (exists_ : gset (list N)),
    ∃ extra, assign_candidates cands day_list exists_ = day_list ++ extra ∧
             Forall (λ r, r ∈ default_shift <$> cands) extra.
Proof.
  induction cands as [|emp rest IH]; intros day_list exists_.
  - exists []. by rewrite app_nil_r.
  - cbn [assign_candidates]. case_bool_decide.
    + destruct (IH day_list exists_) as (extra & -> & Hall). exists extra. split; [done|].
      eapply Forall_impl; [exact Hall|]. intros r Hr. rewrite fmap_cons. by right.
    + destruct (IH (day_list ++ [default_shift emp]) ({[name emp]} ∪ exists_))
        as (extra & -> & Hall).
      exists (default_shift emp :: extra). rewrite <- app_assoc. split; [done|].
      constructor; [rewrite fmap_cons; left|].
      eapply Forall_impl; [exact Hall|]. intros r Hr. rewrite fmap_cons. by right.
Qed.

(** A day with candidates is an open day of a real date, and the
    candidates are the employees available on its weekday. *)
Lemma day_candidates_nonempty emps closed_month (year month d : Z) (cands : list Employee) :
  day_candidates emps closed_month year month d = Some cands → cands ≠ [] →
  is_closed closed_month d = false ∧ 1 ≤ year ≤ 9999 ∧ 1 ≤ month ≤ 12 ∧
  1 ≤ d ≤ Calendar.days_in_month year month ∧
  ∃ wday, KOREAN_DAYS !! Z.to_nat ((Calendar.ymd2ord year month d + 6) mod 7) = Some wday ∧
          cands = filter (λ e, wday ∈ available_days e) emps.
Proof.
  unfold day_candidates. intros Hc Hne.
  destruct ((d =? 0) || is_closed closed_month d) eqn:E; [by injection Hc as <-|].
  apply orb_false_elim in E as [_ Hopen].
  unfold Calendar.date_weekday, Calendar.MINYEAR, Calendar.MAXYEAR in Hc.
  destruct ((1 <=? year) && (year <=? 9999) && (1 <=? month) && (month <=? 12)
            && (1 <=? d) && (d <=? Calendar.days_in_month year month)) eqn:Hok; [|done].
  repeat (apply andb_prop in Hok as [Hok ?%Z.leb_le]). apply Z.leb_le in Hok.
  cbn [mbind option_bind] in Hc.
  destruct (KOREAN_DAYS !! _) as [wday|] eqn:Hwday; [|done]. cbn in Hc. injection Hc as <-.
  split; [done|]. split; [lia|]. split; [lia|]. split; [lia|]. by exists wday.
Qed.

Lemma grown_refl emps asg : grown emps asg asg.
Proof. intros k. by left. Qed.

Lemma grown_trans emps a b c : grown emps a b → grown emps b c → grown emps a c.
Proof.
  intros Hab Hbc k. destruct (Hab k) as [Hb|(ex1 & Hne1 & Hb & Hall1)].
  - destruct (Hbc k) as [Hc|(ex2 & Hne2 & Hc & Hall2)].
    + left. congruence.
    + right. exists ex2. rewrite Hb in Hc. done.
  - destruct (Hbc k) as [Hc|(ex2 & Hne2 & Hc & Hall2)].
    + right. exists ex1. split; [done|]. split; [congruence | done].
    + right. exists (ex1 ++ ex2). split; [by intros [? _]%app_eq_nil|].
      split; [|by apply Forall_app]. rewrite Hc, Hb. cbn. by rewrite app_assoc.
Qed.

Lemma place_grown emps cands key asg :
  (∀ e, e ∈ cands → e ∈ emps) → grown emps asg (place cands key asg).
Proof.
  intros Hsub. destruct cands as [|c cands]; [apply grown_refl|].
  intros k. destruct (decide (k = key)) as [->|Hne]; [|left; by apply place_lookup_ne].
  destruct (assign_candidates_extra (c :: cands) (default [] (asg !! key))
              (list_to_set (sh_name <$> default [] (asg !! key)))) as (extra & Heq & Hall).
  assert (Hl : place (c :: cands) key asg !! key = Some (default [] (asg !! key) ++ extra)).
  { unfold place. by rewrite lookup_insert_eq, Heq. }
  destruct (place_lookup (c :: cands) key asg ltac:(done)) as (extra' & Hl' & Hnames & _).
  rewrite Hl in Hl'. injection Hl' as <-%app_inv_head.
  destruct extra as [|r extra].
  - left. rewrite Hl, app_nil_r. destruct (asg !! key) as [l|] eqn:E; [done|].
    specialize (Hnames c ltac:(left)). cbn in Hnames. by apply elem_of_nil in Hnames.
  - right. exists (r :: extra). split; [done|]. split; [done|].
    eapply Forall_impl; [exact Hall|]. intros r' (e & -> & He)%list_elem_of_fmap.
    apply list_elem_of_fmap. exists e. split; [done|]. by apply Hsub.
Qed.

(** The run of [auto_assign_for_month] as one loop over the cells. *)
Lemma auto_assign_for_month_Some (ss ss' : session) (year month : Z) :
  auto_assign_for_month ss year month = Some ss' ↔
  ∃ cal asg,
    Calendar.monthdayscalendar 0 year month = Some cal ∧
    foldlM (auto_assign_day (employees ss) (default ∅ (closed ss !! ym year month)) year month)
           (assignments ss) (concat cal) = Some asg ∧
    ss' = with_assignments ss asg.
Proof.
  unfold auto_assign_for_month.
  destruct (Calendar.monthdayscalendar 0 year month) as [cal|]; cbn [mbind option_bind].
  - rewrite foldlM_concat. destruct (foldlM _ _ (concat cal)) as [asg|] eqn:Hrun; cbn.
    + split.
      * intros [= <-]. by exists cal, asg.
      * intros (cal0 & asg0 & [= <-] & Hrun' & ->). congruence.
    + split; [done|]. intros (cal0 & asg0 & [= <-] & Hrun' & _). congruence.
  - split; [done | by intros (? & ? & ? & _)].
Qed.

(** X19: an automatic assignment keeps the directory and the closed days,
    keeps every row of the roster in place, and what it adds at a date are
    default shifts (09:00-18:00, break 60, wage 10000, with the employee's
    employment type) of employees of the directory, appended at the end. *)
Theorem auto_assign_appends_defaults (ss ss' : session) (year month : Z) :
  auto_assign_for_month ss year month = Some ss' →
  employees ss' = employees ss ∧ closed ss' = closed ss ∧
  grown (employees ss) (assignments ss) (assignments ss').
Proof.
  intros (cal & asg & _ & Hrun & ->)%auto_assign_for_month_Some.
  split; [done|]. split; [done|]. cbn.
  eapply (foldlM_invariant _ (grown (employees ss) (assignments ss)));
    [|apply grown_refl|exact Hrun].
  intros b d b' Hb (cands & Hc & ->)%auto_assign_day_Some.
  eapply grown_trans; [exact Hb|]. apply place_grown.
  destruct cands as [|c cands]; [by intros e ?%elem_of_nil|].
  apply day_candidates_nonempty in Hc as (_ & _ & _ & _ & wday & _ & ->); [|done].
  intros e He. by apply list_elem_of_filter in He as [_ ?].
Qed.

Lemma auto_assign_appends_defaults_witness :
  employees booked_assigned = employees booked_session ∧
  closed booked_assigned = closed booked_session ∧
  grown (employees booked_session) (assignments booked_session) (assignments booked_assigned).
Proof.
  apply (auto_assign_appends_defaults booked_session booked_assigned 2026 1).
  vm_compute. reflexivity.
Defined.

(** X20: after an automatic assignment every open day of the month lists
    every employee of the directory who is available on its weekday. *)
Theorem auto_assign_complete (ss ss' : session) (year month d : Z) (e : Employee)
    (wday : list N) :
  auto_assign_for_month ss year month = Some ss' →
  1 ≤ year ≤ 9999 → 1 ≤ month ≤ 12 → 1 ≤ d ≤ Calendar.days_in_month year month →
  is_closed (default ∅ (closed ss !! ym year month)) d = false →
  KOREAN_DAYS !! Z.to_nat ((Calendar.ymd2ord year month d + 6) mod 7) = Some wday →
  e ∈ employees ss → wday ∈ available_days e →
  ∃ l, assignments ss' !! ymd year month d = Some l ∧ name e ∈ sh_name <$> l.
Proof.
  intros (cal & asg & Hcal & Hrun & ->)%auto_assign_for_month_Some Hy Hm Hd Hopen Hwday He Hav.
  cbn [assignments with_assignments].
  destruct (monthdayscalendar_days year month Hm) as (day1 & cal' & q & _ & _ & Hcal' & _ & Hcat & _).
  rewrite Hcal in Hcal'. injection Hcal' as <-.
  assert (Hin : d ∈ concat cal).
  { rewrite Hcat, !elem_of_app. right. left. apply elem_of_seqZ. lia. }
  apply list_elem_of_split in Hin as (l1 & l2 & Hsplit).
  rewrite Hsplit, foldlM_app in Hrun.
  apply bind_Some in Hrun as (asg1 & _ & Hrun). cbn [foldlM] in Hrun.
  destruct (auto_assign_day _ _ _ _ asg1 d) as [asg2|] eqn:Hstep; [|done].
  apply auto_assign_day_Some in Hstep as (cands & Hc & ->).
  assert (Hcands : e ∈ cands).
  { unfold day_candidates in Hc. rewrite Hopen in Hc.
    replace (d =? 0) with false in Hc by (symmetry; apply Z.eqb_neq; lia).
    cbn [orb] in Hc. rewrite date_weekday_valid in Hc by done.
    cbn [mbind option_bind] in Hc. rewrite Hwday in Hc. cbn in Hc. injection Hc as <-.
    by apply list_elem_of_filter. }
  destruct (place_lookup cands (ymd year month d) asg1) as (extra & Hl & Hnames & _).
  { intros ->. by apply elem_of_nil in Hcands. }
  pose proof (foldlM_ext _ roster_ext roster_ext_refl roster_ext_trans
                (λ b d b', auto_assign_day_ext _ _ _ _ b d b') _ _ _ Hrun) as Hext.
  destruct (Hext _ _ Hl) as (l' & Hl'). eexists. split; [exact Hl'|].
  rewrite fmap_app. apply elem_of_app. left. by apply Hnames.
Qed.

Lemma auto_assign_complete_witness :
  ∃ l, assignments sample_assigned !! ymd 2026 1 7 = Some l ∧ u "가" ∈ sh_name <$> l.
Proof.
  assert (Hrun : auto_assign_for_month sample_session 2026 1 = Some sample_assigned)
    by (vm_compute; reflexivity).
  pose proof (auto_assign_complete sample_session sample_assigned 2026 1 7
                {| name := u "가"; phone := u "01012345678"; role := u "홀서빙";
                   employment_type := u "4대보험"; available_days := [u "월"; u "수"] |}
                (u "수") Hrun) as H.
  assert (H1 : 1 ≤ 2026 ≤ 9999) by lia.
  assert (H2 : 1 ≤ 1 ≤ 12) by lia.
  assert (H3 : 1 ≤ 7 ≤ Calendar.days_in_month 2026 1) by by vm_compute.
  assert (H4 : is_closed (default ∅ (closed sample_session !! ym 2026 1)) 7 = false)
    by by vm_compute.
  assert (H5 : KOREAN_DAYS !! Z.to_nat ((Calendar.ymd2ord 2026 1 7 + 6) mod 7) = Some (u "수"))
    by by vm_compute.
  apply (H H1 H2 H3 H4 H5); [left | right; left].
Defined.

(** X21: an automatic assignment changes the roster only at keys of open
    days of the month; in particular the list of a closed day stays as it
    is. *)
Theorem auto_assign_touches_open_days (ss ss' : session) (year month : Z) :
  auto_assign_for_month ss year month = Some ss' →
  (∀ k, (∀ d, 1 ≤ d ≤ Calendar.days_in_month year month →
              is_closed (default ∅ (closed ss !! ym year month)) d = false →
              k ≠ ymd year month d) →
        assignments ss' !! k = assignments ss !! k) ∧
  (∀ d, 0 ≤ d ≤ 99 → is_closed (default ∅ (closed ss !! ym year month)) d = true →
        assignments ss' !! ymd year month d = assignments ss !! ymd year month d).
Proof.
  intros (cal & asg & _ & Hrun & ->)%auto_assign_for_month_Some.
  cbn [assignments with_assignments].
  assert (Hgen : ∀ k, (∀ d, 1 ≤ year ≤ 9999 → 1 ≤ month ≤ 12 →
                        1 ≤ d ≤ Calendar.days_in_month year month →
                        is_closed (default ∅ (closed ss !! ym year month)) d = false →
                        k ≠ ymd year month d) →
                      asg !! k = assignments ss !! k).
  { intros k Hk.
    eapply (foldlM_invariant _ (λ b, b !! k = assignments ss !! k)); [|done|exact Hrun].
    intros b d b' Hb (cands & Hc & ->)%auto_assign_day_Some.
    destruct cands as [|c cands]; [done|].
    apply day_candidates_nonempty in Hc as (Hopen & Hy & Hm & Hd & _); [|done].
    rewrite place_lookup_ne; [done|]. by apply Hk. }
  split.
  - intros k Hk. apply Hgen. intros d _ _. apply Hk.
  - intros d0 Hd0 Hclosed. apply Hgen. intros d Hy Hm Hd Hopen Heq.
    pose proof (days_in_month_range year month Hm).
    apply ymd_inj in Heq as (_ & _ & ->); [congruence|lia..].
Qed.

Lemma auto_assign_touches_open_days_witness :
  assignments sample_assigned !! ymd 2026 1 5 = assignments sample_session !! ymd 2026 1 5.
Proof.
  destruct (auto_assign_touches_open_days sample_session sample_assigned 2026 1)
    as [_ Hclosed]; [vm_compute; reflexivity|].
  apply Hclosed; [lia | by vm_compute].
Defined.

Lemma with_assignments_id (ss : session) : with_assignments ss (assignments ss) = ss.
Proof. by destruct ss. Qed.

(** X22: with an empty directory an automatic assignment changes
    nothing. *)
Theorem auto_assign_empty_directory (ss : session) (year month : Z) :
  employees ss = [] → 1 ≤ year ≤ 9999 → 1 ≤ month ≤ 12 →
  auto_assign_for_month ss year month = Some ss.
Proof.
  intros Hemp Hy Hm.
  destruct (monthdayscalendar_cells year month Hm) as (cal & Hcal & Hcells).
  apply auto_assign_for_month_Some. exists cal, (assignments ss).
  split; [done|]. split; [|by rewrite with_assignments_id].
  apply foldlM_fixed. intros d Hd%list_elem_of_In%Hcells.
  apply auto_assign_day_Some. exists [].
  split; [|done]. rewrite Hemp.
  destruct (day_candidates_is_Some [] (default ∅ (closed ss !! ym year month))
              year month d Hy Hm Hd) as [cands Hc].
  rewrite Hc. f_equal. destruct cands as [|c cands]; [done|].
  apply day_candidates_nonempty in Hc as (_ & _ & _ & _ & wday & _ & Hf); [|done].
  discriminate Hf.
Qed.

Lemma auto_assign_empty_directory_witness :
  auto_assign_for_month all_closed_session 2026 3 = Some all_closed_session.
Proof. apply (auto_assign_empty_directory all_closed_session 2026 3); [reflexivity|lia|lia]. Defined.

(** X23: when every day of the month is closed an automatic assignment
    changes nothing, in any year. *)
Theorem auto_assign_all_closed (ss : session) (year month : Z) :
  1 ≤ month ≤ 12 →
  (∀ d, 1 ≤ d ≤ Calendar.days_in_month year month →
        is_closed (default ∅ (closed ss !! ym year month)) d = true) →
  auto_assign_for_month ss year month = Some ss.
Proof.
  intros Hm Hclosed.
  destruct (monthdayscalendar_cells year month Hm) as (cal & Hcal & Hcells).
  apply auto_assign_for_month_Some. exists cal, (assignments ss).
  split; [done|]. split; [|by rewrite with_assignments_id].
  apply foldlM_fixed. intros d Hd%list_elem_of_In%Hcells.
  unfold auto_assign_day. destruct Hd as [->|Hd]; [done|].
  rewrite (Hclosed d Hd). by rewrite orb_true_r.
Qed.

Lemma auto_assign_all_closed_witness :
  auto_assign_for_month
    {| employees := sample_employees; assignments := ∅;
       closed := closed all_closed_session; upload_token := None |} 2026 2
  = Some {| employees := sample_employees; assignments := ∅;
            closed := closed all_closed_session; upload_token := None |}.
Proof.
  apply (auto_assign_all_closed
           {| employees := sample_employees; assignments := ∅;
              closed := closed all_closed_session; upload_token := None |} 2026 2); [lia|].
  intros d Hd. change (Calendar.days_in_month 2026 2) with 28 in Hd.
  apply (forallb_seqZ
           (is_closed (default ∅ (closed all_closed_session !! ym 2026 2))) 1 28);
    [vm_compute; reflexivity | lia].
Defined.

(** X24: once an employee is deleted and no other record bears the name,
    a later automatic assignment puts no row of that name into the
    roster. *)
Theorem deleted_not_reassigned (ss ss' : session) (i : nat) (e : Employee) (year month : Z) :
  employees ss !! i = Some e →
  name e ∉ name <$> delete i (employees ss) →
  auto_assign_for_month (delete_employee ss i) year month = Some ss' →
  ∀ k l, assignments ss' !! k = Some l → name e ∉ sh_name <$> l.
Proof.
  intros He Hnodup Hrun k l Hl.
  assert (Hgrown : grown (delete i (employees ss)) (cascade (name e) (assignments ss))
                     (assignments ss')).
  { apply auto_assign_for_month_Some in Hrun as (cal & asg & _ & Hrun & ->).
    unfold delete_employee in *. rewrite He in *.
    cbn [assignments with_assignments employees closed] in *.
    eapply (foldlM_invariant _ (grown _ _)); [|apply grown_refl|exact Hrun].
    intros b d b' Hb (cands & Hc & ->)%auto_assign_day_Some.
    eapply grown_trans; [exact Hb|]. apply place_grown.
    destruct cands as [|c cands]; [by intros ? ?%elem_of_nil|].
    apply day_candidates_nonempty in Hc as (_ & _ & _ & _ & wday & _ & ->); [|done].
    intros e' He'. by apply list_elem_of_filter in He' as [_ ?]. }
  assert (Hold : ∀ l0, cascade (name e) (assignments ss) !! k = Some l0 →
                       name e ∉ sh_name <$> l0).
  { intros l0. rewrite cascade_lookup.
    destruct (assignments ss !! k) as [arr|]; [|done]. cbn. unfold without_name.
    destruct (filter _ arr) as [|r0 rest] eqn:E; [done|]. intros [= <-].
    intros (r & Hr & Hin)%list_elem_of_fmap. rewrite <- E in Hin.
    apply list_elem_of_filter in Hin as [Hne _]. by apply Hne. }
  destruct (Hgrown k) as [Hk|(extra & _ & Hk & Hall)].
  - apply Hold. by rewrite <- Hk.
  - rewrite Hl in Hk. injection Hk as ->. rewrite fmap_app, elem_of_app. intros [Hin|Hin].
    + destruct (cascade (name e) (assignments ss) !! k) as [l0|] eqn:E;
        [by eapply Hold | by apply elem_of_nil in Hin].
    + apply list_elem_of_fmap in Hin as (r & Hr & Hin). rewrite Forall_forall in Hall.
      apply Hall, list_elem_of_fmap in Hin as (e' & -> & He'). cbn in Hr.
      apply Hnodup. rewrite Hr. by apply list_elem_of_fmap_2.
Qed.

Lemma deleted_not_reassigned_witness :
  Forall (λ k, u "가" ∉ sh_name <$> default [] (assignments booked_deleted_assigned !! k))
         [ymd 2026 1 5; ymd 2026 1 7; ymd 2026 1 12].
Proof.
  pose proof (deleted_not_reassigned booked_session booked_deleted_assigned 0
                {| name := u "가"; phone := u "01012345678"; role := u "홀서빙";
                   employment_type := u "4대보험"; available_days := [u "월"; u "수"] |}
                2026 1) as H.
  assert (H1 : employees booked_session !! 0%nat
               = Some {| name := u "가"; phone := u "01012345678"; role := u "홀서빙";
                         employment_type := u "4대보험";
                         available_days := [u "월"; u "수"] |}) by reflexivity.
  assert (H2 : u "가" ∉ name <$> delete 0%nat (employees booked_session)) by by_evaluation.
  assert (H3 : auto_assign_for_month (delete_employee booked_session 0) 2026 1
               = Some booked_deleted_assigned) by (vm_compute; reflexivity).
  specialize (H H1 H2 H3).
  repeat constructor;
    (match goal with |- _ ∉ _ <$> default [] (?m !! ?k) =>
       destruct (m !! k) as [l|] eqn:E; [exact (H k l E) | apply not_elem_of_nil]
     end).
Defined.

(* ===================================================================== *)
(** ** What the threshold counts *)
(* ===================================================================== *)

(** The loop of [biz_flag_for_month]: the open days, and among them those
    with at least five distinct names outside business income. *)
Lemma biz_fold_count closed_month asg year month (ds : list Z) :
  ∀ op mt,
    foldl (biz_day closed_month asg year month) (op, mt) ds =
      (op + (Z.of_nat (length ds)
             - Z.of_nat (length (filter (λ d, is_closed closed_month d = true) ds))),
       mt + Z.of_nat (length (filter
                (λ d, is_closed closed_month d = false ∧
                      (5 ≤ size (uniq_names (default [] (asg !! ymd year month d))))%nat)
                ds))).
Proof.
  induction ds as [|d ds IH]; intros op mt.
  - cbn. f_equal; lia.
  - cbn [foldl]. unfold biz_day at 2.
    destruct (is_closed closed_month d) eqn:Hc.
    + rewrite IH. rewrite filter_cons_True by done.
      rewrite (filter_cons_False (λ d, _ ∧ _)) by (rewrite Hc; intros [? _]; done).
      cbn [length]. f_equal; lia.
    + rewrite (filter_cons_False (λ d, is_closed closed_month d = true))
        by (rewrite Hc; discriminate).
      destruct (Nat.leb_spec 5 (size (uniq_names (default [] (asg !! ymd year month d)))))
        as [Hge|Hlt].
      * rewrite IH. rewrite filter_cons_True by (by rewrite Hc).
        cbn [length]. f_equal; lia.
      * rewrite IH. rewrite filter_cons_False by (intros [_ ?]; lia).
        cbn [length]. f_equal; lia.
Qed.

(** X25: for a month in [1..12] the second component of the result is the
    number of days of the month that are not closed and carry at least five
    distinct names outside business income; it never exceeds the third
    component, which lies between 1 and 31. *)
Theorem biz_flag_counts (ss : session) (year month : Z) :
  1 ≤ month ≤ 12 →
  let closed_month := default ∅ (closed ss !! ym year month) in
  let last := Calendar.days_in_month year month in
  let meet := Z.of_nat (length (filter
                (λ d, is_closed closed_month d = false ∧
                      (5 ≤ size (uniq_names
                                   (default [] (assignments ss !! ymd year month d))))%nat)
                (seqZ 1 last))) in
  ∃ flag denom,
    biz_flag_for_month ss year month = Some (flag, meet, denom) ∧
    0 ≤ meet ≤ denom ∧ 1 ≤ denom ≤ 31.
Proof.
  intros Hm closed_month last meet.
  destruct (biz_flag_unfold ss year month Hm) as (j & Hj & Hop & Heq).
  fold closed_month last in Hj, Hop, Heq.
  assert (Hmeet : j = meet).
  { revert Heq. unfold biz_flag_for_month.
    destruct (monthrange_days year month Hm) as (day1 & -> & _).
    cbn [mbind option_bind]. fold closed_month last.
    replace (last + 1 - 1) with last by lia.
    rewrite biz_fold_count. fold meet. intros [= _ Hj' _]. lia. }
  subst j. rewrite Heq. eexists _, _. split; [reflexivity|]. lia.
Qed.

Lemma biz_flag_counts_witness :
  ∃ flag denom,
    biz_flag_for_month booked_session 2026 1
      = Some (flag,
              Z.of_nat (length (filter
                (λ d, is_closed (default ∅ (closed booked_session !! ym 2026 1)) d = false ∧
                      (5 ≤ size (uniq_names
                              (default [] (assignments booked_session !! ymd 2026 1 d))))%nat)
                (seqZ 1 (Calendar.days_in_month 2026 1)))),
              denom) ∧
    0 ≤ Z.of_nat (length (filter
                (λ d, is_closed (default ∅ (closed booked_session !! ym 2026 1)) d = false ∧
                      (5 ≤ size (uniq_names
                              (default [] (assignments booked_session !! ymd 2026 1 d))))%nat)
                (seqZ 1 (Calendar.days_in_month 2026 1)))) ≤ denom ∧
    1 ≤ denom ≤ 31.
Proof. apply (biz_flag_counts booked_session 2026 1). lia. Defined.

(** Two sessions with the same closed days and, date by date, the same set
    of names outside business income get the same result. *)
Lemma biz_flag_only_names (ss1 ss2 : session) (year month : Z) :
  closed ss1 = closed ss2 →
  (∀ k, uniq_names (default [] (assignments ss1 !! k))
        = uniq_names (default [] (assignments ss2 !! k))) →
  biz_flag_for_month ss1 year month = biz_flag_for_month ss2 year month.
Proof.
  intros Hclosed Hnames. unfold biz_flag_for_month. rewrite Hclosed.
  destruct (Calendar.monthrange year month) as [[day1 last]|]; [|done].
  cbn [mbind option_bind].
  assert (Hfold : ∀ ds acc,
            foldl (biz_day (default ∅ (closed ss2 !! ym year month)) (assignments ss1)
                     year month) acc ds
            = foldl (biz_day (default ∅ (closed ss2 !! ym year month)) (assignments ss2)
                       year month) acc ds).
  { induction ds as [|d ds IH]; intros acc; [done|].
    cbn [foldl]. rewrite IH. f_equal. unfold biz_day. destruct acc as [op mt].
    by rewrite Hnames. }
  by rewrite Hfold.
Qed.

(** X26: rows of the employment type "사업소득" never count: taking them
    all out of the roster leaves the result of the threshold evaluation
    unchanged. *)
Theorem biz_flag_ignores_business_income (ss : session) (year month : Z) :
  biz_flag_for_month
    (with_assignments ss
       (filter (λ r, sh_employment_type r ≠ BUSINESS_INCOME) <$> assignments ss))
    year month
  = biz_flag_for_month ss year month.
Proof.
  apply biz_flag_only_names; [done|].
  intros k. cbn [assignments with_assignments]. rewrite lookup_fmap.
  destruct (assignments ss !! k) as [l|]; [|done]. cbn. unfold uniq_names.
  do 2 f_equal. apply filter_all. intros r Hr. by apply list_elem_of_filter in Hr as [? _].
Qed.

(* ===================================================================== *)
(** ** Deleting employees without shifts, and in either order *)
(* ===================================================================== *)

(** X27: in a roster without empty lists, deleting an employee whose name
    is on no list leaves the roster as it is. *)
Theorem delete_employee_without_shifts (ss : session) (i : nat) (e : Employee) :
  roster_ok (assignments ss) →
  employees ss !! i = Some e →
  (∀ k l, assignments ss !! k = Some l → name e ∉ sh_name <$> l) →
  assignments (delete_employee ss i) = assignments ss.
Proof.
  intros Hok He Hfree. unfold delete_employee. rewrite He. cbn.
  apply map_eq. intros k. rewrite cascade_lookup.
  destruct (assignments ss !! k) as [l|] eqn:Hk; [|done]. cbn. unfold without_name.
  rewrite filter_all.
  - destruct l; [by destruct (Hok _ _ Hk) | done].
  - intros r Hr Heq. apply (Hfree k l Hk). rewrite <- Heq. by apply list_elem_of_fmap_2.
Qed.

Lemma delete_employee_without_shifts_witness :
  assignments (delete_employee booked_session 2) = assignments booked_session.
Proof.
  apply (delete_employee_without_shifts booked_session 2
           {| name := u "다"; phone := []; role := u "배달";
              employment_type := u "사업소득"; available_days := [u "월"] |});
    [by_evaluation | reflexivity | by_evaluation].
Defined.

Lemma without_name_twice (a b : list N) (arr : list Shift) :
  without_name b arr ≫= without_name a
  = match filter (λ r, sh_name r ≠ a ∧ sh_name r ≠ b) arr with
    | [] => None
    | l => Some l
    end.
Proof.
  unfold without_name.
  assert (Hff : filter (λ r, sh_name r ≠ a) (filter (λ r, sh_name r ≠ b) arr)
                = filter (λ r, sh_name r ≠ a ∧ sh_name r ≠ b) arr)
    by apply list_filter_filter.
  destruct (filter (λ r, sh_name r ≠ b) arr) as [|r l] eqn:E.
  - cbn [mbind option_bind]. rewrite <- Hff. reflexivity.
  - cbn [mbind option_bind]. by rewrite Hff.
Qed.

(** X28: the loop that removes the rows of a deleted employee can be run
    for two names in either order: the roster that results is the same. *)
Theorem cascade_commutes (a b : list N) (asg : gmap (list N) (list Shift)) :
  cascade a (cascade b asg) = cascade b (cascade a asg).
Proof.
  apply map_eq. intros k. rewrite !cascade_lookup.
  destruct (asg !! k) as [arr|]; [|done]. cbn [mbind option_bind].
  rewrite !without_name_twice.
  assert (Hsym : filter (λ r, sh_name r ≠ a ∧ sh_name r ≠ b) arr
                 = filter (λ r, sh_name r ≠ b ∧ sh_name r ≠ a) arr)
    by (apply list_filter_iff; intros r; tauto).
  by rewrite Hsym.
Qed.

(* ===================================================================== *)
(** ** Saving the closed days *)
(* ===================================================================== *)

Lemma pick_fold_lookup (checked : Z → bool) (ds : list Z) :
  ∀ (picked : gmap Z Z) (d : Z),
    foldl (pick_day checked) picked ds !! d =
      if decide (d ∈ ds) then (if checked d then Some 1 else None) else picked !! d.
Proof.
  induction ds as [|d0 ds IH]; intros picked d.
  - cbn. by rewrite decide_False by apply not_elem_of_nil.
  - cbn [foldl]. rewrite IH. destruct (decide (d ∈ ds)) as [Hin|Hnin].
    + by rewrite decide_True by by right.
    + unfold pick_day. destruct (decide (d = d0)) as [->|Hne].
      * rewrite decide_True by left.
        destruct (checked d0); [apply lookup_insert_eq | apply lookup_delete_eq].
      * rewrite decide_False by (intros [?|?]%elem_of_cons; done).
        destruct (checked d0); [by rewrite lookup_insert_ne | by rewrite lookup_delete_ne].
Qed.

Lemma save_closed_Some (ss : session) (y m : Z) (checked : Z → bool) :
  1 ≤ m ≤ 12 →
  save_closed ss y m checked =
    Some {| employees := employees ss; assignments := assignments ss;
            closed := <[ym y m := foldl (pick_day checked) (default ∅ (closed ss !! ym y m))
                                       (seqZ 1 (Calendar.days_in_month y m))]> (closed ss);
            upload_token := upload_token ss |}.
Proof.
  intros Hm. unfold save_closed.
  destruct (monthrange_days y m Hm) as (day1 & -> & _). cbn [mbind option_bind].
  by replace (Calendar.days_in_month y m + 1 - 1) with (Calendar.days_in_month y m) by lia.
Qed.

Lemma filter_length_ext {A} (P Q : A → Prop) `{!∀ x, Decision (P x)} `{!∀ x, Decision (Q x)}
    (l : list A) :
  (∀ x, x ∈ l → (P x ↔ Q x)) → length (filter P l) = length (filter Q l).
Proof.
  induction l as [|x l IH]; intros Hext; [done|].
  assert (Hl : ∀ x, x ∈ l → (P x ↔ Q x)) by (intros y Hy; apply Hext; by right).
  pose proof (Hext x ltac:(left)) as Hx.
  destruct (decide (P x)) as [HP|HP].
  - rewrite (filter_cons_True P), (filter_cons_True Q) by tauto. cbn. f_equal. by apply IH.
  - rewrite (filter_cons_False P), (filter_cons_False Q) by tauto. by apply IH.
Qed.

(** X29: saving the dialog for a month in [1..12] goes through, leaves the
    directory and the roster alone, and afterwards a day of the month is
    closed exactly when its box was ticked; entries for other day numbers
    stay as they were. *)
Theorem save_closed_sets_days (ss : session) (y m : Z) (checked : Z → bool) :
  1 ≤ m ≤ 12 →
  ∃ ss',
    save_closed ss y m checked = Some ss' ∧
    employees ss' = employees ss ∧ assignments ss' = assignments ss ∧
    (∀ d, 1 ≤ d ≤ Calendar.days_in_month y m →
          is_closed (default ∅ (closed ss' !! ym y m)) d = checked d) ∧
    (∀ d, ¬ 1 ≤ d ≤ Calendar.days_in_month y m →
          default ∅ (closed ss' !! ym y m) !! d = default ∅ (closed ss !! ym y m) !! d).
Proof.
  intros Hm. eexists. split; [by apply save_closed_Some|].
  cbn [employees assignments closed]. split; [done|]. split; [done|].
  rewrite lookup_insert_eq. cbn [default from_option id]. split.
  - intros d Hd. unfold is_closed. rewrite pick_fold_lookup.
    rewrite decide_True by (apply elem_of_seqZ; lia). by destruct (checked d).
  - intros d Hd. rewrite pick_fold_lookup.
    by rewrite decide_False by (intros ?%elem_of_seqZ; lia).
Qed.

Lemma save_closed_sets_days_witness :
  ∃ ss',
    save_closed sample_session 2026 1 (λ d, d mod 7 =? 0) = Some ss' ∧
    employees ss' = employees sample_session ∧ assignments ss' = assignments sample_session ∧
    (∀ d, 1 ≤ d ≤ Calendar.days_in_month 2026 1 →
          is_closed (default ∅ (closed ss' !! ym 2026 1)) d = (d mod 7 =? 0)) ∧
    (∀ d, ¬ 1 ≤ d ≤ Calendar.days_in_month 2026 1 →
          default ∅ (closed ss' !! ym 2026 1) !! d
          = default ∅ (closed sample_session !! ym 2026 1) !! d).
Proof. apply (save_closed_sets_days sample_session 2026 1 (λ d, d mod 7 =? 0)). lia. Defined.

(** X30: after the closed days of a month are saved, the denominator of
    the threshold evaluation for that month is the number of days of the
    month minus the number of ticked boxes, but at least 1. *)
Theorem save_closed_then_operating (ss ss' : session) (y m : Z) (checked : Z → bool) :
  1 ≤ m ≤ 12 →
  save_closed ss y m checked = Some ss' →
  ∃ flag meet,
    biz_flag_for_month ss' y m =
      Some (flag, meet,
            Z.max 1 (Calendar.days_in_month y m
                     - Z.of_nat (length (filter (λ d, checked d = true)
                                           (seqZ 1 (Calendar.days_in_month y m)))))).
Proof.
  intros Hm Hsave.
  destruct (save_closed_sets_days ss y m checked Hm) as (ss0 & Hsave0 & _ & _ & Hdays & _).
  rewrite Hsave in Hsave0. injection Hsave0 as <-.
  destruct (biz_flag_unfold ss' y m Hm) as (meet & _ & _ & Heq).
  eexists _, meet. rewrite Heq. do 3 f_equal. unfold closed_days. do 2 f_equal.
  apply filter_length_ext. intros d Hd%elem_of_seqZ. rewrite Hdays by lia. done.
Qed.

Lemma save_closed_then_operating_witness :
  ∃ flag meet,
    biz_flag_for_month sample_closed_saved 2026 1 =
      Some (flag, meet,
            Z.max 1 (Calendar.days_in_month 2026 1
                     - Z.of_nat (length (filter (λ d, (d mod 7 =? 0) = true)
                                           (seqZ 1 (Calendar.days_in_month 2026 1)))))).
Proof.
  apply (save_closed_then_operating sample_session sample_closed_saved 2026 1
           (λ d, d mod 7 =? 0)); [lia | vm_compute; reflexivity].
Defined.
